(** * The run-query driver (src/progly/run-query.cc)

    A shallow embedding of the client-side query driver: the worker that
    evaluates completed I/Os, the completion callback, the orchestrator's
    argument checks and target list, and the dispatch loop as a transition
    system over the file-scope state of the program.

    Conventions.
    - [unsigned] and [uint64_t] values are [Z] with the wrap-around written
      out ([u32], [u64]); [int] values are [Z].
    - [double] values are IEEE 754 binary64 values, [spec_float]; the program
      only compares them.
    - A [const char *] into a buffer is the list of bytes from the pointee to
      the end of the buffer, so pointer arithmetic is [skipn].
    - [assert] is active: a failed assertion aborts the process. *)

From Stdlib Require Import String Ascii ZArith List Bool Lia.
From Stdlib Require Import Strings.Byte Floats.SpecFloat Numbers.DecimalString.
From Stdlib Require Numbers.DecimalN.
Import ListNotations.
Open Scope Z_scope.

(** ** Machine integers *)

Definition u32 (z : Z) : Z := z mod 2 ^ 32.
Definition u64 (z : Z) : Z := z mod 2 ^ 64.

(** [c += v] on a [std::atomic<unsigned>]: [v] is converted to [unsigned]
    and the sum wraps. *)
Definition add32 (c v : Z) : Z := u32 (c + v).

(** ** How a run of the process can end *)

Inductive failure : Type :=
| AssertFailed (expr : string)   (* assert(expr) with expr false *)
| CheckretFailed (r : Z)         (* checkret(r, v) with r <> v *)
| BufferError                    (* a ceph::buffer::error that nothing catches *)
| NullDereference                (* a null pointer is dereferenced *)
| ModelFuel.                     (* never produced, see [frame_loop_fuel] *)

Inductive outcome (A : Type) : Type :=
| Ok (a : A)
| Abort (f : failure)
| Exit (code : Z).

Arguments Ok {A} a.
Arguments Abort {A} f.
Arguments Exit {A} code.

Definition bind {A B : Type} (m : outcome A) (k : A -> outcome B) : outcome B :=
  match m with
  | Ok a => k a
  | Abort f => Abort f
  | Exit c => Exit c
  end.

Notation "x <- m ;; k" := (bind m (fun x => k))
  (at level 61, m at next level, right associativity).

Definition assert (cond : bool) (expr : string) : outcome unit :=
  if cond then Ok tt else Abort (AssertFailed expr).

(** ** Buffers of the storage client *)

(** Modelled from the spec: [ceph::bufferlist], its iterator and [::decode]
    belong to the storage client library and are not in run-query.cc.  The
    spec gives the pushdown prefix as three [u64] fields and the framed
    stream as length-prefixed payloads whose decoding fails when a prefix
    overruns the range; the integers are little-endian and the length prefix
    is a [u32], as in the client library. An iterator is the list of bytes
    not yet consumed; a decoder returns [None] where the library throws. *)
Module Wire.

Definition iterator : Type := list byte.

Definition get_remaining (it : iterator) : Z := Z.of_nat (length it).

Definition copy (n : nat) (it : iterator) : option (list byte * iterator) :=
  if (length it <? n)%nat then None else Some (firstn n it, skipn n it).

Fixpoint le_value (bs : list byte) : Z :=
  match bs with
  | [] => 0
  | b :: rest => Z.of_N (Byte.to_N b) + 256 * le_value rest
  end.

Definition decode_uint (width : nat) (it : iterator) : option (Z * iterator) :=
  match copy width it with
  | Some (bs, it') => Some (le_value bs, it')
  | None => None
  end.

Definition decode_u64 : iterator -> option (Z * iterator) := decode_uint 8.
Definition decode_u32 : iterator -> option (Z * iterator) := decode_uint 4.

(** [::decode(bufferlist&, it)]: a [u32] length, then that many bytes. *)
Definition decode_bufferlist (it : iterator) : option (list byte * iterator) :=
  match decode_u32 it with
  | Some (len, it') => copy (Z.to_nat len) it'
  | None => None
  end.

(** Encoders, for building payloads. *)
Definition byte_of_Z (z : Z) : byte :=
  match Byte.of_N (Z.to_N (z mod 256)) with
  | Some b => b
  | None => x00
  end.

Fixpoint le_bytes (width : nat) (z : Z) : list byte :=
  match width with
  | O => []
  | S w => byte_of_Z z :: le_bytes w (z / 256)
  end.

Definition encode_u64 (z : Z) : list byte := le_bytes 8 z.
Definition encode_u32 (z : Z) : list byte := le_bytes 4 z.
Definition encode_bufferlist (bl : list byte) : list byte :=
  encode_u32 (Z.of_nat (length bl)) ++ bl.

(** The frames a stream decodes to, by the loop of the worker: decode one
    bufferlist while bytes remain. *)
Inductive frames : iterator -> list (list byte) -> Prop :=
| frames_end : frames [] []
| frames_next it fb it' fbs :
    it <> [] ->
    decode_bufferlist it = Some (fb, it') ->
    frames it' fbs ->
    frames it (fb :: fbs).

End Wire.

(** ** The fixed row layout *)

Module Row.

Definition ptr : Type := list byte.

Definition advance (p : ptr) (off : Z) : ptr := skipn (Z.to_nat off) p.

Definition double_of_bits (b : Z) : spec_float :=
  let s := Z.testbit b 63 in
  let e := Z.land (Z.shiftr b 52) 2047 in
  let m := Z.land b (2 ^ 52 - 1) in
  if e =? 2047 then (if m =? 0 then S754_infinity s else S754_nan)
  else if e =? 0 then
    match m with
    | Zpos p => S754_finite s p (-1074)
    | _ => S754_zero s
    end
  else
    match m + 2 ^ 52 with
    | Zpos p => S754_finite s p (e - 1075)
    | _ => S754_zero s
    end.

(** Dereferencing [p] cast to a pointer to [int], and to a pointer to
    [double], on a little-endian host. *)
Definition load_int (p : ptr) : Z :=
  let u := Wire.le_value (firstn 4 p) in
  if u <? 2 ^ 31 then u else u - 2 ^ 32.

Definition load_double (p : ptr) : spec_float :=
  double_of_bits (Wire.le_value (firstn 8 p)).

Definition order_key_field_offset : Z := 0.
Definition line_number_field_offset : Z := 12.
Definition quantity_field_offset : Z := 16.
Definition extended_price_field_offset : Z := 24.
Definition discount_field_offset : Z := 32.
Definition shipdate_field_offset : Z := 50.
Definition comment_field_offset : Z := 97.
Definition comment_field_length : Z := 44.

Fixpoint upto_nul (bs : list byte) : list byte :=
  match bs with
  | [] => []
  | b :: rest => if Byte.eqb b x00 then [] else b :: upto_nul rest
  end.

(** [string_ncopy(buffer, buffer_size)]: the bytes before the first NUL
    among the first [buffer_size]. *)
Definition string_ncopy (buffer : ptr) (buffer_size : Z) : list byte :=
  upto_nul (firstn (Z.to_nat buffer_size) buffer).

End Row.

(** ** Records of the program *)

Record timing : Type := mk_timing {
  dispatch : Z;
  response : Z;
  read_ns : Z;
  eval_ns : Z;
  eval2_ns : Z
}.

Definition set_response (v : Z) (t : timing) : timing :=
  mk_timing (dispatch t) v (read_ns t) (eval_ns t) (eval2_ns t).
Definition set_read_ns (v : Z) (t : timing) : timing :=
  mk_timing (dispatch t) (response t) v (eval_ns t) (eval2_ns t).
Definition set_eval_ns (v : Z) (t : timing) : timing :=
  mk_timing (dispatch t) (response t) (read_ns t) v (eval2_ns t).
Definition set_eval2_ns (v : Z) (t : timing) : timing :=
  mk_timing (dispatch t) (response t) (read_ns t) (eval_ns t) v.

(** The completion handle of the storage client; the client stores the
    return value of the request in it before it calls back. *)
Record AioCompletion : Type := mk_completion { get_return_value : Z }.

Record AioState : Type := mk_aio {
  bl : list byte;
  c : option AioCompletion;
  times : timing
}.

(** Modelled from the spec: the column descriptor and the root header of a
    self-describing buffer are declared in cls_tabular_utils.h, which is not
    in src/. The spec lists a column descriptor as index, name, type,
    nullable, is_key, and the root header as exposing at least the row count
    and a schema tag. *)
Record col_info : Type := mk_col {
  col_idx : Z;
  col_name : string;
  col_type : Z;
  col_nullable : bool;
  col_is_key : bool
}.

Definition schema_vec : Type := list col_info.

Record sky_root_header : Type := mk_root { nrows : Z; schema_tag : Z }.

(** The external collaborators the driver calls: the [Tables] helpers of
    cls_tabular_utils, the regular-expression engine, [boost::trim] and
    [std::random_shuffle]. A function with an output parameter returns it
    next to its return code. *)
Record collaborators : Type := mk_collab {
  EmptySchema : Z;
  BadColInfoFormat : Z;
  lineitem_test_schema_string : string;
  getSchemaFromSchemaString : string -> Z * schema_vec;
  getSchemaFromProjectCols : schema_vec -> string -> schema_vec;
  getSchemaStrFromSchema : schema_vec -> string;
  getSkyRootHeader : list byte -> sky_root_header;
  processSkyFb : schema_vec -> schema_vec -> list byte -> Z * string * list byte;
  PartialMatch : list byte -> string -> bool;
  trim : string -> string;
  random_shuffle : list string -> list string;
  show_double : spec_float -> string   (* a double written with operator<< *)
}.

(** The file-scope knobs and query parameters, set from the command line
    and by the sanity checks of [main]. *)
Record globals : Type := mk_globals {
  quiet : bool;
  use_cls : bool;
  query : string;
  use_index : bool;
  projection : bool;
  build_index_batch_size : Z;
  extra_row_cost : Z;
  extended_price : spec_float;
  order_key : Z;
  line_number : Z;
  ship_date_low : Z;
  ship_date_high : Z;
  discount_low : spec_float;
  discount_high : spec_float;
  quantity : spec_float;
  comment_regex : string;
  table_schema_str : string;
  query_schema_str : string;
  fastpath : bool
}.

(** What [print_row] and [print_fb] write, field by field. *)
Inductive out_line : Type :=
| RowProjected (order_key_v line_number_v : Z)
| RowFull (extended_price_v : spec_float) (order_key_v line_number_v ship_date_v : Z)
          (discount_v quantity_v : spec_float) (comment_v : list byte)
| SkyFb (fb : list byte) (schema : schema_vec)
| Text (s : string).

(** The shared counters, the busy-loop sink [__tabular_x] and the two output
    streams. *)
Record work : Type := mk_work {
  result_count : Z;
  rows_returned : Z;
  nrows_processed : Z;
  tabular_x : Z;
  cout : list out_line;
  cerr : list string
}.

Definition add_result_count (v : Z) (w : work) : work :=
  mk_work (add32 (result_count w) v) (rows_returned w) (nrows_processed w)
          (tabular_x w) (cout w) (cerr w).
Definition add_rows_returned (v : Z) (w : work) : work :=
  mk_work (result_count w) (add32 (rows_returned w) v) (nrows_processed w)
          (tabular_x w) (cout w) (cerr w).
Definition add_nrows_processed (v : Z) (w : work) : work :=
  mk_work (result_count w) (rows_returned w) (add32 (nrows_processed w) v)
          (tabular_x w) (cout w) (cerr w).
Definition set_tabular_x (v : Z) (w : work) : work :=
  mk_work (result_count w) (rows_returned w) (nrows_processed w)
          v (cout w) (cerr w).
Definition put_cout (l : out_line) (w : work) : work :=
  mk_work (result_count w) (rows_returned w) (nrows_processed w)
          (tabular_x w) (cout w ++ [l]) (cerr w).
Definition put_cerr (l : string) (w : work) : work :=
  mk_work (result_count w) (rows_returned w) (nrows_processed w)
          (tabular_x w) (cout w) (cerr w ++ [l]).

(** ** Printing *)

Definition print_row (g : globals) (row : Row.ptr) (w : work) : work :=
  if quiet g then w
  else
    let order_key_field_offset := 0 in
    let line_number_field_offset := if projection g && use_cls g then 4 else 12 in
    let quantity_field_offset := 16 in
    let extended_price_field_offset := 24 in
    let discount_field_offset := 32 in
    let shipdate_field_offset := 50 in
    let comment_field_offset := 97 in
    let comment_field_length := 44 in
    let extended_price_v := Row.load_double (Row.advance row extended_price_field_offset) in
    let order_key_v := Row.load_int (Row.advance row order_key_field_offset) in
    let line_number_v := Row.load_int (Row.advance row line_number_field_offset) in
    let ship_date_v := Row.load_int (Row.advance row shipdate_field_offset) in
    let discount_v := Row.load_double (Row.advance row discount_field_offset) in
    let quantity_v := Row.load_double (Row.advance row quantity_field_offset) in
    let comment_v :=
      Row.string_ncopy (Row.advance row comment_field_offset) comment_field_length in
    if projection g then put_cout (RowProjected order_key_v line_number_v) w
    else put_cout (RowFull extended_price_v order_key_v line_number_v ship_date_v
                           discount_v quantity_v comment_v) w.

Definition print_fb (g : globals) (fb : list byte) (schema : schema_vec) (w : work) : work :=
  if quiet g then w else put_cout (SkyFb fb schema) w.

(** The busy loop: [for (i = 0; i < cost; i++) __tabular_x += i]. *)
Definition add_extra_row_cost (cost : Z) (w : work) : work :=
  set_tabular_x
    (snd (Z.iter cost (fun ix => (fst ix + 1, u64 (snd ix + fst ix))) (0, tabular_x w)))
    w.

(** ** The worker: evaluation of one completed I/O *)

(** [for (size_t rid = 0; rid < num_rows; rid++) body]. *)
Definition for_rows (num_rows : Z) (body : Z -> work -> work) (w : work) : work :=
  fold_left (fun acc rid => body (Z.of_nat rid) acc) (seq 0 (Z.to_nat num_rows)) w.

(** A matching row of a select query: print, count, pay the extra cost. *)
Definition emit_match (g : globals) (row : Row.ptr) (w : work) : work :=
  add_extra_row_cost (extra_row_cost g) (add_result_count 1 (print_row g row w)).

(** A row the server already selected: print and count. *)
Definition emit_row (g : globals) (row : Row.ptr) (w : work) : work :=
  add_result_count 1 (print_row g row w).

Section Worker.

Variable K : collaborators.
Variable g : globals.

(** The three statistics in front of a pushdown response. *)
Definition decode_cls_stats (it : Wire.iterator) : option (Z * Z * Z * Wire.iterator) :=
  match Wire.decode_u64 it with
  | None => None
  | Some (rd, it1) =>
    match Wire.decode_u64 it1 with
    | None => None
    | Some (ev, it2) =>
      match Wire.decode_u64 it2 with
      | None => None
      | Some (nsp, it3) => Some (rd, ev, nsp, it3)
      end
    end
  end.

(** The body of the frame loop of query "flatbuf", for one decoded
    bufferlist [fb]. *)
Definition process_fb (fb : list byte) (w : work) : outcome work :=
  let root := getSkyRootHeader K fb in
  let w := add_rows_returned (nrows root) w in
  if use_cls g then
    let w := add_result_count (nrows root) w in
    let '(ret, schema_out) := getSchemaFromSchemaString K (query_schema_str g) in
    _ <- assert (negb (ret =? EmptySchema K)) "ret!=Tables::TablesErrCodes::EmptySchema" ;;
    _ <- assert (negb (ret =? BadColInfoFormat K))
                "ret!=Tables::TablesErrCodes::BadColInfoFormat" ;;
    Ok (print_fb g fb schema_out w)
  else
    let w := add_nrows_processed (nrows root) w in
    let '(ret, schema_in) := getSchemaFromSchemaString K (table_schema_str g) in
    _ <- assert (negb (ret =? EmptySchema K)) "ret!=Tables::TablesErrCodes::EmptySchema" ;;
    _ <- assert (negb (ret =? BadColInfoFormat K))
                "ret!=Tables::TablesErrCodes::BadColInfoFormat" ;;
    let '(ret, schema_out) := getSchemaFromSchemaString K (query_schema_str g) in
    _ <- assert (negb (ret =? EmptySchema K)) "ret!=Tables::TablesErrCodes::EmptySchema" ;;
    _ <- assert (negb (ret =? BadColInfoFormat K))
                "ret!=Tables::TablesErrCodes::BadColInfoFormat" ;;
    let more_processing := if projection g then true else false in
    if negb more_processing then
      let w := add_result_count (nrows root) w in
      Ok (print_fb g fb schema_out w)
    else
      let '(ret, errmsg, fb_out) := processSkyFb K schema_in schema_out fb in
      if negb (ret =? 0) then
        let w := put_cerr ("ERROR: run-query() processing flatbuf: " ++ errmsg) w in
        Abort (AssertFailed "processedOK")
      else
        let skyroot := getSkyRootHeader K fb_out in
        let w := add_result_count (nrows skyroot) w in
        Ok (print_fb g fb_out schema_out w).

(** [while (it.get_remaining() > 0) { decode one bufferlist; process it }].
    Every successful decode consumes at least the four bytes of the length,
    so fuel equal to the number of remaining bytes is never used up. *)
Fixpoint frame_loop (fuel : nat) (it : Wire.iterator) (w : work) : outcome work :=
  if Wire.get_remaining it >? 0 then
    match fuel with
    | O => Abort ModelFuel
    | S fuel' =>
      match Wire.decode_bufferlist it with
      | None => Abort (AssertFailed "decode_runquery_noncls")
      | Some (fb, it') =>
        w' <- process_fb fb w ;;
        frame_loop fuel' it' w'
      end
    end
  else Ok w.

Definition eval_flatbuf (s : AioState) (w : work) : outcome (work * timing) :=
  r <- (if use_cls g then
          match decode_cls_stats (bl s) with
          | None => Abort (AssertFailed "decode_runquery_cls")
          | Some (rd, ev, nsp, it) =>
            match Wire.decode_bufferlist it with
            | None => Abort (AssertFailed "decode_runquery_cls")
            | Some (wrapped_bls, _) =>
              Ok (wrapped_bls, set_eval_ns ev (set_read_ns rd (times s)),
                  add_nrows_processed nsp w)
            end
          end
        else Ok (bl s, times s, w)) ;;
  let '(wrapped_bls, times1, w1) := r in
  w2 <- frame_loop (length wrapped_bls) wrapped_bls w1 ;;
  Ok (w2, times1).

(** The loop bodies of the fixed-row queries; [row] points at the record. *)
Definition body_a (row : Row.ptr) (w : work) : work :=
  let val := Row.load_double (Row.advance row Row.extended_price_field_offset) in
  if SFltb (extended_price g) val
  then add_extra_row_cost (extra_row_cost g) (add_result_count 1 w)
  else w.

Definition body_b (row : Row.ptr) (w : work) : work :=
  let val := Row.load_double (Row.advance row Row.extended_price_field_offset) in
  if SFltb (extended_price g) val then emit_match g row w else w.

Definition body_c (row : Row.ptr) (w : work) : work :=
  let val := Row.load_double (Row.advance row Row.extended_price_field_offset) in
  if SFeqb val (extended_price g) then emit_match g row w else w.

Definition body_d (row : Row.ptr) (w : work) : work :=
  let order_key_val := Row.load_int (Row.advance row Row.order_key_field_offset) in
  if order_key_val =? order_key g then
    let line_number_val := Row.load_int (Row.advance row Row.line_number_field_offset) in
    if line_number_val =? line_number g then emit_match g row w else w
  else w.

Definition body_e (row : Row.ptr) (w : work) : work :=
  let shipdate_val := Row.load_int (Row.advance row Row.shipdate_field_offset) in
  if (shipdate_val >=? ship_date_low g) && (shipdate_val <? ship_date_high g) then
    let discount_val := Row.load_double (Row.advance row Row.discount_field_offset) in
    if SFltb (discount_low g) discount_val && SFltb discount_val (discount_high g) then
      let quantity_val := Row.load_double (Row.advance row Row.quantity_field_offset) in
      if SFltb quantity_val (quantity g) then emit_match g row w else w
    else w
  else w.

Definition body_f (row : Row.ptr) (w : work) : work :=
  let comment_val :=
    Row.string_ncopy (Row.advance row Row.comment_field_offset) Row.comment_field_length in
  if PartialMatch K comment_val (comment_regex g) then emit_match g row w else w.

(** The branch for the fixed-row queries ("older processing code"). The
    local bufferlist [bl] receives the response only when [use_cls] is
    false; with [use_cls] the statistics are decoded from the response and
    [bl] stays empty. *)
Definition eval_rows (s : AioState) (w : work) : outcome (work * timing) :=
  r <- (if use_cls g then
          match decode_cls_stats (bl s) with
          | None => Abort (AssertFailed "decode_runquery_cls")
          | Some (rd, ev, nsp, _) =>
            Ok ([], set_eval_ns ev (set_read_ns rd (times s)), nsp)
          end
        else Ok (bl s, times s, 0)) ;;
  let '(bl, times1, nrows_server_processed) := r in
  let row_size := if projection g && use_cls g then 8 else 141 in
  let rows : Row.ptr := bl in
  let num_rows := Z.of_nat (length bl) / row_size in
  let at_row (body : Row.ptr -> work -> work) (rid : Z) : work -> work :=
    body (Row.advance rows (rid * row_size)) in
  let w := add_rows_returned num_rows w in
  let w := if use_cls g
           then add_nrows_processed nrows_server_processed w
           else add_nrows_processed num_rows w in
  w' <- (if (query g =? "a")%string then
           if use_cls g then
             match Wire.decode_u64 bl with
             | None => Abort BufferError
             | Some (matching_rows, _) => Ok (add_result_count matching_rows w)
             end
           else if projection g && use_cls g then Ok (add_result_count num_rows w)
           else Ok (for_rows num_rows (at_row body_a) w)
         else if (query g =? "b")%string then
           if projection g && use_cls g
           then Ok (for_rows num_rows (at_row (emit_row g)) w)
           else Ok (for_rows num_rows (at_row body_b) w)
         else if (query g =? "c")%string then
           if projection g && use_cls g
           then Ok (for_rows num_rows (at_row (emit_row g)) w)
           else Ok (for_rows num_rows (at_row body_c) w)
         else if (query g =? "d")%string then
           if projection g && use_cls g
           then Ok (for_rows num_rows (at_row (emit_row g)) w)
           else Ok (for_rows num_rows (at_row body_d) w)
         else if (query g =? "e")%string then
           if projection g && use_cls g
           then Ok (for_rows num_rows (at_row (emit_row g)) w)
           else Ok (for_rows num_rows (at_row body_e) w)
         else if (query g =? "f")%string then
           if projection g && use_cls g
           then Ok (for_rows num_rows (at_row (emit_row g)) w)
           else Ok (for_rows num_rows (at_row body_f) w)
         else if (query g =? "fastpath")%string then
           Ok (for_rows num_rows (at_row (emit_row g)) w)
         else Abort (AssertFailed "0")) ;;
  Ok (w', times1).

(** One iteration of [worker] after the I/O was taken from the queue:
    [eval2_start] and [eval2_end] are the two readings of the clock. *)
Definition worker_eval (eval2_start eval2_end : Z) (s : AioState) (w : work)
  : outcome (work * timing) :=
  r <- (if (query g =? "flatbuf")%string then eval_flatbuf s w else eval_rows s w) ;;
  let '(w', times1) := r in
  Ok (w', set_eval2_ns (u64 (eval2_end - eval2_start)) times1).

End Worker.

(** ** The shared state of the process and its threads *)

(** The request an [AioState] was submitted with. *)
Record query_op : Type := mk_query_op {
  op_query : string;
  op_extended_price : spec_float;
  op_order_key : Z;
  op_line_number : Z;
  op_ship_date_low : Z;
  op_ship_date_high : Z;
  op_discount_low : spec_float;
  op_discount_high : spec_float;
  op_quantity : spec_float;
  op_comment_regex : string;
  op_use_index : bool;
  op_projection : bool;
  op_fastpath : bool;
  op_table_schema_str : string;
  op_query_schema_str : string;
  op_extra_row_cost : Z
}.

Inductive request : Type :=
| aio_read (oid : string)
| aio_exec (oid cls method : string) (op : query_op).

Inductive signal : Type :=
| work_cond_notify_one
| work_cond_notify_all
| dispatch_cond_notify_one.

(** Where the dispatching thread ([main]) stands. *)
Inductive dispatcher_pc : Type :=
| DLoop        (* holds dispatch_lock, at the test of the inner loop *)
| DSubmitted   (* request submitted, lock released, before lock(); outstanding_ios++ *)
| DWaiting     (* inside dispatch_cond.wait *)
| DDraining    (* in the drain loop *)
| DDrained     (* left the drain loop, before stop = true *)
| DJoining     (* stop is set, joining the workers *)
| DDone.       (* summary printed *)

(** Where a worker thread stands. *)
Inductive worker_pc : Type :=
| WIdle                  (* at the head of its loop *)
| WTaken (s : AioState)  (* popped [s], before outstanding_ios-- *)
| WEval (s : AioState)   (* before evaluating [s] *)
| WPush (t : timing)     (* evaluated, before timings.push_back *)
| WExited.

Record sys : Type := mk_sys {
  outstanding_ios : Z;
  target_objects : list string;
  ready_ios : list AioState;
  timings : list timing;
  stop : bool;
  shared : work;
  in_flight : list (request * AioState);   (* held by the storage client *)
  dispatcher : dispatcher_pc;
  workers : list worker_pc;
  (* instrumentation, read by no step *)
  dispatched : list string;                (* object names, in dispatch order *)
  consumed : Z;                            (* completions taken by workers *)
  signals : list signal                    (* condition-variable notifications *)
}.

Definition with_outstanding_ios (v : Z) (st : sys) : sys :=
  mk_sys v (target_objects st) (ready_ios st) (timings st) (stop st) (shared st)
         (in_flight st) (dispatcher st) (workers st) (dispatched st) (consumed st)
         (signals st).
Definition with_target_objects (v : list string) (st : sys) : sys :=
  mk_sys (outstanding_ios st) v (ready_ios st) (timings st) (stop st) (shared st)
         (in_flight st) (dispatcher st) (workers st) (dispatched st) (consumed st)
         (signals st).
Definition with_ready_ios (v : list AioState) (st : sys) : sys :=
  mk_sys (outstanding_ios st) (target_objects st) v (timings st) (stop st) (shared st)
         (in_flight st) (dispatcher st) (workers st) (dispatched st) (consumed st)
         (signals st).
Definition with_timings (v : list timing) (st : sys) : sys :=
  mk_sys (outstanding_ios st) (target_objects st) (ready_ios st) v (stop st) (shared st)
         (in_flight st) (dispatcher st) (workers st) (dispatched st) (consumed st)
         (signals st).
Definition with_stop (v : bool) (st : sys) : sys :=
  mk_sys (outstanding_ios st) (target_objects st) (ready_ios st) (timings st) v (shared st)
         (in_flight st) (dispatcher st) (workers st) (dispatched st) (consumed st)
         (signals st).
Definition with_shared (v : work) (st : sys) : sys :=
  mk_sys (outstanding_ios st) (target_objects st) (ready_ios st) (timings st) (stop st) v
         (in_flight st) (dispatcher st) (workers st) (dispatched st) (consumed st)
         (signals st).
Definition with_in_flight (v : list (request * AioState)) (st : sys) : sys :=
  mk_sys (outstanding_ios st) (target_objects st) (ready_ios st) (timings st) (stop st)
         (shared st) v (dispatcher st) (workers st) (dispatched st) (consumed st)
         (signals st).
Definition with_dispatcher (v : dispatcher_pc) (st : sys) : sys :=
  mk_sys (outstanding_ios st) (target_objects st) (ready_ios st) (timings st) (stop st)
         (shared st) (in_flight st) v (workers st) (dispatched st) (consumed st)
         (signals st).
Definition with_workers (v : list worker_pc) (st : sys) : sys :=
  mk_sys (outstanding_ios st) (target_objects st) (ready_ios st) (timings st) (stop st)
         (shared st) (in_flight st) (dispatcher st) v (dispatched st) (consumed st)
         (signals st).
Definition note_dispatched (oid : string) (st : sys) : sys :=
  mk_sys (outstanding_ios st) (target_objects st) (ready_ios st) (timings st) (stop st)
         (shared st) (in_flight st) (dispatcher st) (workers st) (dispatched st ++ [oid])
         (consumed st) (signals st).
Definition note_consumed (st : sys) : sys :=
  mk_sys (outstanding_ios st) (target_objects st) (ready_ios st) (timings st) (stop st)
         (shared st) (in_flight st) (dispatcher st) (workers st) (dispatched st)
         (consumed st + 1) (signals st).
Definition note_signal (sg : signal) (st : sys) : sys :=
  mk_sys (outstanding_ios st) (target_objects st) (ready_ios st) (timings st) (stop st)
         (shared st) (in_flight st) (dispatcher st) (workers st) (dispatched st)
         (consumed st) (signals st ++ [sg]).

(** ** The completion callback *)

(** [handle_cb(cb, arg)] with [arg] pointing at [s], at clock reading [now].
    Dereferencing a null completion crashes the process. *)
Definition handle_cb (now : Z) (s : AioState) (st : sys) : outcome sys :=
  let s := mk_aio (bl s) (c s) (set_response now (times s)) in
  match c s with
  | None => Abort NullDereference
  | Some comp =>
    _ <- assert (get_return_value comp >=? 0) "s->c->get_return_value() >= 0" ;;
    let s := mk_aio (bl s) None (times s) in
    let st := with_ready_ios (ready_ios st ++ [s]) st in
    Ok (note_signal work_cond_notify_one st)
  end.

(** ** The threads as a transition system *)

Definition checkret (r v : Z) : outcome unit :=
  if r =? v then Ok tt else Abort (CheckretFailed r).

(** [target_objects.back()] with [pop_back()]. *)
Fixpoint pop_back (v : list string) : option (string * list string) :=
  match v with
  | [] => None
  | [x] => Some (x, [])
  | x :: rest =>
    match pop_back rest with
    | Some (last, rest') => Some (last, x :: rest')
    | None => None
    end
  end.

Fixpoint remove_nth {A : Type} (k : nat) (l : list A) : list A :=
  match k, l with
  | _, [] => []
  | O, _ :: rest => rest
  | S k', x :: rest => x :: remove_nth k' rest
  end.

Fixpoint replace_nth {A : Type} (k : nat) (v : A) (l : list A) : list A :=
  match k, l with
  | _, [] => []
  | O, _ :: rest => v :: rest
  | S k', x :: rest => x :: replace_nth k' v rest
  end.

Definition all_exited (ws : list worker_pc) : bool :=
  forallb (fun pc => match pc with WExited => true | _ => false end) ws.

(** Decimal rendering of an unsigned value and of an [int] by [operator<<]. *)
Definition dec (z : Z) : string := NilEmpty.string_of_uint (N.to_uint (Z.to_N z)).
Definition dec_int (z : Z) : string :=
  if z <? 0 then ("-" ++ dec (- z))%string else dec z.

(** What one thread does next; the scheduler and the environment (clock
    readings, the storage client's answers) choose the label. *)
Inductive label : Type :=
| Dispatch (now submit_ret : Z)   (* pop a target and submit its request *)
| Increment                       (* lock(); outstanding_ios++ *)
| Wait                            (* enter dispatch_cond.wait *)
| Wake                            (* return from dispatch_cond.wait *)
| LeaveLoop                       (* target_objects.empty(): break out *)
| DrainPoll                       (* one round of the drain loop *)
| Stop                            (* stop = true; notify_all *)
| Join                            (* join the workers, print the summary *)
| Complete (k : nat) (now ret : Z) (payload : list byte)
                                  (* the k-th request in flight completes *)
| Worker (i : nat) (t0 t1 : Z).   (* worker i runs to its next program point *)

Section Threads.

Variable K : collaborators.
Variable g : globals.
Variable qdepth : Z.

Definition make_query_op : query_op :=
  mk_query_op (query g) (extended_price g) (order_key g) (line_number g)
              (ship_date_low g) (ship_date_high g) (discount_low g)
              (discount_high g) (quantity g) (comment_regex g) (use_index g)
              (projection g) (fastpath g) (table_schema_str g)
              (query_schema_str g) (extra_row_cost g).

(** The summary line of [main]. *)
Definition summary_line (w : work) : string :=
  if (query g =? "a")%string && use_cls g then
    ("total result row count: " ++ dec (result_count w)
      ++ " / -1" ++ "; nrows_processed=" ++ dec (nrows_processed w))%string
  else
    ("total result row count: " ++ dec (result_count w)
      ++ " / " ++ dec (rows_returned w) ++ "; nrows_processed="
      ++ dec (nrows_processed w))%string.

Definition dispatcher_step (l : label) (st : sys) : option (outcome sys) :=
  match l, dispatcher st with
  | Dispatch now submit_ret, DLoop =>
    if outstanding_ios st <? qdepth then
      match pop_back (target_objects st) with
      | None => None
      | Some (oid, rest) =>
        let st := with_target_objects rest st in
        let s := mk_aio [] (Some (mk_completion 0))
                        (mk_timing now 0 0 0 0) in
        let req := if use_cls g
                   then aio_exec oid "tabular" "query_op" make_query_op
                   else aio_read oid in
        Some (_ <- checkret submit_ret 0 ;;
              Ok (with_dispatcher DSubmitted
                    (note_dispatched oid
                       (with_in_flight (in_flight st ++ [(req, s)]) st))))
      end
    else None
  | Increment, DSubmitted =>
    Some (Ok (with_dispatcher DLoop
                (with_outstanding_ios (outstanding_ios st + 1) st)))
  | Wait, DLoop =>
    if outstanding_ios st <? qdepth then None
    else match target_objects st with
         | [] => None
         | _ :: _ => Some (Ok (with_dispatcher DWaiting st))
         end
  | Wake, DWaiting => Some (Ok (with_dispatcher DLoop st))
  | LeaveLoop, DLoop =>
    match target_objects st with
    | [] => Some (Ok (with_dispatcher DDraining st))
    | _ :: _ => None
    end
  | DrainPoll, DDraining =>
    if outstanding_ios st =? 0 then Some (Ok (with_dispatcher DDrained st))
    else Some (Ok (with_shared
                     (put_cout (Text ("draining ios: " ++ dec_int (outstanding_ios st)
                                        ++ " remaining")) (shared st)) st))
  | Stop, DDrained =>
    Some (Ok (with_dispatcher DJoining
                (note_signal work_cond_notify_all (with_stop true st))))
  | Join, DJoining =>
    if all_exited (workers st) then
      Some (Ok (with_dispatcher DDone
                  (with_shared (put_cout (Text (summary_line (shared st))) (shared st))
                               st)))
    else None
  | _, _ => None
  end.

Definition set_worker (i : nat) (pc : worker_pc) (st : sys) : sys :=
  with_workers (replace_nth i pc (workers st)) st.

(** One worker, from one program point of its loop to the next. A worker
    at the head of the loop with nothing ready and [stop] unset waits, so
    it has no step. *)
Definition worker_step (i : nat) (t0 t1 : Z) (st : sys) : option (outcome sys) :=
  match nth_error (workers st) i with
  | None => None
  | Some WIdle =>
    match ready_ios st with
    | [] => if stop st then Some (Ok (set_worker i WExited st)) else None
    | s :: rest => Some (Ok (set_worker i (WTaken s) (with_ready_ios rest st)))
    end
  | Some (WTaken s) =>
    Some (Ok (set_worker i (WEval s)
                (note_signal dispatch_cond_notify_one
                   (note_consumed
                      (with_outstanding_ios (outstanding_ios st - 1) st)))))
  | Some (WEval s) =>
    Some (r <- worker_eval K g t0 t1 s (shared st) ;;
          let '(w', t) := r in
          Ok (set_worker i (WPush t) (with_shared w' st)))
  | Some (WPush t) =>
    Some (Ok (set_worker i WIdle (with_timings (timings st ++ [t]) st)))
  | Some WExited => None
  end.

(** The storage client finishes the k-th request in flight: it fills the
    buffer, stores the return value and calls [handle_cb]. *)
Definition complete_step (k : nat) (now ret : Z) (payload : list byte) (st : sys)
  : option (outcome sys) :=
  match nth_error (in_flight st) k with
  | None => None
  | Some (_, s) =>
    let s := mk_aio payload (option_map (fun _ => mk_completion ret) (c s)) (times s) in
    Some (handle_cb now s (with_in_flight (remove_nth k (in_flight st)) st))
  end.

Definition step (l : label) (st : sys) : option (outcome sys) :=
  match l with
  | Complete k now ret payload => complete_step k now ret payload st
  | Worker i t0 t1 => worker_step i t0 t1 st
  | _ => dispatcher_step l st
  end.

(** A schedule, run from a state; [None] when a label is not enabled. *)
Fixpoint run (ls : list label) (st : sys) : option (outcome sys) :=
  match ls with
  | [] => Some (Ok st)
  | l :: rest =>
    match step l st with
    | Some (Ok st') => run rest st'
    | other => other
    end
  end.

Inductive reachable (st0 : sys) : sys -> Prop :=
| reach_start : reachable st0 st0
| reach_step st l st' :
    reachable st0 st -> step l st = Some (Ok st') -> reachable st0 st'.

End Threads.

(** The state in which [main] starts the workers and enters the dispatch
    loop: counters reset, nothing outstanding, [stop] unset. *)
Definition start_work (printed : list out_line) : work :=
  mk_work 0 0 0 0 printed [].

Definition start (targets : list string) (wthreads : Z) (printed : list out_line) : sys :=
  mk_sys 0 targets [] [] false (start_work printed) [] DLoop
         (repeat WIdle (Z.to_nat wthreads)) [] 0 [].

(** The log file: a header and one line for each element of [timings]. *)
Definition log_line (t : timing) : string :=
  (dec (dispatch t) ++ "," ++ dec (response t) ++ "," ++ dec (read_ns t) ++ ","
    ++ dec (eval_ns t) ++ "," ++ dec (eval2_ns t))%string.

Definition log_file (ts : list timing) : list string :=
  "dispatch,response,read_ns,eval_ns,eval2_ns"%string :: map log_line ts.

(** ** The orchestrator, up to the start of the threads *)

(** What [main] does to the outside world before the dispatch loop. *)
Inductive event : Type :=
| ev_connect
| ev_ioctx_create (pool_name : string)
| ev_exec (oid cls method : string) (inbl : list byte)
| ev_cout (s : string)
| ev_cerr (s : string).

(** An object request of the storage client. *)
Definition is_object_io (e : event) : bool :=
  match e with
  | ev_exec _ _ _ _ => true
  | _ => false
  end.

(** A computation of [main]: the events so far, and how it went on. The
    events stay when the process aborts. *)
Definition traced (A : Type) : Type := (list event * outcome A)%type.

Definition tret {A : Type} (a : A) : traced A := ([], Ok a).

Definition tbind {A B : Type} (m : traced A) (k : A -> traced B) : traced B :=
  match m with
  | (tr, Ok a) => let '(tr', r) := k a in (tr ++ tr', r)
  | (tr, Abort f) => (tr, Abort f)
  | (tr, Exit code) => (tr, Exit code)
  end.

Definition emit (e : event) : traced unit := ([e], Ok tt).
Definition lift {A : Type} (o : outcome A) : traced A := ([], o).

Notation "x <~ m ;; k" := (tbind m (fun x => k))
  (at level 61, m at next level, right associativity).

(** The options that stay local to [main]. *)
Record options : Type := mk_options {
  pool : string;
  num_objs : Z;
  wthreads : Z;
  build_index : bool;
  logfile : string;
  qdepth : Z;
  dir : string;
  projected_col_names : string
}.

(** The answers of the storage cluster to the synchronous calls. *)
Record cluster : Type := mk_cluster {
  connect_ret : Z;
  ioctx_create_ret : Z;
  exec_ret : string -> Z
}.

Definition with_flatbuf (projection' fastpath' : bool) (table_schema_str' query_schema_str' : string)
           (g : globals) : globals :=
  mk_globals (quiet g) (use_cls g) (query g) (use_index g) projection'
             (build_index_batch_size g) (extra_row_cost g) (extended_price g)
             (order_key g) (line_number g) (ship_date_low g) (ship_date_high g)
             (discount_low g) (discount_high g) (quantity g) (comment_regex g)
             table_schema_str' query_schema_str' fastpath'.

Definition oid_of (oidx : Z) : string := ("obj." ++ dec oidx)%string.

(** [for (oidx = 0; oidx < num_objs; oidx++) target_objects.push_back(oid)]. *)
Definition generate_targets (num_objs : Z) : list string :=
  fold_left (fun v oidx => v ++ [oid_of (Z.of_nat oidx)]) (seq 0 (Z.to_nat num_objs)) [].

Definition zero : spec_float := S754_zero false.
Definition sentinel : spec_float := S754_finite true 5497008383066112 (-39).

Section Orchestrator.

Variable K : collaborators.
Variable cl : cluster.

Definition order_targets (dir : string) (v : list string) : outcome (list string) :=
  if (dir =? "fwd")%string then Ok (rev v)
  else if (dir =? "bwd")%string then Ok v
  else if (dir =? "rnd")%string then Ok (random_shuffle K v)
  else Abort (AssertFailed "0").

(** [worker_build_index], on the targets in the order [pop_back] yields
    them. *)
Fixpoint worker_build_index (g : globals) (popped : list string) : traced unit :=
  match popped with
  | [] => tret tt
  | oid :: rest =>
    _ <~ emit (ev_cout ("building index... " ++ oid)) ;;
    _ <~ emit (ev_exec oid "tabular" "build_index"
                       (Wire.encode_u32 (build_index_batch_size g))) ;;
    _ <~ lift (checkret (exec_ret cl oid) 0) ;;
    worker_build_index g rest
  end.

Fixpoint create_ioctxs (pool_name : string) (n : nat) : traced unit :=
  match n with
  | O => tret tt
  | S n' =>
    _ <~ emit (ev_ioctx_create pool_name) ;;
    _ <~ lift (checkret (ioctx_create_ret cl) 0) ;;
    create_ioctxs pool_name n'
  end.

Definition star : string := String "*" EmptyString.
Definition newline : string := String (ascii_of_nat 10) EmptyString.

(** "sanity check queries against provided parameters": the query branch
    of [main]; it returns the knobs as the checks leave them. *)
Definition sanity_check (o : options) (g : globals) : traced globals :=
  if (query g =? "a")%string then
    _ <~ lift (assert (negb (use_index g)) "!use_index") ;;
    _ <~ lift (assert (negb (SFeqb (extended_price g) zero)) "extended_price != 0.0") ;;
    _ <~ emit (ev_cout ("select count(" ++ star ++ ") from lineitem where l_extendedprice > "
                          ++ show_double K (extended_price g))) ;;
    tret g
  else if (query g =? "b")%string then
    _ <~ lift (assert (negb (use_index g)) "!use_index") ;;
    _ <~ lift (assert (negb (SFeqb (extended_price g) zero)) "extended_price != 0.0") ;;
    _ <~ emit (ev_cout ("select " ++ star ++ " from lineitem where l_extendedprice > "
                          ++ show_double K (extended_price g))) ;;
    tret g
  else if (query g =? "c")%string then
    _ <~ lift (assert (negb (use_index g)) "!use_index") ;;
    _ <~ lift (assert (negb (SFeqb (extended_price g) zero)) "extended_price != 0.0") ;;
    _ <~ emit (ev_cout ("select " ++ star ++ " from lineitem where l_extendedprice = "
                          ++ show_double K (extended_price g))) ;;
    tret g
  else if (query g =? "d")%string then
    _ <~ lift (if use_index g then assert (use_cls g) "use_cls" else Ok tt) ;;
    _ <~ lift (assert (negb (order_key g =? 0)) "order_key != 0") ;;
    _ <~ lift (assert (negb (line_number g =? 0)) "line_number != 0") ;;
    _ <~ emit (ev_cout ("select " ++ star ++ " from from lineitem where l_orderkey = "
                          ++ dec_int (order_key g) ++ " and l_linenumber = "
                          ++ dec_int (line_number g))) ;;
    tret g
  else if (query g =? "e")%string then
    _ <~ lift (assert (negb (use_index g)) "!use_index") ;;
    _ <~ lift (assert (negb (ship_date_low g =? -9999)) "ship_date_low != -9999") ;;
    _ <~ lift (assert (negb (ship_date_high g =? -9999)) "ship_date_high != -9999") ;;
    _ <~ lift (assert (negb (SFeqb (discount_low g) sentinel)) "discount_low != -9999.0") ;;
    _ <~ lift (assert (negb (SFeqb (discount_high g) sentinel)) "discount_high != -9999.0") ;;
    _ <~ lift (assert (negb (SFeqb (quantity g) zero)) "quantity != 0.0") ;;
    _ <~ emit (ev_cout ("select " ++ star ++ " from lineitem where l_shipdate >= "
                          ++ dec_int (ship_date_low g) ++ " and l_shipdate < "
                          ++ dec_int (ship_date_high g) ++ " and l_discount > "
                          ++ show_double K (discount_low g) ++ " and l_discount < "
                          ++ show_double K (discount_high g) ++ " and l_quantity < "
                          ++ show_double K (quantity g))) ;;
    tret g
  else if (query g =? "f")%string then
    _ <~ lift (assert (negb (use_index g)) "!use_index") ;;
    _ <~ lift (assert (negb (comment_regex g =? EmptyString)%string)
                      "comment_regex != ''") ;;
    _ <~ emit (ev_cout ("select " ++ star ++ " from lineitem where l_comment ilike '%"
                          ++ comment_regex g ++ "%'")) ;;
    tret g
  else if (query g =? "fastpath")%string then
    _ <~ lift (assert (negb (use_index g)) "!use_index") ;;
    _ <~ lift (assert (negb (projection g)) "!projection") ;;
    _ <~ emit (ev_cout ("select " ++ star ++ " from lineitem")) ;;
    tret g
  else if (query g =? "flatbuf")%string then
    let current_schema := snd (getSchemaFromSchemaString K (lineitem_test_schema_string K)) in
    let apply_predicates := false in
    let names := trim K (projected_col_names o) in
    r <~ (if (names =? star)%string then
            tret (current_schema, projection g,
                  if negb apply_predicates then true else fastpath g)
          else
            let query_schema := getSchemaFromProjectCols K current_schema names in
            _ <~ lift (assert (negb (length query_schema =? 0)%nat)
                              "query_schema.size() != 0") ;;
            tret (query_schema, true, fastpath g)) ;;
    let '(query_schema, projection', fastpath') := r in
    let g := with_flatbuf projection' fastpath'
                          (getSchemaStrFromSchema K current_schema)
                          (getSchemaStrFromSchema K query_schema) g in
    _ <~ emit (ev_cout ("select " ++ names ++ " from lineitem")) ;;
    _ <~ emit (ev_cout ("table_schema_str=" ++ newline ++ table_schema_str g)) ;;
    _ <~ emit (ev_cout ("query_schema_str=" ++ newline ++ query_schema_str g)) ;;
    tret g
  else
    _ <~ emit (ev_cerr ("invalid query: " ++ query g)) ;;
    lift (Exit 1).

(** [main] from the parsed options to the point where the worker threads
    are started: it ends the process ([Abort], or [Exit] with the status),
    or hands over the knobs and the target list. With [build_index] the
    index is built by [wthreads] threads and [main] returns 0; the threads
    are put one after the other here, which is exact for one thread. *)
Definition main_prelude (o : options) (g : globals) : traced (globals * list string) :=
  _ <~ lift (assert (num_objs o >? 0) "num_objs > 0") ;;
  _ <~ lift (assert (wthreads o >? 0) "wthreads > 0") ;;
  _ <~ lift (assert (qdepth o >? 0) "qdepth > 0") ;;
  _ <~ emit ev_connect ;;
  _ <~ lift (checkret (connect_ret cl) 0) ;;
  _ <~ emit (ev_ioctx_create (pool o)) ;;
  _ <~ lift (checkret (ioctx_create_ret cl) 0) ;;
  target_objects <~ lift (order_targets (dir o) (generate_targets (num_objs o))) ;;
  if build_index o then
    _ <~ create_ioctxs (pool o) (Z.to_nat (wthreads o)) ;;
    _ <~ worker_build_index g (rev target_objects) ;;
    lift (Exit 0)
  else
    g' <~ sanity_check o g ;;
    tret (g', target_objects).

End Orchestrator.

(** ** The statements of the specification *)

(** The records of a raw payload with the given stride: a pointer to each
    of the [length / stride] complete records. *)
Definition records (row_size : Z) (payload : list byte) : list Row.ptr :=
  map (fun rid => Row.advance payload (Z.of_nat rid * row_size))
      (seq 0 (Z.to_nat (Z.of_nat (length payload) / row_size))).

Definition row_ship_date (row : Row.ptr) : Z :=
  Row.load_int (Row.advance row 50).
Definition row_discount (row : Row.ptr) : spec_float :=
  Row.load_double (Row.advance row 32).
Definition row_quantity (row : Row.ptr) : spec_float :=
  Row.load_double (Row.advance row 16).

(** The predicate of query "e" in the words of the specification:
    [ship_low <= ship_date < ship_high], [discount_low < discount <
    discount_high] and [quantity < max_quantity]. *)
Definition select_range_spec (g : globals) (row : Row.ptr) : bool :=
  (ship_date_low g <=? row_ship_date row) && (row_ship_date row <? ship_date_high g)
  && SFltb (discount_low g) (row_discount row)
  && SFltb (row_discount row) (discount_high g)
  && SFltb (row_quantity row) (quantity g).

(** The line [print_row] writes for a full row. *)
Definition full_row_line (row : Row.ptr) : out_line :=
  RowFull (Row.load_double (Row.advance row 24))
          (Row.load_int (Row.advance row 0))
          (Row.load_int (Row.advance row 12))
          (Row.load_int (Row.advance row 50))
          (Row.load_double (Row.advance row 32))
          (Row.load_double (Row.advance row 16))
          (Row.string_ncopy (Row.advance row 97) 44).

Definition projected_row_line (row : Row.ptr) : out_line :=
  RowProjected (Row.load_int (Row.advance row 0)) (Row.load_int (Row.advance row 12)).

Definition sumZ (l : list Z) : Z := fold_right Z.add 0 l.

(** A raw payload cut after its last complete record of 141 bytes. *)
Definition complete_records (payload : list byte) : list byte :=
  firstn (Z.to_nat (141 * (Z.of_nat (length payload) / 141))) payload.

(** The two schemas of query "flatbuf" parse: neither call of
    [getSchemaFromSchemaString] in the worker returns one of the two error
    codes it asserts against. *)
Definition schemas_parse (K : collaborators) (g : globals) : Prop :=
  let r_in := fst (getSchemaFromSchemaString K (table_schema_str g)) in
  let r_out := fst (getSchemaFromSchemaString K (query_schema_str g)) in
  r_in <> EmptySchema K /\ r_in <> BadColInfoFormat K
  /\ r_out <> EmptySchema K /\ r_out <> BadColInfoFormat K.

(** The transform collaborator applied to one frame, with the table schema
    and the query schema of the knobs. *)
Definition transform (K : collaborators) (g : globals) (fb : list byte)
  : Z * string * list byte :=
  processSkyFb K (snd (getSchemaFromSchemaString K (table_schema_str g)))
                 (snd (getSchemaFromSchemaString K (query_schema_str g))) fb.

Definition input_nrows (K : collaborators) (fb : list byte) : Z :=
  nrows (getSkyRootHeader K fb).

Definition transformed_nrows (K : collaborators) (g : globals) (fb : list byte) : Z :=
  nrows (getSkyRootHeader K (snd (transform K g fb))).

(** The rows of the argument-validity table for the queries "a", "b", "c",
    "d" and "fastpath". *)
Definition table_holds (g : globals) : bool :=
  if ((query g =? "a") || (query g =? "b") || (query g =? "c"))%string then
    negb (SFeqb (extended_price g) zero) && negb (use_index g)
  else if (query g =? "d")%string then
    negb (order_key g =? 0) && negb (line_number g =? 0)
    && implb (use_index g) (use_cls g)
  else if (query g =? "fastpath")%string then
    negb (use_index g) && negb (projection g)
  else true.

Definition known_query (q : string) : bool :=
  ((q =? "a") || (q =? "b") || (q =? "c") || (q =? "d") || (q =? "e") || (q =? "f")
   || (q =? "fastpath") || (q =? "flatbuf"))%string.

(** The queries of the argument table. *)
Definition table_query (q : string) : bool :=
  ((q =? "a") || (q =? "b") || (q =? "c") || (q =? "d") || (q =? "fastpath"))%string.

(** The first checks of [main] pass: the three assertions on the options,
    the connection to the cluster and the opening of the pool. *)
Definition pool_opened (cl : cluster) (o : options) : bool :=
  (num_objs o >? 0) && (wthreads o >? 0) && (qdepth o >? 0)
  && (connect_ret cl =? 0) && (ioctx_create_ret cl =? 0).

(** The directions [main] accepts. *)
Definition known_dir (d : string) : bool :=
  ((d =? "fwd") || (d =? "bwd") || (d =? "rnd"))%string.

Definition no_object_io (tr : list event) : Prop :=
  existsb is_object_io tr = false.

Definition zero_stats (t : timing) : Prop := read_ns t = 0 /\ eval_ns t = 0.

(** ** Invariants and auxiliary definitions of the proofs *)

Definition pending_increment (pc : dispatcher_pc) : Z :=
  match pc with
  | DSubmitted => 1
  | _ => 0
  end.

(** The window: the counter, with the increment the dispatcher still owes
    for a request it has just submitted, stays within [qdepth]; and the
    counter is the number of increments less the number of decrements. *)
Definition window_inv (qdepth : Z) (st : sys) : Prop :=
  outstanding_ios st + pending_increment (dispatcher st) <= qdepth
  /\ outstanding_ios st
     = Z.of_nat (length (dispatched st)) - pending_increment (dispatcher st)
       - consumed st.

Definition holds_zero_stats (pc : worker_pc) : Prop :=
  match pc with
  | WTaken s | WEval s => zero_stats (times s)
  | WPush t => zero_stats t
  | WIdle | WExited => True
  end.

(** Every timing record the process holds, wherever it is on its way from
    the dispatcher to [timings], has [read_ns] and [eval_ns] zero. *)
Definition stats_inv (st : sys) : Prop :=
  Forall zero_stats (timings st)
  /\ Forall (fun s => zero_stats (times s)) (ready_ios st)
  /\ Forall (fun rs => zero_stats (times (snd rs))) (in_flight st)
  /\ Forall holds_zero_stats (workers st).

(** What follows the opening of the pool in [main]. *)
Definition after_pool (K : collaborators) (cl : cluster) (o : options) (g : globals)
           (targets : list string) : traced (globals * list string) :=
  if build_index o then
    _ <~ create_ioctxs cl (pool o) (Z.to_nat (wthreads o)) ;;
    _ <~ worker_build_index cl g (rev targets) ;;
    lift (Exit 0)
  else
    g' <~ sanity_check K o g ;;
    tret (g', targets).

(** [main] either aborts on one of its first checks, having requested no
    object, or orders the targets and goes on past the opening of the pool. *)
(** ** Sample inputs *)

Module Sample.

Definition K : collaborators :=
  mk_collab 1 2 "orderkey"
            (fun s => (0, [mk_col 0 s 0 false true]))
            (fun schema names => [mk_col 0 names 0 false true])
            (fun schema => match schema with
                           | [] => EmptyString
                           | col :: _ => col_name col
                           end)
            (fun fb => mk_root (Z.of_nat (length fb)) 0)
            (fun _ _ fb => (0, EmptyString, firstn 2 fb))
            (fun _ _ => false)
            (fun s => s)
            (fun v => v)
            (fun _ => "?"%string).

Definition cl : cluster := mk_cluster 0 0 (fun _ => 0).

(** The knobs as the command line leaves them by default, for a query. *)
Definition knobs (q : string) (cls : bool) : globals :=
  mk_globals true cls q false false 1000 0 zero 0 0 (-9999) (-9999)
             sentinel sentinel zero EmptyString EmptyString EmptyString false.

Definition opts (build : bool) (direction : string) : options :=
  mk_options "tpc" 2 1 build EmptyString 1 direction star.

Definition bits_of_double (x : spec_float) : Z :=
  match x with
  | S754_finite s m e =>
    (if s then 2 ^ 63 else 0) + (e + 1075) * 2 ^ 52 + (Zpos m - 2 ^ 52)
  | S754_infinity s => (if s then 2 ^ 63 else 0) + 2047 * 2 ^ 52
  | S754_nan => 2047 * 2 ^ 52 + 1
  | S754_zero s => if s then 2 ^ 63 else 0
  end.

Definition zeros (n : nat) : list byte := repeat x00 n.

(** A 141-byte record with the given fields and an empty comment. *)
Definition record (okey lnum : Z) (qty price disc : spec_float) (ship : Z) : list byte :=
  Wire.le_bytes 4 okey ++ zeros 8 ++ Wire.le_bytes 4 lnum
    ++ Wire.le_bytes 8 (bits_of_double qty)
    ++ Wire.le_bytes 8 (bits_of_double price)
    ++ Wire.le_bytes 8 (bits_of_double disc)
    ++ zeros 10 ++ Wire.le_bytes 4 ship ++ zeros 87.

Definition d_0_05 : spec_float := S754_finite false 7205759403792794 (-57).
Definition d_0_06 : spec_float := S754_finite false 8646911284551352 (-57).
Definition d_0_08 : spec_float := S754_finite false 5764607523034235 (-56).
Definition d_10 : spec_float := S754_finite false 5629499534213120 (-49).
Definition d_30 : spec_float := S754_finite false 8444249301319680 (-48).
Definition d_50 : spec_float := S754_finite false 7036874417766400 (-47).
Definition d_75 : spec_float := S754_finite false 5277655813324800 (-46).
Definition d_100 : spec_float := S754_finite false 7036874417766400 (-46).

Definition fresh (payload : list byte) : AioState :=
  mk_aio payload None (mk_timing 11 12 0 0 0).

Definition idle : work := start_work [].

(** Query "e" of the specification's scenario, printing enabled. *)
Definition range_knobs : globals :=
  mk_globals false false "e" false false 1000 3 zero 0 0 100 200
             d_0_05 d_0_08 d_30 EmptyString EmptyString EmptyString false.

(** Three records (a match, ship date at the upper bound, discount at the
    lower bound) followed by three stray bytes. *)
Definition range_payload : list byte :=
  record 7 1 d_10 d_100 d_0_06 150 ++ record 7 1 d_10 d_100 d_0_06 200
    ++ record 7 1 d_10 d_100 d_0_05 150 ++ zeros 3.

(** A pushdown response to query "a": the three statistics, the third
    saying ten rows were processed, then the count of matching rows. *)
Definition count_response : list byte :=
  Wire.encode_u64 5 ++ Wire.encode_u64 7 ++ Wire.encode_u64 10 ++ Wire.encode_u64 1.

(** Query "flatbuf" with a projection, read directly; the sample
    transform keeps two bytes of a frame and the sample header counts one
    row for each byte. *)
Definition projecting_knobs : globals :=
  mk_globals true false "flatbuf" false true 1000 0 zero 0 0 (-9999) (-9999)
             sentinel sentinel zero EmptyString "orderkey" "orderkey" false.

(** An I/O as the dispatcher submits it, and the state with that I/O in
    flight and counted; then the state after its completion was taken by
    the one worker. *)
Definition submitted : AioState :=
  mk_aio [] (Some (mk_completion 0)) (mk_timing 1 0 0 0 0).

Definition busy : sys :=
  mk_sys 1 [] [] [] false idle [] DLoop [WIdle] ["obj.0"%string] 0 [].

Definition taken : sys :=
  mk_sys 1 [] [] [] false idle [] DLoop
         [WTaken (mk_aio [] None (mk_timing 1 2 0 0 0))] ["obj.0"%string] 0
         [work_cond_notify_one].

(** A schedule for two targets, one worker and a window of one: the first
    request is dispatched, completes with one record and is evaluated
    while the dispatcher waits; then the second request is dispatched. *)
Definition schedule : list label :=
  [Dispatch 1 0; Increment; Wait; Complete 0 2 141 (zeros 141);
   Worker 0 0 0; Worker 0 0 0; Worker 0 3 4; Worker 0 0 0;
   Wake; Dispatch 5 0; Increment; LeaveLoop].


(** One record and one stray byte. *)
Definition stray_payload : list byte :=
  record 7 1 d_10 d_100 d_0_06 150 ++ zeros 1.

Definition three_frames : list byte :=
  Wire.encode_bufferlist (zeros 4) ++ Wire.encode_bufferlist (zeros 2)
    ++ Wire.encode_bufferlist (zeros 3).

End Sample.

(** ** Statements about the rest of the worker and of the orchestrator *)

Definition row_price (row : Row.ptr) : spec_float :=
  Row.load_double (Row.advance row 24).
Definition row_order_key (row : Row.ptr) : Z :=
  Row.load_int (Row.advance row 0).
Definition row_line_number (row : Row.ptr) : Z :=
  Row.load_int (Row.advance row 12).
Definition row_comment (row : Row.ptr) : list byte :=
  Row.string_ncopy (Row.advance row 97) 44.

(** The test a record has to pass under each of the select queries "b",
    "c", "d" and "f". *)
Definition select_predicate (K : collaborators) (g : globals) : option (Row.ptr -> bool) :=
  if (query g =? "b")%string then
    Some (fun row => SFltb (extended_price g) (row_price row))
  else if (query g =? "c")%string then
    Some (fun row => SFeqb (row_price row) (extended_price g))
  else if (query g =? "d")%string then
    Some (fun row => (row_order_key row =? order_key g)
                     && (row_line_number row =? line_number g))
  else if (query g =? "f")%string then
    Some (fun row => PartialMatch K (row_comment row) (comment_regex g))
  else None.

(** The three counters hold values of an [unsigned]. *)
Definition in_range (w : work) : Prop :=
  0 <= result_count w < 2 ^ 32
  /\ 0 <= rows_returned w < 2 ^ 32
  /\ 0 <= nrows_processed w < 2 ^ 32.

(** The line written for a record, by the knobs. *)
Definition row_line (g : globals) (row : Row.ptr) : out_line :=
  if projection g then projected_row_line row else full_row_line row.

(** Workers that hold a record they have popped but not yet accounted for
    in [outstanding_ios], and workers that hold one they have. *)
Definition taken_weight (pc : worker_pc) : Z :=
  match pc with
  | WTaken _ => 1
  | _ => 0
  end.

Definition held_weight (pc : worker_pc) : Z :=
  match pc with
  | WEval _ | WPush _ => 1
  | _ => 0
  end.

Definition total (f : worker_pc -> Z) (ws : list worker_pc) : Z :=
  fold_right (fun pc acc => f pc + acc) 0 ws.

Arguments total : simpl never.

Definition past_loop (pc : dispatcher_pc) : bool :=
  match pc with
  | DDraining | DDrained | DJoining | DDone => true
  | _ => false
  end.

Definition past_drain (pc : dispatcher_pc) : bool :=
  match pc with
  | DDrained | DJoining | DDone => true
  | _ => false
  end.

(** Every request dispatched is in exactly one place: with the storage
    client, in the queue, with a worker, or behind a record of [timings];
    the counter is kept as in [window_inv]; the targets are used up once the
    dispatcher has left its loop, and every completion is taken once it has
    left the drain loop; the workers have exited once the summary is out. *)
Definition conservation_inv (st : sys) : Prop :=
  Z.of_nat (length (dispatched st))
  = Z.of_nat (length (in_flight st)) + Z.of_nat (length (ready_ios st))
    + total taken_weight (workers st) + consumed st
  /\ consumed st
     = total held_weight (workers st) + Z.of_nat (length (timings st))
  /\ outstanding_ios st
     = Z.of_nat (length (dispatched st)) - pending_increment (dispatcher st)
       - consumed st
  /\ (past_loop (dispatcher st) = true -> target_objects st = [])
  /\ (past_drain (dispatcher st) = true ->
      consumed st = Z.of_nat (length (dispatched st)))
  /\ (dispatcher st = DDone -> all_exited (workers st) = true).

(** What building the index of one object shows: the message, then the
    [build_index] call with the encoded batch size. *)
Definition build_events (g : globals) (oid : string) : list event :=
  [ev_cout ("building index... " ++ oid);
   ev_exec oid "tabular" "build_index" (Wire.encode_u32 (build_index_batch_size g))].

(** ** More sample inputs *)

Module More.

(** [Sample.schedule] carried to the end: the second request completes and
    is evaluated, the dispatcher drains and stops, the worker exits and
    [main] joins it. *)
Definition full_schedule : list label :=
  Sample.schedule
    ++ [Complete 0 6 141 (Sample.zeros 141);
        Worker 0 0 0; Worker 0 0 0; Worker 0 7 9; Worker 0 0 0;
        DrainPoll; Stop; Worker 0 0 0; Join].

(** A comment field: "ab", a NUL, then a byte that is not copied. *)
Definition comment_bytes : list byte := ["a"%byte; "b"%byte; x00; "c"%byte].

(** Query "a" with threshold 75, read directly. *)
Definition count_knobs : globals :=
  mk_globals false false "a" false false 1000 2 Sample.d_75 0 0 (-9999) (-9999)
             sentinel sentinel zero EmptyString EmptyString EmptyString false.

(** Query "d" for order key 7, line 1, read directly. *)
Definition key_knobs : globals :=
  mk_globals false false "d" false false 1000 0 zero 7 1 (-9999) (-9999)
             sentinel sentinel zero EmptyString EmptyString EmptyString false.

(** Two records: price 100 with key (7, 1), price 50 with key (7, 2). *)
Definition two_records : list byte :=
  Sample.record 7 1 Sample.d_10 Sample.d_100 Sample.d_0_06 150
    ++ Sample.record 7 2 Sample.d_10 Sample.d_50 Sample.d_0_06 150.

(** A pushdown response to query "flatbuf": the statistics, then the
    wrapped stream of [Sample.three_frames]. *)
Definition wrapped_response : list byte :=
  Wire.encode_u64 5 ++ Wire.encode_u64 7 ++ Wire.encode_u64 10
    ++ Wire.encode_bufferlist Sample.three_frames.

Definition pushdown_flatbuf_knobs : globals :=
  mk_globals false true "flatbuf" false false 1000 0 zero 0 0 (-9999) (-9999)
             sentinel sentinel zero EmptyString "orderkey" "orderkey" true.

(** A pushdown response to a select query: the statistics and some rows. *)
Definition rows_response : list byte :=
  Wire.encode_u64 5 ++ Wire.encode_u64 7 ++ Wire.encode_u64 10 ++ two_records.

End More.

(** * Proofs *)

(** Case analysis on every test and pair a goal branches on. *)
Ltac split_ifs :=
  repeat match goal with
         | |- context [if ?b then _ else _] =>
           lazymatch b with
           | true => fail
           | false => fail
           | _ => destruct b
           end
         | |- context [let '(_, _) := ?e in _] =>
           lazymatch e with
           | (_, _) => fail
           | _ => destruct e
           end
         end.

(** ** Arithmetic of the counters *)

Lemma u32_range z : 0 <= u32 z < 2 ^ 32.
Proof. unfold u32. apply Z.mod_pos_bound. lia. Qed.

Lemma u32_small z : 0 <= z < 2 ^ 32 -> u32 z = z.
Proof. intros H. unfold u32. apply Z.mod_small. exact H. Qed.

Lemma u32_add_u32_l a x : u32 (u32 a + x) = u32 (a + x).
Proof. unfold u32. apply Zplus_mod_idemp_l. Qed.

(** ** Loops over the records *)

Lemma fold_left_map_ptr {A B : Type} (f : A -> B) (body : B -> work -> work) l w :
  fold_left (fun acc x => body (f x) acc) l w
  = fold_left (fun acc row => body row acc) (map f l) w.
Proof.
  revert w. induction l as [|x l IH]; intros w; cbn [fold_left map]; [reflexivity|].
  apply IH.
Qed.

Lemma for_rows_records (body : Row.ptr -> work -> work) (rows : list byte) (rs : Z) w :
  for_rows (Z.of_nat (length rows) / rs)
           (fun rid => body (Row.advance rows (rid * rs))) w
  = fold_left (fun acc row => body row acc) (records rs rows) w.
Proof.
  unfold for_rows, records.
  apply (fold_left_map_ptr (fun rid => Row.advance rows (Z.of_nat rid * rs)) body).
Qed.

Lemma for_rows_none (body : Z -> work -> work) w : for_rows (0 / 141) body w = w.
Proof. reflexivity. Qed.

Lemma fold_left_filter (p : Row.ptr -> bool) (body f : Row.ptr -> work -> work) :
  (forall row w, body row w = if p row then f row w else w) ->
  forall l w,
    fold_left (fun acc row => body row acc) l w
    = fold_left (fun acc row => f row acc) (filter p l) w.
Proof.
  intros Hbody l. induction l as [|row l IH]; intros w; cbn [fold_left filter];
    [reflexivity|].
  rewrite Hbody. destruct (p row); cbn [fold_left]; apply IH.
Qed.

Lemma emit_match_result_count g row w :
  result_count (emit_match g row w) = add32 (result_count w) 1.
Proof.
  unfold emit_match, print_row.
  destruct (quiet g), (projection g); reflexivity.
Qed.

Lemma emit_match_cout g row w :
  projection g && use_cls g = false ->
  cout (emit_match g row w)
  = cout w ++ (if quiet g then []
               else [if projection g then projected_row_line row else full_row_line row]).
Proof.
  intros Hp. unfold emit_match, print_row. rewrite Hp.
  destruct (quiet g), (projection g); cbn; try reflexivity;
    now rewrite app_nil_r.
Qed.

Lemma fold_emit_match_result_count g l : forall w,
  0 <= result_count w < 2 ^ 32 ->
  result_count (fold_left (fun acc row => emit_match g row acc) l w)
  = u32 (result_count w + Z.of_nat (length l)).
Proof.
  induction l as [|row l IH]; intros w Hw.
  - cbn [fold_left length Z.of_nat]. rewrite Z.add_0_r. symmetry. now apply u32_small.
  - cbn [fold_left length]. rewrite IH.
    + rewrite emit_match_result_count. unfold add32. rewrite u32_add_u32_l.
      f_equal. lia.
    + rewrite emit_match_result_count. apply u32_range.
Qed.

Lemma fold_emit_match_cout g l : forall w,
  projection g && use_cls g = false ->
  cout (fold_left (fun acc row => emit_match g row acc) l w)
  = cout w ++ (if quiet g then []
               else map (fun row => if projection g then projected_row_line row
                                    else full_row_line row) l).
Proof.
  induction l as [|row l IH]; intros w Hp.
  - cbn [fold_left map]. destruct (quiet g); now rewrite app_nil_r.
  - cbn [fold_left map]. rewrite IH by exact Hp. rewrite emit_match_cout by exact Hp.
    destruct (quiet g); rewrite <- app_assoc; reflexivity.
Qed.

(** ** The predicate of query "e" *)

Lemma body_e_spec g row w :
  body_e g row w = if select_range_spec g row then emit_match g row w else w.
Proof.
  unfold body_e, select_range_spec, row_ship_date, row_discount, row_quantity.
  unfold Row.shipdate_field_offset, Row.discount_field_offset, Row.quantity_field_offset.
  rewrite Z.geb_leb.
  destruct (ship_date_low g <=? _), (_ <? ship_date_high g); cbn [andb]; try reflexivity.
  destruct (SFltb (discount_low g) _), (SFltb _ (discount_high g)); cbn [andb];
    reflexivity.
Qed.

Lemma select_range_strict_upper g row :
  row_ship_date row = ship_date_high g -> select_range_spec g row = false.
Proof.
  intros H. unfold select_range_spec. rewrite H, Z.ltb_irrefl.
  now rewrite andb_false_r.
Qed.

Lemma SFcompare_Eq_sym x y : SFcompare x y = Some Eq -> SFcompare y x = Some Eq.
Proof.
  destruct x as [sx|sx| |sx mx ex], y as [sy|sy| |sy my ey]; cbn [SFcompare];
    try congruence; try (destruct sx; congruence); try (destruct sy; congruence).
  - destruct sx, sy; congruence.
  - intros H.
    assert (Hem : ex = ey /\ mx = my).
    { destruct sx, sy; try discriminate;
        destruct (ex ?= ey) eqn:He; try discriminate;
        apply Z.compare_eq in He; split; try exact He;
        apply Pos.compare_eq; unfold Pos.compare;
        destruct (Pos.compare_cont Eq mx my); try discriminate; reflexivity. }
    destruct Hem as [-> ->].
    destruct sx, sy; try discriminate; exact H.
Qed.

(** [x == y] excludes [y < x], also for the two zeros. *)
Lemma SFltb_of_eqb x y : SFeqb x y = true -> SFltb y x = false.
Proof.
  unfold SFeqb, SFltb. intros H.
  destruct (SFcompare x y) as [[| |]|] eqn:Hc; try discriminate.
  now rewrite (SFcompare_Eq_sym _ _ Hc).
Qed.

Lemma select_range_strict_lower g row :
  SFeqb (row_discount row) (discount_low g) = true -> select_range_spec g row = false.
Proof.
  intros H. unfold select_range_spec. rewrite (SFltb_of_eqb _ _ H).
  now rewrite !andb_false_r.
Qed.

(** ** The fixed-row branch of the worker *)

Lemma worker_eval_rows K g t0 t1 s w :
  query g <> "flatbuf"%string ->
  worker_eval K g t0 t1 s w
  = (r <- eval_rows K g s w ;;
     let '(w', times1) := r in Ok (w', set_eval2_ns (u64 (t1 - t0)) times1)).
Proof.
  intros Hf. unfold worker_eval.
  destruct (String.eqb_spec (query g) "flatbuf"); [contradiction|reflexivity].
Qed.

Lemma eval_rows_total K g s w :
  known_query (query g) = true -> query g <> "flatbuf"%string -> use_cls g = false ->
  exists w' t, eval_rows K g s w = Ok (w', t).
Proof.
  intros Hk Hf Hc. unfold eval_rows. rewrite Hc, andb_false_r. cbn [bind].
  unfold known_query in Hk.
  destruct (query g =? "a")%string; [eexists; eexists; reflexivity|].
  destruct (query g =? "b")%string; [eexists; eexists; reflexivity|].
  destruct (query g =? "c")%string; [eexists; eexists; reflexivity|].
  destruct (query g =? "d")%string; [eexists; eexists; reflexivity|].
  destruct (query g =? "e")%string; [eexists; eexists; reflexivity|].
  destruct (query g =? "f")%string; [eexists; eexists; reflexivity|].
  destruct (query g =? "fastpath")%string; [eexists; eexists; reflexivity|].
  destruct (String.eqb_spec (query g) "flatbuf"); [contradiction|discriminate].
Qed.

Lemma eval_rows_e K g s w w' t :
  query g = "e"%string -> projection g && use_cls g = false ->
  eval_rows K g s w = Ok (w', t) ->
  exists w1,
    result_count w1 = result_count w /\ cout w1 = cout w
    /\ w' = fold_left (fun acc row => emit_match g row acc)
              (filter (select_range_spec g)
                      (records 141 (if use_cls g then [] else bl s))) w1.
Proof.
  intros Hq Hp. unfold eval_rows. rewrite Hp, Hq.
  destruct (use_cls g) eqn:Hc.
  - destruct (decode_cls_stats (bl s)) as [[[[rd ev] nsp] it]|]; cbn [bind];
      [|discriminate].
    cbn [String.eqb Ascii.eqb Bool.eqb length Z.of_nat]. rewrite for_rows_none.
    intros H. injection H as <- _.
    eexists. split; [|split]; [| |reflexivity]; reflexivity.
  - cbn [bind String.eqb Ascii.eqb Bool.eqb].
    rewrite (for_rows_records (body_e g)).
    rewrite (fold_left_filter (select_range_spec g) (body_e g) (emit_match g)
                              (body_e_spec g)).
    intros H. injection H as <- _.
    eexists. split; [|split]; [| |reflexivity]; reflexivity.
Qed.

(** C1 (the code departs from the claim). For query "a" with [use_cls] the
    claim has the worker decode the three statistics, then decode
    [matching_rows] from the rest of the response and add it to
    [result_count]. The worker decodes the statistics from the response but
    reads [matching_rows] from its local bufferlist, which the [use_cls]
    branch never fills: once the statistics decode, the read runs off the
    end of an empty buffer and the process dies; no response makes the
    worker add a count. *)
Theorem C1_count_read_from_empty_buffer K g t0 t1 s w :
  query g = "a"%string ->
  use_cls g = true ->
  worker_eval K g t0 t1 s w
  = Abort (match decode_cls_stats (bl s) with
           | Some _ => BufferError
           | None => AssertFailed "decode_runquery_cls"
           end).
Proof.
  intros Hq Hc.
  rewrite worker_eval_rows by (rewrite Hq; discriminate).
  unfold eval_rows. rewrite Hc, Hq.
  destruct (decode_cls_stats (bl s)) as [[[[rd ev] nsp] it]|]; reflexivity.
Qed.

Lemma C1_count_read_from_empty_buffer_witness :
  decode_cls_stats Sample.count_response = Some (5, 7, 10, Wire.encode_u64 1)
  /\ worker_eval Sample.K (Sample.knobs "a" true) 5 9
                 (Sample.fresh Sample.count_response) Sample.idle
     = Abort BufferError.
Proof.
  split; [reflexivity|].
  exact (C1_count_read_from_empty_buffer
           Sample.K (Sample.knobs "a" true) 5 9
           (Sample.fresh Sample.count_response) Sample.idle eq_refl eq_refl).
Defined.

(** C2. For query "e" outside the projection-and-pushdown shortcut, the
    worker prints and counts exactly the records for which
    [ship_date_low <= ship_date < ship_date_high],
    [discount_low < discount < discount_high] and [quantity < quantity
    parameter] hold: it returns whenever the response was read directly,
    its final state is [print_row]-count-cost folded over the matching
    records in order, [result_count] grows by their number, and the lines
    written are theirs (none under [quiet], where [print_row] returns at
    once). A record whose ship date equals the upper bound does not match,
    nor one whose discount equals the lower bound. *)
Theorem C2_select_range_bounds K g t0 t1 s w :
  query g = "e"%string ->
  projection g && use_cls g = false ->
  0 <= result_count w < 2 ^ 32 ->
  let matching := filter (select_range_spec g)
                         (records 141 (if use_cls g then [] else bl s)) in
  (use_cls g = false -> exists w' t, worker_eval K g t0 t1 s w = Ok (w', t))
  /\ (forall w' t,
        worker_eval K g t0 t1 s w = Ok (w', t) ->
        (exists w1, w' = fold_left (fun acc row => emit_match g row acc) matching w1)
        /\ result_count w' = u32 (result_count w + Z.of_nat (length matching))
        /\ cout w' = cout w ++ (if quiet g then []
                                else map (fun row => if projection g
                                                     then projected_row_line row
                                                     else full_row_line row) matching))
  /\ (forall row, row_ship_date row = ship_date_high g -> select_range_spec g row = false)
  /\ (forall row, SFeqb (row_discount row) (discount_low g) = true ->
                  select_range_spec g row = false).
Proof.
  intros Hq Hp Hw matching.
  assert (Hf : query g <> "flatbuf"%string) by (rewrite Hq; discriminate).
  split; [|split; [|split]].
  - intros Hc.
    destruct (eval_rows_total K g s w) as (w' & t & He); try assumption.
    { unfold known_query. rewrite Hq. reflexivity. }
    rewrite (worker_eval_rows K g t0 t1 s w Hf), He. cbn [bind].
    eexists; eexists; reflexivity.
  - intros w' t. rewrite (worker_eval_rows K g t0 t1 s w Hf).
    destruct (eval_rows K g s w) as [[w2 t2]| |] eqn:He; cbn [bind]; try discriminate.
    intros H. injection H as <- _.
    destruct (eval_rows_e K g s w w2 t2 Hq Hp He) as (w1 & Hrc & Hco & ->).
    split; [eexists; reflexivity|]. split.
    + rewrite fold_emit_match_result_count by (rewrite Hrc; exact Hw).
      now rewrite Hrc.
    + rewrite fold_emit_match_cout by exact Hp. now rewrite Hco.
  - apply select_range_strict_upper.
  - apply select_range_strict_lower.
Qed.

Lemma C2_select_range_bounds_witness :
  exists w' t,
    worker_eval Sample.K Sample.range_knobs 5 9
                (Sample.fresh Sample.range_payload) Sample.idle = Ok (w', t)
    /\ result_count w' = 1
    /\ cout w' = [full_row_line (Sample.record 7 1 Sample.d_10 Sample.d_100
                                               Sample.d_0_06 150)].
Proof.
  destruct (C2_select_range_bounds
              Sample.K Sample.range_knobs 5 9
              (Sample.fresh Sample.range_payload) Sample.idle)
    as (Htotal & Hcount & _).
  - reflexivity.
  - reflexivity.
  - cbn. lia.
  - destruct (Htotal eq_refl) as (w' & t & He).
    exists w', t. split; [exact He|].
    destruct (Hcount w' t He) as (_ & Hrc & Hco).
    rewrite Hrc, Hco. split; vm_compute; reflexivity.
Defined.

(** ** The frame loop of query "flatbuf" *)

Lemma copy_length n it out it' :
  Wire.copy n it = Some (out, it') -> (length it' + n = length it)%nat.
Proof.
  unfold Wire.copy. destruct (length it <? n)%nat eqn:Hlt; [discriminate|].
  apply Nat.ltb_ge in Hlt. intros H. injection H as <- <-.
  rewrite length_skipn. lia.
Qed.

Lemma decode_bufferlist_consumes it fb it' :
  Wire.decode_bufferlist it = Some (fb, it') -> (length it' + 4 <= length it)%nat.
Proof.
  unfold Wire.decode_bufferlist, Wire.decode_u32, Wire.decode_uint.
  destruct (Wire.copy 4 it) as [[bs it1]|] eqn:H4; [|discriminate].
  intros Hc. apply copy_length in H4. apply copy_length in Hc. lia.
Qed.

Lemma assert_holds (r code : Z) (expr : string) :
  r <> code -> assert (negb (r =? code)) expr = Ok tt.
Proof.
  intros H. unfold assert. apply Z.eqb_neq in H. now rewrite H.
Qed.

(** One frame, read directly: counted from the transformed buffer when
    projection is requested, from the input buffer otherwise. *)
Lemma process_fb_direct K g fb w :
  use_cls g = false ->
  schemas_parse K g ->
  (projection g = true -> fst (fst (transform K g fb)) = 0) ->
  exists w',
    process_fb K g fb w = Ok w'
    /\ result_count w'
       = add32 (result_count w)
               (if projection g then transformed_nrows K g fb else input_nrows K fb)
    /\ nrows_processed w' = add32 (nrows_processed w) (input_nrows K fb)
    /\ rows_returned w' = add32 (rows_returned w) (input_nrows K fb).
Proof.
  intros Hc (Hi1 & Hi2 & Ho1 & Ho2) Ht.
  unfold process_fb, transformed_nrows, input_nrows, transform in *. rewrite Hc.
  destruct (getSchemaFromSchemaString K (table_schema_str g)) as [r_in schema_in].
  destruct (getSchemaFromSchemaString K (query_schema_str g)) as [r_out schema_out].
  cbn [fst snd] in *.
  rewrite (assert_holds _ _ _ Hi1), (assert_holds _ _ _ Hi2).
  rewrite (assert_holds _ _ _ Ho1), (assert_holds _ _ _ Ho2). cbn [bind].
  destruct (projection g); cbn [negb].
  - specialize (Ht eq_refl).
    destruct (processSkyFb K schema_in schema_out fb) as [[ret errmsg] fb_out].
    cbn [fst snd] in *. subst ret. cbn [Z.eqb negb].
    eexists. split; [reflexivity|].
    unfold print_fb. destruct (quiet g); repeat split; reflexivity.
  - eexists. split; [reflexivity|].
    unfold print_fb. destruct (quiet g); repeat split; reflexivity.
Qed.

Lemma frame_loop_direct K g :
  use_cls g = false ->
  schemas_parse K g ->
  forall it fbs,
    Wire.frames it fbs ->
    (projection g = true -> Forall (fun fb => fst (fst (transform K g fb)) = 0) fbs) ->
    forall fuel w,
      (length it <= fuel)%nat ->
      0 <= result_count w < 2 ^ 32 ->
      0 <= nrows_processed w < 2 ^ 32 ->
      exists w',
        frame_loop K g fuel it w = Ok w'
        /\ result_count w'
           = u32 (result_count w
                  + sumZ (map (fun fb => if projection g then transformed_nrows K g fb
                                         else input_nrows K fb) fbs))
        /\ nrows_processed w'
           = u32 (nrows_processed w + sumZ (map (input_nrows K) fbs)).
Proof.
  intros Hc Hs it fbs Hfr.
  induction Hfr as [|it fb it' fbs Hne Hdec Hfr IH]; intros Ht fuel w Hfuel Hrc Hnp.
  - exists w. destruct fuel; cbn [frame_loop Wire.get_remaining length Z.of_nat Z.gtb Z.compare];
      (split; [reflexivity|]); cbn [map sumZ fold_right]; rewrite !Z.add_0_r;
      split; symmetry; now apply u32_small.
  - pose proof (decode_bufferlist_consumes _ _ _ Hdec) as Hlen.
    destruct fuel as [|fuel]; [lia|].
    assert (Hrem : (Wire.get_remaining it >? 0) = true).
    { unfold Wire.get_remaining. destruct it; [contradiction|].
      cbn [length]. apply Z.gtb_lt. lia. }
    cbn [frame_loop]. rewrite Hrem, Hdec.
    destruct (process_fb_direct K g fb w Hc Hs) as (w1 & Hp & Hrc1 & Hnp1 & _).
    { intros Hpr. specialize (Ht Hpr). now inversion Ht. }
    rewrite Hp. cbn [bind].
    destruct (IH (fun Hpr => Forall_inv_tail (Ht Hpr)) fuel w1) as (w' & Hl & Hrc' & Hnp').
    { lia. }
    { rewrite Hrc1. apply u32_range. }
    { rewrite Hnp1. apply u32_range. }
    exists w'. split; [exact Hl|].
    rewrite Hrc', Hnp', Hrc1, Hnp1. unfold add32, sumZ. rewrite !u32_add_u32_l.
    cbn [map fold_right]. split; f_equal; lia.
Qed.

Lemma process_fb_fuel K g fb w : process_fb K g fb w <> Abort ModelFuel.
Proof.
  unfold process_fb, assert. split_ifs; cbn [bind]; discriminate.
Qed.

(** The fuel of the frame loop is never used up. *)
Lemma frame_loop_fuel K g : forall fuel it w,
  (length it <= fuel)%nat -> frame_loop K g fuel it w <> Abort ModelFuel.
Proof.
  induction fuel as [|fuel IH]; intros it w Hlen.
  - destruct it; [|cbn [length] in Hlen; lia]. discriminate.
  - cbn [frame_loop]. destruct (Wire.get_remaining it >? 0); [|discriminate].
    destruct (Wire.decode_bufferlist it) as [[fb it']|] eqn:Hdec; [|discriminate].
    apply decode_bufferlist_consumes in Hdec.
    destruct (process_fb K g fb w) as [w1|f|code] eqn:Hp; cbn [bind].
    + apply IH. lia.
    + intros H. injection H as ->. exact (process_fb_fuel K g fb w Hp).
    + discriminate.
Qed.

(** So the worker never ends on the fuel of its model. *)
Lemma worker_eval_fuel K g t0 t1 s w :
  worker_eval K g t0 t1 s w <> Abort ModelFuel.
Proof.
  unfold worker_eval.
  destruct (query g =? "flatbuf")%string.
  - unfold eval_flatbuf.
    assert (Hloop : forall wrapped w1 (t : timing),
               (w2 <- frame_loop K g (length wrapped) wrapped w1 ;; Ok (w2, t))
               <> Abort ModelFuel).
    { intros wrapped w1 t.
      pose proof (frame_loop_fuel K g (length wrapped) wrapped w1 (Nat.le_refl _)) as Hf.
      destruct (frame_loop K g (length wrapped) wrapped w1); cbn [bind];
        congruence. }
    destruct (use_cls g).
    + destruct (decode_cls_stats (bl s)) as [[[[rd ev] nsp] it]|]; [|discriminate].
      destruct (Wire.decode_bufferlist it) as [[wrapped rest]|]; [|discriminate].
      cbn [bind].
      pose proof (Hloop wrapped (add_nrows_processed nsp w)
                        (set_eval_ns ev (set_read_ns rd (times s)))) as Hf.
      destruct (frame_loop K g (length wrapped) wrapped (add_nrows_processed nsp w));
        cbn [bind] in *; congruence.
    + cbn [bind]. pose proof (Hloop (bl s) w (times s)) as Hf.
      destruct (frame_loop K g (length (bl s)) (bl s) w); cbn [bind] in *; congruence.
  - unfold eval_rows.
    destruct (use_cls g);
      [destruct (decode_cls_stats (bl s)) as [[[[rd ev] nsp] it]|]; [|discriminate]|];
      cbn [bind]; cbv zeta; split_ifs; cbn; discriminate.
Qed.

(** C3. For query "flatbuf" read directly ([use_cls] false), with the two
    schemas parsing and the response decoding to the frames [fbs]: the
    worker returns; for every frame it adds to [result_count] the row count
    of the buffer [processSkyFb] makes of the frame when projection is
    requested (the transform succeeding), and the row count of the frame's
    own root header otherwise; in both cases [nrows_processed] grows by the
    frame's own row count. *)
Theorem C3_flatbuf_direct_counts K g t0 t1 s w fbs :
  query g = "flatbuf"%string ->
  use_cls g = false ->
  schemas_parse K g ->
  Wire.frames (bl s) fbs ->
  (projection g = true -> Forall (fun fb => fst (fst (transform K g fb)) = 0) fbs) ->
  0 <= result_count w < 2 ^ 32 ->
  0 <= nrows_processed w < 2 ^ 32 ->
  exists w' t,
    worker_eval K g t0 t1 s w = Ok (w', t)
    /\ result_count w'
       = u32 (result_count w
              + sumZ (map (fun fb => if projection g then transformed_nrows K g fb
                                     else input_nrows K fb) fbs))
    /\ nrows_processed w' = u32 (nrows_processed w + sumZ (map (input_nrows K) fbs)).
Proof.
  intros Hq Hc Hs Hfr Ht Hrc Hnp.
  destruct (frame_loop_direct K g Hc Hs (bl s) fbs Hfr Ht (length (bl s)) w)
    as (w' & Hl & Hrc' & Hnp'); [apply Nat.le_refl|exact Hrc|exact Hnp|].
  unfold worker_eval, eval_flatbuf. rewrite Hq, Hc.
  cbn [String.eqb Ascii.eqb Bool.eqb bind]. rewrite Hl. cbn [bind].
  eexists; eexists. split; [reflexivity|]. split; assumption.
Qed.

Lemma C3_flatbuf_direct_counts_witness :
  exists w' t,
    worker_eval Sample.K Sample.projecting_knobs 5 9
                (Sample.fresh Sample.three_frames) Sample.idle = Ok (w', t)
    /\ result_count w' = 6
    /\ nrows_processed w' = 9.
Proof.
  destruct (C3_flatbuf_direct_counts
              Sample.K Sample.projecting_knobs 5 9
              (Sample.fresh Sample.three_frames) Sample.idle
              [Sample.zeros 4; Sample.zeros 2; Sample.zeros 3])
    as (w' & t & He & Hrc & Hnp).
  - reflexivity.
  - reflexivity.
  - repeat split; discriminate.
  - repeat (eapply Wire.frames_next; [discriminate|reflexivity|]).
    apply Wire.frames_end.
  - intros _. repeat constructor.
  - cbn. lia.
  - cbn. lia.
  - exists w', t. split; [exact He|]. rewrite Hrc, Hnp. split; reflexivity.
Defined.

(** ** Trailing bytes of a raw payload *)

(** A read of [w] bytes at [off] inside a record sees only the record. *)
Lemma firstn_skipn_within {A : Type} (off w : nat) (p q : list A) :
  (off + w <= 141)%nat ->
  firstn 141 p = firstn 141 q ->
  firstn w (skipn off p) = firstn w (skipn off q).
Proof.
  intros Hb H.
  assert (E : forall l : list A,
             firstn w (skipn off l) = firstn w (skipn off (firstn 141 l))).
  { intros l. rewrite skipn_firstn_comm, firstn_firstn. f_equal. lia. }
  rewrite (E p), (E q), H. reflexivity.
Qed.

Lemma load_int_within p q off :
  firstn 141 p = firstn 141 q -> 0 <= off <= 137 ->
  Row.load_int (Row.advance p off) = Row.load_int (Row.advance q off).
Proof.
  intros H Hb. unfold Row.load_int, Row.advance.
  rewrite (firstn_skipn_within (Z.to_nat off) 4 p q); [reflexivity|lia|exact H].
Qed.

Lemma load_double_within p q off :
  firstn 141 p = firstn 141 q -> 0 <= off <= 133 ->
  Row.load_double (Row.advance p off) = Row.load_double (Row.advance q off).
Proof.
  intros H Hb. unfold Row.load_double, Row.advance.
  rewrite (firstn_skipn_within (Z.to_nat off) 8 p q); [reflexivity|lia|exact H].
Qed.

Lemma string_ncopy_within p q :
  firstn 141 p = firstn 141 q ->
  Row.string_ncopy (Row.advance p 97) 44 = Row.string_ncopy (Row.advance q 97) 44.
Proof.
  intros H. unfold Row.string_ncopy, Row.advance.
  rewrite (firstn_skipn_within (Z.to_nat 97) (Z.to_nat 44) p q); [reflexivity|lia|exact H].
Qed.

Ltac within H :=
  unfold Row.extended_price_field_offset, Row.order_key_field_offset,
         Row.line_number_field_offset, Row.quantity_field_offset,
         Row.discount_field_offset, Row.shipdate_field_offset,
         Row.comment_field_offset, Row.comment_field_length;
  repeat rewrite (load_int_within _ _ _ H) by lia;
  repeat rewrite (load_double_within _ _ _ H) by lia;
  repeat rewrite (string_ncopy_within _ _ H).

Lemma print_row_within g p q w :
  use_cls g = false -> firstn 141 p = firstn 141 q -> print_row g p w = print_row g q w.
Proof.
  intros Hc H. unfold print_row. rewrite Hc, andb_false_r. cbv zeta.
  within H. reflexivity.
Qed.

Lemma emit_match_within g p q w :
  use_cls g = false -> firstn 141 p = firstn 141 q -> emit_match g p w = emit_match g q w.
Proof. intros Hc H. unfold emit_match. now rewrite (print_row_within g p q w Hc H). Qed.

Lemma emit_row_within g p q w :
  use_cls g = false -> firstn 141 p = firstn 141 q -> emit_row g p w = emit_row g q w.
Proof. intros Hc H. unfold emit_row. now rewrite (print_row_within g p q w Hc H). Qed.

Lemma bodies_within K g p q w :
  use_cls g = false -> firstn 141 p = firstn 141 q ->
  body_a g p w = body_a g q w /\ body_b g p w = body_b g q w
  /\ body_c g p w = body_c g q w /\ body_d g p w = body_d g q w
  /\ body_e g p w = body_e g q w /\ body_f K g p w = body_f K g q w.
Proof.
  intros Hc H.
  unfold body_a, body_b, body_c, body_d, body_e, body_f. cbv zeta. within H.
  rewrite (emit_match_within g p q w Hc H). repeat split; reflexivity.
Qed.

Lemma fold_left_ext_in {A B : Type} (f f' : A -> B -> A) (l : list B) :
  (forall x, In x l -> forall a, f a x = f' a x) ->
  forall a, fold_left f l a = fold_left f' l a.
Proof.
  induction l as [|x l IH]; intros H a; cbn [fold_left]; [reflexivity|].
  rewrite (H x (or_introl eq_refl)). apply IH.
  intros y Hy. apply H. now right.
Qed.

Lemma for_rows_ext n (f f' : Z -> work -> work) w :
  (forall rid, 0 <= rid < n -> forall a, f rid a = f' rid a) ->
  for_rows n f w = for_rows n f' w.
Proof.
  intros H. unfold for_rows. apply fold_left_ext_in.
  intros x Hx a. apply in_seq in Hx. apply H. lia.
Qed.

Lemma complete_records_length payload :
  Z.of_nat (length (complete_records payload)) / 141 = Z.of_nat (length payload) / 141.
Proof.
  unfold complete_records. rewrite length_firstn.
  pose proof (Z.mul_div_le (Z.of_nat (length payload)) 141 ltac:(lia)) as Hle.
  pose proof (Z.div_pos (Z.of_nat (length payload)) 141 ltac:(lia) ltac:(lia)) as Hpos.
  rewrite Nat.min_l by lia. rewrite Z2Nat.id by lia.
  rewrite Z.mul_comm. apply Z.div_mul. lia.
Qed.

Lemma advance_complete_records payload rid :
  0 <= rid < Z.of_nat (length payload) / 141 ->
  firstn 141 (Row.advance payload (rid * 141))
  = firstn 141 (Row.advance (complete_records payload) (rid * 141)).
Proof.
  intros Hrid. unfold Row.advance, complete_records.
  rewrite skipn_firstn_comm, firstn_firstn. f_equal. lia.
Qed.

Lemma eval_rows_complete_records K g s w :
  use_cls g = false ->
  eval_rows K g s w
  = eval_rows K g (mk_aio (complete_records (bl s)) (c s) (times s)) w.
Proof.
  intros Hc. unfold eval_rows. rewrite Hc, andb_false_r. cbn [bind bl times].
  rewrite complete_records_length. cbv zeta.
  assert (Hbody : forall rid a,
             0 <= rid < Z.of_nat (length (bl s)) / 141 ->
             let p := Row.advance (bl s) (rid * 141) in
             let q := Row.advance (complete_records (bl s)) (rid * 141) in
             body_a g p a = body_a g q a /\ body_b g p a = body_b g q a
             /\ body_c g p a = body_c g q a /\ body_d g p a = body_d g q a
             /\ body_e g p a = body_e g q a /\ body_f K g p a = body_f K g q a
             /\ emit_row g p a = emit_row g q a).
  { intros rid a Hrid p q.
    pose proof (advance_complete_records (bl s) rid Hrid) as H.
    pose proof (bodies_within K g p q a Hc H) as (Ha & Hb & Hc' & Hd & He & Hf).
    repeat split; try assumption. now apply emit_row_within. }
  f_equal.
  repeat match goal with
         | |- (if ?b then _ else _) = _ => destruct b
         end;
    try reflexivity;
    f_equal; apply for_rows_ext; intros rid Hrid a;
    destruct (Hbody rid a Hrid) as (Ha & Hb & Hc' & Hd & He & Hf & Hr); assumption.
Qed.

Lemma for_rows_preserves (P : work -> Prop) n (f : Z -> work -> work) w :
  (forall rid a, P a -> P (f rid a)) -> P w -> P (for_rows n f w).
Proof.
  intros Hf. unfold for_rows. generalize (seq 0 (Z.to_nat n)). intros l. revert w.
  induction l as [|x l IH]; intros w Hw; cbn [fold_left]; [exact Hw|].
  apply IH, Hf, Hw.
Qed.

Lemma eval_rows_rows_returned K g s w w' t :
  use_cls g = false ->
  eval_rows K g s w = Ok (w', t) ->
  rows_returned w' = add32 (rows_returned w) (Z.of_nat (length (bl s)) / 141).
Proof.
  intros Hc. unfold eval_rows. rewrite Hc, andb_false_r. cbn [bind]. cbv zeta.
  set (w1 := add_nrows_processed _ (add_rows_returned _ w)).
  assert (H1 : rows_returned w1
               = add32 (rows_returned w) (Z.of_nat (length (bl s)) / 141))
    by reflexivity.
  clearbody w1. rewrite <- H1.
  assert (Hkeep : forall (body : Row.ptr -> work -> work),
             (forall row a, rows_returned (body row a) = rows_returned a) ->
             rows_returned
               (for_rows (Z.of_nat (length (bl s)) / 141)
                         (fun rid => body (Row.advance (bl s) (rid * 141))) w1)
             = rows_returned w1).
  { intros body Hb.
    apply (for_rows_preserves (fun a => rows_returned a = rows_returned w1));
      [|reflexivity].
    intros rid a Ha. now rewrite Hb. }
  assert (Hbodies : forall row a,
             rows_returned (body_a g row a) = rows_returned a
             /\ rows_returned (body_b g row a) = rows_returned a
             /\ rows_returned (body_c g row a) = rows_returned a
             /\ rows_returned (body_d g row a) = rows_returned a
             /\ rows_returned (body_e g row a) = rows_returned a
             /\ rows_returned (body_f K g row a) = rows_returned a
             /\ rows_returned (emit_row g row a) = rows_returned a).
  { intros row a.
    unfold body_a, body_b, body_c, body_d, body_e, body_f, emit_match, emit_row,
           print_row.
    cbv zeta.
    repeat split;
      repeat match goal with
             | |- context [if ?b then _ else _] => destruct b
             end; reflexivity. }
  repeat match goal with
         | |- (_ <- (if ?b then _ else _) ;; _) = _ -> _ => destruct b
         end;
    cbn [bind]; intros H; try discriminate; injection H as <- _;
    apply Hkeep; intros row a; apply Hbodies.
Qed.

(** C5 (as amended). A raw payload whose length is not a multiple of the
    record stride is not rejected. Read directly, for a fixed-row query, it
    is evaluated exactly as the payload cut after its last complete record:
    the worker returns for each of the queries "a" to "f" and "fastpath",
    and counts [length / 141] rows as returned. *)
Theorem C5_partial_record_ignored K g t0 t1 s w :
  query g <> "flatbuf"%string ->
  use_cls g = false ->
  worker_eval K g t0 t1 s w
  = worker_eval K g t0 t1 (mk_aio (complete_records (bl s)) (c s) (times s)) w
  /\ (known_query (query g) = true ->
      exists w' t,
        worker_eval K g t0 t1 s w = Ok (w', t)
        /\ rows_returned w'
           = add32 (rows_returned w) (Z.of_nat (length (bl s)) / 141)).
Proof.
  intros Hf Hc. rewrite !(worker_eval_rows K g t0 t1 _ w Hf). split.
  - now rewrite (eval_rows_complete_records K g s w Hc).
  - intros Hk.
    destruct (eval_rows_total K g s w Hk Hf Hc) as (w' & t & He).
    rewrite He. cbn [bind]. eexists; eexists. split; [reflexivity|].
    exact (eval_rows_rows_returned K g s w w' t Hc He).
Qed.

Lemma C5_partial_record_ignored_witness :
  worker_eval Sample.K Sample.range_knobs 5 9
              (Sample.fresh Sample.range_payload) Sample.idle
  = worker_eval Sample.K Sample.range_knobs 5 9
                (Sample.fresh (firstn 423 Sample.range_payload)) Sample.idle
  /\ exists w' t,
       worker_eval Sample.K Sample.range_knobs 5 9
                   (Sample.fresh Sample.range_payload) Sample.idle = Ok (w', t)
       /\ rows_returned w' = 3.
Proof.
  destruct (C5_partial_record_ignored
              Sample.K Sample.range_knobs 5 9
              (Sample.fresh Sample.range_payload) Sample.idle)
    as (Hsame & Hok).
  - discriminate.
  - reflexivity.
  - split; [exact Hsame|].
    destruct (Hok eq_refl) as (w' & t & He & Hrr).
    exists w', t. split; [exact He|]. rewrite Hrr. reflexivity.
Defined.

(** C5, the claim as stated fails: a payload of one record and one stray
    byte, read directly for query "fastpath", is evaluated without error as
    one row. *)
Lemma C5_truncated_payload_accepted :
  length Sample.stray_payload = 142%nat
  /\ exists w' t,
       worker_eval Sample.K (Sample.knobs "fastpath" false) 5 9
                   (Sample.fresh Sample.stray_payload) Sample.idle = Ok (w', t)
       /\ result_count w' = 1 /\ rows_returned w' = 1.
Proof.
  split; [reflexivity|]. eexists; eexists. split; [reflexivity|]. split; reflexivity.
Qed.

(** ** The completion callback and the worker's take *)

Lemma nth_error_replace_nth {A : Type} (l : list A) : forall i x v,
  nth_error l i = Some x -> nth_error (replace_nth i v l) i = Some v.
Proof.
  induction l as [|y l IH]; intros [|i] x v H; try discriminate; cbn in *.
  - reflexivity.
  - eapply IH, H.
Qed.

(** C4 (as amended). The completion callback stores the clock reading in
    [response], leaves [outstanding_ios] alone, appends the record to
    [ready_ios] and notifies [work_cond], the condition variable of the
    workers. The counter is decremented, and [dispatch_cond] notified, by the
    worker that has taken the record from the queue. *)
Theorem C4_callback_queues_worker_decrements :
  (forall now s st comp,
      c s = Some comp ->
      0 <= get_return_value comp ->
      exists st',
        handle_cb now s st = Ok st'
        /\ ready_ios st' = ready_ios st ++ [mk_aio (bl s) None (set_response now (times s))]
        /\ outstanding_ios st' = outstanding_ios st
        /\ signals st' = signals st ++ [work_cond_notify_one])
  /\ (forall K g i t0 t1 s st,
         nth_error (workers st) i = Some (WTaken s) ->
         exists st',
           worker_step K g i t0 t1 st = Some (Ok st')
           /\ outstanding_ios st' = outstanding_ios st - 1
           /\ signals st' = signals st ++ [dispatch_cond_notify_one]
           /\ nth_error (workers st') i = Some (WEval s)).
Proof.
  split.
  - intros now s st comp Hc Hret. unfold handle_cb. cbn [c]. rewrite Hc.
    unfold assert. apply Z.geb_le in Hret. rewrite Hret. cbn [bind].
    eexists. split; [reflexivity|]. repeat split; reflexivity.
  - intros K g i t0 t1 s st Hw. unfold worker_step. rewrite Hw.
    eexists. split; [reflexivity|]. repeat split; try reflexivity.
    cbn. eapply nth_error_replace_nth, Hw.
Qed.

Lemma C4_callback_queues_worker_decrements_witness :
  (exists st',
      handle_cb 2 Sample.submitted Sample.busy = Ok st'
      /\ outstanding_ios st' = 1
      /\ signals st' = [work_cond_notify_one])
  /\ (exists st',
         worker_step Sample.K (Sample.knobs "fastpath" false) 0 0 0 Sample.taken
         = Some (Ok st')
         /\ outstanding_ios st' = 0
         /\ signals st' = [work_cond_notify_one; dispatch_cond_notify_one]).
Proof.
  destruct C4_callback_queues_worker_decrements as (Hcb & Hworker). split.
  - destruct (Hcb 2 Sample.submitted Sample.busy (mk_completion 0) eq_refl)
      as (st' & He & _ & Ho & Hs); [cbn; lia|].
    exists st'. split; [exact He|]. rewrite Ho, Hs. split; reflexivity.
  - destruct (Hworker Sample.K (Sample.knobs "fastpath" false) 0%nat 0 0
                      (mk_aio [] None (mk_timing 1 2 0 0 0)) Sample.taken eq_refl)
      as (st' & He & Ho & Hs & _).
    exists st'. split; [exact He|]. rewrite Ho, Hs. split; reflexivity.
Defined.

(** C4, the claim as stated fails: with one I/O outstanding, the callback
    returns with the counter still at one and without a notification of
    [dispatch_cond]. *)
Lemma C4_callback_keeps_counter :
  outstanding_ios Sample.busy = 1
  /\ exists st',
       handle_cb 2 Sample.submitted Sample.busy = Ok st'
       /\ outstanding_ios st' = 1
       /\ ~ In dispatch_cond_notify_one (signals st').
Proof.
  split; [reflexivity|]. eexists. split; [reflexivity|]. split; [reflexivity|].
  cbn. intros [H|[]]. discriminate.
Qed.

(** ** Invariants of the threads *)

(** Case analysis of a step that succeeded: every way [step] can return
    [Some (Ok st')], with [st'] written out. *)
Ltac invert_step H :=
  unfold step, dispatcher_step, worker_step, complete_step, handle_cb, set_worker,
         checkret, assert, bind in H;
  repeat match type of H with
         | context [match ?x with _ => _ end] =>
           let E := fresh "E" in destruct x eqn:E; try discriminate H
         end;
  subst; injection H as <-.

Lemma run_reachable K g qdepth : forall ls st0 st,
  run K g qdepth ls st0 = Some (Ok st) -> reachable K g qdepth st0 st.
Proof.
  intros ls st0 st H.
  assert (G : forall ls st1, reachable K g qdepth st0 st1 ->
                             run K g qdepth ls st1 = Some (Ok st) ->
                             reachable K g qdepth st0 st).
  { clear ls H. induction ls as [|l ls IH]; intros st1 Hr H; cbn [run] in H.
    - injection H as <-. exact Hr.
    - destruct (step K g qdepth l st1) as [[st2| |]|] eqn:Hs; try discriminate.
      eapply IH; [|exact H]. eapply reach_step; eassumption. }
  eapply G; [apply reach_start|exact H].
Qed.

Lemma pop_back_app v : forall oid rest,
  pop_back v = Some (oid, rest) -> v = rest ++ [oid].
Proof.
  induction v as [|x v IH]; intros oid rest H; [discriminate|].
  cbn [pop_back] in H. destruct v as [|y v].
  - injection H as <- <-. reflexivity.
  - destruct (pop_back (y :: v)) as [[last rest']|]; [|discriminate].
    injection H as <- <-. cbn [app]. f_equal. now apply IH.
Qed.

Lemma window_inv_step K g qdepth l st st' :
  window_inv qdepth st ->
  step K g qdepth l st = Some (Ok st') ->
  window_inv qdepth st'.
Proof.
  unfold window_inv. intros (Hle & Hcount) H.
  invert_step H; cbn in *;
    repeat match goal with
           | E : dispatcher _ = _ |- _ => rewrite E in *
           | E : (_ <? _) = true |- _ => apply Z.ltb_lt in E
           end;
    cbn in *; rewrite ?length_app in *; cbn in *; lia.
Qed.

Lemma window_inv_reachable K g qdepth st0 st :
  window_inv qdepth st0 ->
  reachable K g qdepth st0 st ->
  window_inv qdepth st.
Proof.
  intros H0 Hr. induction Hr as [|st l st' Hr IH Hs]; [exact H0|].
  eapply window_inv_step; eassumption.
Qed.

(** C7. In every state the threads can reach from the start of the dispatch
    loop, [outstanding_ios] is at most [qdepth]. A request is dispatched only
    while [outstanding_ios < qdepth]; the counter is the number of requests
    dispatched (less the one whose increment is still to come) minus the
    number of completions taken by workers; and with the window full and
    targets left, the dispatcher's step is to wait on its condition
    variable. *)
Theorem C7_in_flight_within_qdepth K g qd targets nworkers printed st :
  0 < qd ->
  reachable K g qd (start targets nworkers printed) st ->
  outstanding_ios st <= qd
  /\ outstanding_ios st
     = Z.of_nat (length (dispatched st)) - pending_increment (dispatcher st)
       - consumed st
  /\ (forall now ret st',
         step K g qd (Dispatch now ret) st = Some (Ok st') ->
         outstanding_ios st < qd /\ dispatcher st' = DSubmitted
         /\ outstanding_ios st' = outstanding_ios st)
  /\ (forall st',
         step K g qd Increment st = Some (Ok st') ->
         dispatcher st = DSubmitted /\ outstanding_ios st' = outstanding_ios st + 1)
  /\ (dispatcher st = DLoop ->
      qd <= outstanding_ios st ->
      target_objects st <> [] ->
      step K g qd Wait st = Some (Ok (with_dispatcher DWaiting st))
      /\ forall now ret, step K g qd (Dispatch now ret) st = None).
Proof.
  intros Hqd Hr.
  assert (Hinv : window_inv qd st).
  { eapply window_inv_reachable; [|exact Hr]. unfold window_inv. cbn. lia. }
  destruct Hinv as (Hle & Hcount).
  split; [|split; [exact Hcount|split; [|split]]].
  - destruct (dispatcher st); cbn in Hle; lia.
  - intros now ret st' H.
    invert_step H; cbn; repeat split; try reflexivity; apply Z.ltb_lt; assumption.
  - intros st' H. invert_step H; cbn; split; reflexivity.
  - intros Hd Hfull Hne. cbn [step dispatcher_step]. rewrite Hd.
    apply Z.ltb_ge in Hfull. rewrite Hfull.
    destruct (target_objects st); [contradiction|]. split; reflexivity.
Qed.

Lemma C7_in_flight_within_qdepth_witness :
  exists st,
    run Sample.K (Sample.knobs "fastpath" false) 1 Sample.schedule
        (start ["obj.1"; "obj.0"]%string 1 []) = Some (Ok st)
    /\ dispatched st = ["obj.0"; "obj.1"]%string
    /\ outstanding_ios st <= 1.
Proof.
  eexists. split; [vm_compute; reflexivity|]. split; [reflexivity|].
  eapply (C7_in_flight_within_qdepth
            Sample.K (Sample.knobs "fastpath" false) 1 ["obj.1"; "obj.0"]%string 1 []).
  - lia.
  - apply (run_reachable _ _ _ Sample.schedule). vm_compute. reflexivity.
Defined.

(** ** The statistics of a timing record without pushdown *)

Lemma worker_eval_times_direct K g t0 t1 s w w' t :
  use_cls g = false ->
  worker_eval K g t0 t1 s w = Ok (w', t) ->
  t = set_eval2_ns (u64 (t1 - t0)) (times s).
Proof.
  intros Hc. unfold worker_eval, eval_flatbuf, eval_rows. rewrite Hc, andb_false_r.
  cbn [bind]. cbv zeta.
  destruct (query g =? "flatbuf")%string.
  - destruct (frame_loop K g (length (bl s)) (bl s) w); cbn [bind]; try discriminate.
    intros H. now injection H as _ <-.
  - repeat match goal with
           | |- context [if ?b then _ else _] => destruct b
           end; cbn [bind]; try discriminate; intros H; now injection H as _ <-.
Qed.

Lemma Forall_replace_nth {A : Type} (P : A -> Prop) (l : list A) : forall i v,
  Forall P l -> P v -> Forall P (replace_nth i v l).
Proof.
  induction l as [|x l IH]; intros [|i] v Hl Hv; cbn [replace_nth];
    try constructor; inversion Hl; subst; auto.
Qed.

Lemma Forall_remove_nth {A : Type} (P : A -> Prop) (l : list A) : forall k,
  Forall P l -> Forall P (remove_nth k l).
Proof.
  induction l as [|x l IH]; intros [|k] Hl; cbn [remove_nth];
    try constructor; inversion Hl; subst; auto.
Qed.

Lemma Forall_nth_error {A : Type} (P : A -> Prop) (l : list A) k x :
  Forall P l -> nth_error l k = Some x -> P x.
Proof.
  intros Hl Hk. apply nth_error_In in Hk. rewrite Forall_forall in Hl. now apply Hl.
Qed.

Lemma Forall_snoc {A : Type} (P : A -> Prop) (l : list A) x :
  Forall P l -> P x -> Forall P (l ++ [x]).
Proof.
  intros Hl Hx. apply Forall_app. split; [exact Hl|]. now constructor.
Qed.

Lemma stats_inv_step K g qdepth l st st' :
  use_cls g = false ->
  stats_inv st ->
  step K g qdepth l st = Some (Ok st') ->
  stats_inv st'.
Proof.
  intros Hc (Ht & Hr & Hf & Hw) H. unfold stats_inv.
  destruct l; cbn [step] in H.
  1-8: invert_step H; cbn; repeat split; try assumption;
    apply Forall_snoc; try assumption; split; reflexivity.
  - invert_step H. cbn. repeat split; try assumption.
    + apply Forall_snoc; [assumption|].
      eapply (Forall_nth_error _ _ _ _ Hf) in E. exact E.
    + now apply Forall_remove_nth.
  - unfold worker_step in H.
    destruct (nth_error (workers st) i) as [pc|] eqn:Hi; [|discriminate].
    pose proof (Forall_nth_error _ _ _ _ Hw Hi) as Hpc.
    destruct pc as [|s|s|t|]; try discriminate.
    + destruct (ready_ios st) as [|s rest] eqn:Hrd.
      * destruct (stop st); [|discriminate]. injection H as <-. cbn. rewrite Hrd.
        repeat split; try assumption. now apply Forall_replace_nth.
      * injection H as <-. cbn. inversion Hr; subst.
        repeat split; try assumption. now apply Forall_replace_nth.
    + injection H as <-. cbn. repeat split; try assumption.
      now apply Forall_replace_nth.
    + destruct (worker_eval K g t0 t1 s (shared st)) as [[w' t]| |] eqn:He;
        cbn [bind] in H; try discriminate.
      injection H as <-. cbn. repeat split; try assumption.
      apply Forall_replace_nth; [assumption|].
      rewrite (worker_eval_times_direct K g t0 t1 s (shared st) w' t Hc He).
      exact Hpc.
    + injection H as <-. cbn. repeat split; try assumption.
      * now apply Forall_snoc.
      * now apply Forall_replace_nth.
Qed.

Lemma stats_inv_start targets nworkers printed :
  stats_inv (start targets nworkers printed).
Proof.
  unfold stats_inv, start. cbn. repeat split; try constructor.
  apply Forall_forall. intros pc Hpc. apply repeat_spec in Hpc. now subst.
Qed.

(** C10. Without pushdown ([use_cls] false), in every state the threads can
    reach, each record of [timings] has [read_ns] and [eval_ns] zero, and so
    each line of the log file after the header reads
    dispatch,response,0,0,eval2_ns. *)
Theorem C10_direct_read_stats_zero K g qd targets nworkers printed st :
  use_cls g = false ->
  reachable K g qd (start targets nworkers printed) st ->
  Forall zero_stats (timings st)
  /\ tl (log_file (timings st))
     = map (fun t => (dec (dispatch t) ++ "," ++ dec (response t) ++ ",0,0,"
                        ++ dec (eval2_ns t))%string)
           (timings st).
Proof.
  intros Hc Hr.
  assert (Hinv : stats_inv st).
  { induction Hr as [|st l st' Hr IH Hs]; [apply stats_inv_start|].
    eapply stats_inv_step; eassumption. }
  destruct Hinv as (Ht & _). split; [exact Ht|].
  cbn [log_file tl]. apply map_ext_in. intros t Hin.
  rewrite Forall_forall in Ht. destruct (Ht t Hin) as (Hrd & Hev).
  unfold log_line. rewrite Hrd, Hev. reflexivity.
Qed.

Lemma C10_direct_read_stats_zero_witness :
  exists st,
    run Sample.K (Sample.knobs "fastpath" false) 1 Sample.schedule
        (start ["obj.1"; "obj.0"]%string 1 []) = Some (Ok st)
    /\ timings st = [mk_timing 1 2 0 0 1]
    /\ Forall zero_stats (timings st).
Proof.
  eexists. split; [vm_compute; reflexivity|]. split; [reflexivity|].
  eapply (C10_direct_read_stats_zero
            Sample.K (Sample.knobs "fastpath" false) 1 ["obj.1"; "obj.0"]%string 1 []).
  - reflexivity.
  - apply (run_reachable _ _ _ Sample.schedule). vm_compute. reflexivity.
Defined.

(** ** The order of dispatch *)

Lemma dispatch_order_step K g qdepth l st st' :
  step K g qdepth l st = Some (Ok st') ->
  dispatched st' ++ rev (target_objects st') = dispatched st ++ rev (target_objects st).
Proof.
  intros H. invert_step H; cbn; try reflexivity;
    repeat match goal with
           | E : pop_back _ = Some _ |- _ => apply pop_back_app in E
           | E : target_objects _ = _ |- _ => rewrite E
           end;
    cbn; rewrite ?rev_app_distr, <- ?app_assoc; reflexivity.
Qed.

Lemma dispatch_order_reachable K g qdepth st0 st :
  reachable K g qdepth st0 st ->
  dispatched st ++ rev (target_objects st) = dispatched st0 ++ rev (target_objects st0).
Proof.
  intros Hr. induction Hr as [|st l st' Hr IH Hs]; [reflexivity|].
  rewrite <- IH. eapply dispatch_order_step, Hs.
Qed.

Lemma generate_targets_names n :
  generate_targets n = map (fun i => oid_of (Z.of_nat i)) (seq 0 (Z.to_nat n)).
Proof.
  unfold generate_targets. generalize (seq 0 (Z.to_nat n)). intros l.
  assert (G : forall acc,
             fold_left (fun v oidx => v ++ [oid_of (Z.of_nat oidx)]) l acc
             = acc ++ map (fun i => oid_of (Z.of_nat i)) l).
  { induction l as [|x l IH]; intros acc; cbn [fold_left map].
    - now rewrite app_nil_r.
    - rewrite IH, <- app_assoc. reflexivity. }
  apply (G []).
Qed.

(** ** The orchestrator before the dispatch loop *)

Ltac split_query g :=
  destruct (String.eqb_spec (query g) "a") as [->|_]; [|
  destruct (String.eqb_spec (query g) "b") as [->|_]; [|
  destruct (String.eqb_spec (query g) "c") as [->|_]; [|
  destruct (String.eqb_spec (query g) "d") as [->|_]; [|
  destruct (String.eqb_spec (query g) "e") as [->|_]; [|
  destruct (String.eqb_spec (query g) "f") as [->|_]; [|
  destruct (String.eqb_spec (query g) "fastpath") as [->|_]; [|
  destruct (String.eqb_spec (query g) "flatbuf") as [->|_]]]]]]]];
  cbn [String.eqb Ascii.eqb Bool.eqb orb andb negb implb].

(** The sanity checks: they request no object, they pass only when the
    table holds and the query is known, they abort when the table fails,
    and an unknown query exits with status 1 after the diagnostic. *)
Lemma sanity_check_cases K o g :
  no_object_io (fst (sanity_check K o g))
  /\ (forall g', snd (sanity_check K o g) = Ok g' ->
                 table_holds g = true /\ known_query (query g) = true)
  /\ (table_holds g = false -> exists f, snd (sanity_check K o g) = Abort f)
  /\ (known_query (query g) = false ->
      sanity_check K o g = ([ev_cerr ("invalid query: " ++ query g)], Exit 1)).
Proof.
  unfold no_object_io, sanity_check, table_holds, known_query.
  unfold lift, emit, assert, tret, tbind.
  split_query g;
  destruct (use_index g), (projection g), (use_cls g);
  cbn [orb andb negb implb];
  split_ifs;
  cbn [fst snd app existsb is_object_io orb andb negb implb];
  repeat split; try reflexivity; try discriminate; intros; try discriminate;
  try (eexists; reflexivity).
Qed.

Lemma main_prelude_unfold K cl o g :
  main_prelude K cl o g
  = (_ <~ lift (assert (num_objs o >? 0) "num_objs > 0") ;;
     _ <~ lift (assert (wthreads o >? 0) "wthreads > 0") ;;
     _ <~ lift (assert (qdepth o >? 0) "qdepth > 0") ;;
     _ <~ emit ev_connect ;;
     _ <~ lift (checkret (connect_ret cl) 0) ;;
     _ <~ emit (ev_ioctx_create (pool o)) ;;
     _ <~ lift (checkret (ioctx_create_ret cl) 0) ;;
     targets <~ lift (order_targets K (dir o) (generate_targets (num_objs o))) ;;
     after_pool K cl o g targets).
Proof. reflexivity. Qed.

Lemma order_targets_cases K d v :
  (exists targets, order_targets K d v = Ok targets)
  \/ (order_targets K d v = Abort (AssertFailed "0")
      /\ d <> "fwd"%string /\ d <> "bwd"%string /\ d <> "rnd"%string).
Proof.
  unfold order_targets.
  destruct (String.eqb_spec d "fwd"); [left; eexists; reflexivity|].
  destruct (String.eqb_spec d "bwd"); [left; eexists; reflexivity|].
  destruct (String.eqb_spec d "rnd"); [left; eexists; reflexivity|].
  right. repeat split; assumption.
Qed.

Lemma main_prelude_shape K cl o g :
  (exists tr f, main_prelude K cl o g = (tr, Abort f) /\ no_object_io tr)
  \/ (exists targets,
         order_targets K (dir o) (generate_targets (num_objs o)) = Ok targets
         /\ main_prelude K cl o g
            = ([ev_connect; ev_ioctx_create (pool o)] ++ fst (after_pool K cl o g targets),
               snd (after_pool K cl o g targets))).
Proof.
  rewrite main_prelude_unfold. unfold lift, emit, assert, checkret.
  destruct (num_objs o >? 0); [|left; do 2 eexists; split; reflexivity].
  destruct (wthreads o >? 0); [|left; do 2 eexists; split; reflexivity].
  destruct (qdepth o >? 0); [|left; do 2 eexists; split; reflexivity].
  destruct (connect_ret cl =? 0); [|left; do 2 eexists; split; reflexivity].
  destruct (ioctx_create_ret cl =? 0); [|left; do 2 eexists; split; reflexivity].
  destruct (order_targets_cases K (dir o) (generate_targets (num_objs o)))
    as [(targets & Ho)|(Ho & _)]; rewrite Ho.
  - right. exists targets. split; [reflexivity|].
    cbn [tbind]. destruct (after_pool K cl o g targets) as [tr r]. reflexivity.
  - left. do 2 eexists. split; reflexivity.
Qed.

Lemma after_pool_query_path K cl o g targets :
  build_index o = false ->
  fst (after_pool K cl o g targets) = fst (sanity_check K o g)
  /\ snd (after_pool K cl o g targets)
     = (g' <- snd (sanity_check K o g) ;; Ok (g', targets)).
Proof.
  intros Hb. unfold after_pool. rewrite Hb. unfold tbind, tret.
  destruct (sanity_check K o g) as [tr [g'| |]]; cbn [fst snd bind];
    rewrite ?app_nil_r; split; reflexivity.
Qed.

Lemma after_pool_build_index K cl o g targets :
  build_index o = true ->
  forall r, snd (after_pool K cl o g targets) <> Ok r.
Proof.
  intros Hb r. unfold after_pool. rewrite Hb. unfold tbind, lift.
  destruct (create_ioctxs cl (pool o) (Z.to_nat (wthreads o))) as [tr1 [[]| |]];
    try discriminate.
  destruct (worker_build_index cl g (rev targets)) as [tr2 [[]| |]]; discriminate.
Qed.

Ltac case_query g :=
  let Hq := fresh "Hq" in
  destruct (String.eqb_spec (query g) "a") as [Hq|_]; [try rewrite Hq|
  destruct (String.eqb_spec (query g) "b") as [Hq|_]; [try rewrite Hq|
  destruct (String.eqb_spec (query g) "c") as [Hq|_]; [try rewrite Hq|
  destruct (String.eqb_spec (query g) "d") as [Hq|_]; [try rewrite Hq|
  destruct (String.eqb_spec (query g) "e") as [Hq|_]; [try rewrite Hq|
  destruct (String.eqb_spec (query g) "f") as [Hq|_]; [try rewrite Hq|
  destruct (String.eqb_spec (query g) "fastpath") as [Hq|_]; [try rewrite Hq|
  destruct (String.eqb_spec (query g) "flatbuf") as [Hq|_];
    [try rewrite Hq|]]]]]]]];
  cbn [String.eqb Ascii.eqb Bool.eqb orb andb negb implb].

Lemma sanity_check_table K o g :
  (table_holds g = false ->
   exists expr, sanity_check K o g = ([], Abort (AssertFailed expr)))
  /\ (table_holds g = true -> table_query (query g) = true ->
      exists line, sanity_check K o g = ([ev_cout line], Ok g)).
Proof.
  unfold sanity_check, table_holds, table_query.
  unfold lift, emit, assert, tret, tbind.
  case_query g;
  destruct (use_index g), (projection g), (use_cls g);
  cbn [orb andb negb implb];
  repeat match goal with
         | |- context [negb ?b] =>
           lazymatch b with
           | true => fail
           | false => fail
           | _ => destruct b; cbn [orb andb negb implb]
           end
         end;
  split_ifs;
  cbn [fst snd app orb andb negb implb];
  split; intros; try discriminate; eexists; reflexivity.
Qed.

Lemma main_prelude_opened K cl o g :
  pool_opened cl o = true ->
  main_prelude K cl o g
  = match order_targets K (dir o) (generate_targets (num_objs o)) with
    | Ok targets =>
      ([ev_connect; ev_ioctx_create (pool o)] ++ fst (after_pool K cl o g targets),
       snd (after_pool K cl o g targets))
    | Abort f => ([ev_connect; ev_ioctx_create (pool o)], Abort f)
    | Exit code => ([ev_connect; ev_ioctx_create (pool o)], Exit code)
    end.
Proof.
  unfold pool_opened. intros H.
  apply andb_prop in H as (H & Hi). apply andb_prop in H as (H & Hc).
  apply andb_prop in H as (H & Hq). apply andb_prop in H as (Hn & Hw).
  rewrite main_prelude_unfold. unfold lift, emit, assert, checkret.
  rewrite Hn, Hw, Hq, Hc, Hi.
  destruct (order_targets K (dir o) (generate_targets (num_objs o))) as [targets| |];
    [|reflexivity|reflexivity].
  cbn [tbind]. destruct (after_pool K cl o g targets) as [tr r]. reflexivity.
Qed.

Lemma main_prelude_not_opened K cl o g :
  pool_opened cl o = false ->
  exists tr f, main_prelude K cl o g = (tr, Abort f) /\ no_object_io tr.
Proof.
  unfold pool_opened. intros H.
  rewrite main_prelude_unfold. unfold lift, emit, assert, checkret.
  destruct (num_objs o >? 0); [|do 2 eexists; split; reflexivity].
  destruct (wthreads o >? 0); [|do 2 eexists; split; reflexivity].
  destruct (qdepth o >? 0); [|do 2 eexists; split; reflexivity].
  destruct (connect_ret cl =? 0); [|do 2 eexists; split; reflexivity].
  destruct (ioctx_create_ret cl =? 0); [discriminate H|].
  do 2 eexists; split; reflexivity.
Qed.

Lemma order_targets_known K d v :
  (known_dir d = true -> exists targets, order_targets K d v = Ok targets)
  /\ (known_dir d = false -> order_targets K d v = Abort (AssertFailed "0")).
Proof.
  unfold known_dir, order_targets.
  destruct (d =? "fwd")%string; [split; [eexists; reflexivity|discriminate]|].
  destruct (d =? "bwd")%string; [split; [eexists; reflexivity|discriminate]|].
  destruct (d =? "rnd")%string; [split; [eexists; reflexivity|discriminate]|].
  split; [discriminate|reflexivity].
Qed.

(** C6 (as amended). When [build_index] is not set, [main] requests no
    object before the dispatch loop, and it reaches the loop only if the
    argument-validity table holds and the query is known: for "a", "b", "c"
    [extended_price != 0] and no [use_index]; for "d" [order_key != 0],
    [line_number != 0] and [use_index] only with [use_cls]; for "fastpath"
    neither [use_index] nor [projection]. When the table fails [main]
    aborts, and once it is connected with the pool open it does so on an
    assertion with nothing done but the connection and the opening of the
    pool. When the table holds for one of these queries, the pool is open
    and the direction is known, [main] prints the query and goes on to the
    dispatch loop with the knobs unchanged. An unknown query, with the pool
    open and a known direction, ends the process with status 1 after the
    diagnostic "invalid query: " and the query, and nothing else after the
    opening of the pool; without them [main] has aborted before. *)
Theorem C6_arguments_checked_before_dispatch K cl o g :
  build_index o = false ->
  no_object_io (fst (main_prelude K cl o g))
  /\ (forall g' targets,
         snd (main_prelude K cl o g) = Ok (g', targets) ->
         table_holds g = true /\ known_query (query g) = true)
  /\ (table_holds g = false ->
      (exists f, snd (main_prelude K cl o g) = Abort f)
      /\ (pool_opened cl o = true ->
          exists expr,
            main_prelude K cl o g
            = ([ev_connect; ev_ioctx_create (pool o)], Abort (AssertFailed expr))))
  /\ (table_holds g = true -> table_query (query g) = true ->
      pool_opened cl o = true -> known_dir (dir o) = true ->
      exists line targets,
        main_prelude K cl o g
        = ([ev_connect; ev_ioctx_create (pool o); ev_cout line], Ok (g, targets)))
  /\ (known_query (query g) = false ->
      (pool_opened cl o && known_dir (dir o) = true ->
       main_prelude K cl o g
       = ([ev_connect; ev_ioctx_create (pool o);
           ev_cerr ("invalid query: " ++ query g)], Exit 1))
      /\ (pool_opened cl o && known_dir (dir o) = false ->
          exists tr f, main_prelude K cl o g = (tr, Abort f) /\ no_object_io tr)).
Proof.
  intros Hb.
  destruct (sanity_check_cases K o g) as (Hio & Hok & Hbad & Hunknown).
  destruct (sanity_check_table K o g) as (Hfails & Hpasses).
  destruct (order_targets_known K (dir o) (generate_targets (num_objs o)))
    as (Hdir & Hnodir).
  assert (Hafter : forall targets,
             after_pool K cl o g targets
             = (fst (sanity_check K o g),
                g' <- snd (sanity_check K o g) ;; Ok (g', targets))).
  { intros targets.
    destruct (after_pool_query_path K cl o g targets Hb) as (Hf & Hs).
    rewrite <- Hf, <- Hs. now destruct (after_pool K cl o g targets). }
  split; [|split; [|split; [|split]]].
  - destruct (main_prelude_shape K cl o g) as [(tr & f & E & Hno)|(targets & Ho & E)];
      rewrite E; cbn [fst]; [exact Hno|].
    rewrite Hafter. exact Hio.
  - intros g' targets'.
    destruct (main_prelude_shape K cl o g) as [(tr & f & E & _)|(targets & Ho & E)];
      rewrite E; cbn [snd]; [discriminate|].
    rewrite Hafter. cbn [snd].
    destruct (snd (sanity_check K o g)) as [g1| |] eqn:Hsc; cbn [bind];
      try discriminate.
    intros _. now apply (Hok g1).
  - intros Hfail. destruct (Hfails Hfail) as (expr & Hsc). split.
    + destruct (main_prelude_shape K cl o g) as [(tr & f & E & _)|(targets & Ho & E)];
        rewrite E; cbn [snd]; [eexists; reflexivity|].
      rewrite Hafter, Hsc. eexists. reflexivity.
    + intros Hopen. rewrite (main_prelude_opened K cl o g Hopen).
      destruct (order_targets_cases K (dir o) (generate_targets (num_objs o)))
        as [(targets & Ho)|(Ho & _)]; rewrite Ho; [|eexists; reflexivity].
      rewrite Hafter, Hsc. eexists. reflexivity.
  - intros Hholds Hq Hopen Hknown.
    destruct (Hpasses Hholds Hq) as (line & Hsc).
    destruct (Hdir Hknown) as (targets & Ho).
    exists line, targets.
    rewrite (main_prelude_opened K cl o g Hopen), Ho, Hafter, Hsc. reflexivity.
  - intros Hq. split; intros Hstart.
    + apply andb_prop in Hstart as (Hopen & Hknown).
      destruct (Hdir Hknown) as (targets & Ho).
      rewrite (main_prelude_opened K cl o g Hopen), Ho, Hafter, (Hunknown Hq).
      reflexivity.
    + destruct (pool_opened cl o) eqn:Hopen.
      * cbn [andb] in Hstart.
        rewrite (main_prelude_opened K cl o g Hopen), (Hnodir Hstart).
        do 2 eexists. split; reflexivity.
      * now apply main_prelude_not_opened.
Qed.

Lemma C6_arguments_checked_before_dispatch_witness :
  (exists expr,
      main_prelude Sample.K Sample.cl (Sample.opts false "fwd") (Sample.knobs "a" false)
      = ([ev_connect; ev_ioctx_create "tpc"], Abort (AssertFailed expr)))
  /\ main_prelude Sample.K Sample.cl (Sample.opts false "fwd")
                  (Sample.knobs "nonsense" false)
     = ([ev_connect; ev_ioctx_create "tpc"; ev_cerr "invalid query: nonsense"], Exit 1)
  /\ (exists line targets,
         main_prelude Sample.K Sample.cl (Sample.opts false "fwd")
                      (Sample.knobs "fastpath" false)
         = ([ev_connect; ev_ioctx_create "tpc"; ev_cout line],
            Ok (Sample.knobs "fastpath" false, targets))).
Proof.
  split; [|split].
  - destruct (C6_arguments_checked_before_dispatch
                Sample.K Sample.cl (Sample.opts false "fwd") (Sample.knobs "a" false)
                eq_refl)
      as (_ & _ & Hfail & _).
    destruct (Hfail eq_refl) as (_ & Hopened). exact (Hopened eq_refl).
  - destruct (C6_arguments_checked_before_dispatch
                Sample.K Sample.cl (Sample.opts false "fwd")
                (Sample.knobs "nonsense" false) eq_refl)
      as (_ & _ & _ & _ & Hunknown).
    destruct (Hunknown eq_refl) as (Hexit & _). exact (Hexit eq_refl).
  - destruct (C6_arguments_checked_before_dispatch
                Sample.K Sample.cl (Sample.opts false "fwd")
                (Sample.knobs "fastpath" false) eq_refl)
      as (_ & _ & _ & Hpass & _).
    exact (Hpass eq_refl eq_refl eq_refl eq_refl).
Defined.

(** C6, the claim as stated fails: with [build_index] set and query "a"
    given without an extended price, [main] does not abort; it asks the
    cluster to build the index of every object and returns 0. *)
Lemma C6_build_index_skips_checks :
  table_holds (Sample.knobs "a" false) = false
  /\ main_prelude Sample.K Sample.cl (Sample.opts true "fwd") (Sample.knobs "a" false)
     = ([ev_connect; ev_ioctx_create "tpc"; ev_ioctx_create "tpc";
         ev_cout "building index... obj.0";
         ev_exec "obj.0" "tabular" "build_index" (Wire.encode_u32 1000);
         ev_cout "building index... obj.1";
         ev_exec "obj.1" "tabular" "build_index" (Wire.encode_u32 1000)],
        Exit 0).
Proof. split; reflexivity. Qed.





(** ** The summary *)



(** * Further properties of the code *)

(** ** [string_ncopy] *)

Lemma upto_nul_spec bs :
  ~ In x00 (Row.upto_nul bs)
  /\ exists rest,
       bs = Row.upto_nul bs ++ rest /\ (rest = [] \/ hd_error rest = Some x00).
Proof.
  induction bs as [|b bs (Hnot & rest & Hsplit & Hrest)]; cbn [Row.upto_nul].
  - split; [intros []|]. exists []. split; [reflexivity|now left].
  - destruct (Byte.eqb b x00) eqn:Hb.
    + apply Byte.byte_dec_bl in Hb. subst b.
      split; [intros []|]. exists (x00 :: bs). split; [reflexivity|now right].
    + split.
      * intros [->|Hin]; [|now apply Hnot].
        rewrite (Byte.byte_dec_lb eq_refl) in Hb. discriminate.
      * exists rest. split; [|exact Hrest]. cbn [app]. now rewrite <- Hsplit.
Qed.

(** X1. [string_ncopy(buffer, buffer_size)] returns the bytes of the buffer
    before the first NUL among the first [buffer_size] bytes, and all of
    these bytes when none is NUL: the result contains no NUL, holds at most
    [buffer_size] bytes, and what follows it within the field is nothing or
    starts with a NUL. *)
Theorem X1_string_ncopy_stops_at_nul buffer buffer_size :
  let copied := Row.string_ncopy buffer buffer_size in
  ~ In x00 copied
  /\ (length copied <= Z.to_nat buffer_size)%nat
  /\ exists rest,
       firstn (Z.to_nat buffer_size) buffer = copied ++ rest
       /\ (rest = [] \/ hd_error rest = Some x00).
Proof.
  unfold Row.string_ncopy. cbv zeta.
  destruct (upto_nul_spec (firstn (Z.to_nat buffer_size) buffer))
    as (Hnot & rest & Hsplit & Hrest).
  split; [exact Hnot|]. split.
  - pose proof (length_firstn (Z.to_nat buffer_size) buffer) as Hlen.
    rewrite Hsplit, length_app in Hlen. lia.
  - exists rest. split; assumption.
Qed.

(** ** [add_extra_row_cost] *)

Lemma busy_loop_state (k : nat) (x : Z) :
  0 <= x < 2 ^ 64 ->
  nat_rect (fun _ => (Z * Z)%type) (0, x)
           (fun _ ix => (fst ix + 1, u64 (snd ix + fst ix))) k
  = (Z.of_nat k, u64 (x + Z.of_nat k * (Z.of_nat k - 1) / 2)).
Proof.
  intros Hx. induction k as [|k IH].
  - cbn [nat_rect Z.of_nat]. f_equal. change (0 * (0 - 1) / 2) with 0.
    rewrite Z.add_0_r. symmetry. apply Z.mod_small. exact Hx.
  - cbn [nat_rect]. rewrite IH. cbn [fst snd]. f_equal; [lia|].
    unfold u64. rewrite Zplus_mod_idemp_l. f_equal.
    replace (Z.of_nat (S k) * (Z.of_nat (S k) - 1))
      with (Z.of_nat k * (Z.of_nat k - 1) + Z.of_nat k * 2) by lia.
    rewrite Z.div_add by lia. lia.
Qed.

(** X2. The busy loop [add_extra_row_cost(cost)] adds 0 + 1 + ... +
    (cost - 1), that is cost * (cost - 1) / 2, to [__tabular_x] modulo 2^64,
    and touches neither the counters nor the output; with the default cost
    of 0 it changes nothing. *)
Theorem X2_extra_row_cost_sum cost w :
  0 <= cost ->
  0 <= tabular_x w < 2 ^ 64 ->
  tabular_x (add_extra_row_cost cost w) = u64 (tabular_x w + cost * (cost - 1) / 2)
  /\ result_count (add_extra_row_cost cost w) = result_count w
  /\ rows_returned (add_extra_row_cost cost w) = rows_returned w
  /\ nrows_processed (add_extra_row_cost cost w) = nrows_processed w
  /\ cout (add_extra_row_cost cost w) = cout w
  /\ (cost = 0 -> add_extra_row_cost cost w = w).
Proof.
  intros Hcost Hx.
  assert (Htab : tabular_x (add_extra_row_cost cost w)
                 = u64 (tabular_x w + cost * (cost - 1) / 2)).
  { unfold add_extra_row_cost, set_tabular_x. cbn [tabular_x].
    rewrite iter_nat_of_Z by exact Hcost.
    rewrite (busy_loop_state (Z.abs_nat cost) (tabular_x w) Hx). cbn [snd].
    rewrite Zabs2Nat.id_abs, Z.abs_eq by exact Hcost. reflexivity. }
  split; [exact Htab|]. repeat split.
  intros ->. destruct w as [rc rr np tx co ce]. reflexivity.
Qed.

Lemma X2_extra_row_cost_sum_witness :
  tabular_x (add_extra_row_cost 5 Sample.idle) = 10.
Proof.
  destruct (X2_extra_row_cost_sum 5 Sample.idle) as (Htab & _).
  - lia.
  - cbn. lia.
  - rewrite Htab. reflexivity.
Defined.

(** ** The fixed-row queries read directly *)

(** What a loop does to the counters and the output when its body, on the
    rows it acts on, counts one result and writes [line row]. *)
Lemma fold_counts (f : Row.ptr -> work -> work) (line : Row.ptr -> list out_line) :
  (forall row a,
      result_count (f row a) = add32 (result_count a) 1
      /\ cout (f row a) = cout a ++ line row
      /\ rows_returned (f row a) = rows_returned a
      /\ nrows_processed (f row a) = nrows_processed a) ->
  forall l w,
    0 <= result_count w < 2 ^ 32 ->
    let w' := fold_left (fun acc row => f row acc) l w in
    result_count w' = u32 (result_count w + Z.of_nat (length l))
    /\ cout w' = cout w ++ concat (map line l)
    /\ rows_returned w' = rows_returned w
    /\ nrows_processed w' = nrows_processed w.
Proof.
  intros Hf l. induction l as [|row l IH]; intros w Hw; cbv zeta.
  - cbn [fold_left length Z.of_nat map concat]. rewrite Z.add_0_r, app_nil_r.
    repeat split. symmetry. now apply u32_small.
  - cbn [fold_left length map concat].
    destruct (Hf row w) as (Hrc & Hco & Hrr & Hnp).
    destruct (IH (f row w)) as (Hrc' & Hco' & Hrr' & Hnp').
    { rewrite Hrc. apply u32_range. }
    rewrite Hrc', Hco', Hrr', Hnp', Hrc, Hco, Hrr, Hnp.
    unfold add32. rewrite u32_add_u32_l, <- app_assoc.
    repeat split. f_equal. lia.
Qed.

Lemma concat_lines (quiet_flag : bool) (line : Row.ptr -> out_line) l :
  concat (map (fun row => if quiet_flag then [] else [line row]) l)
  = if quiet_flag then [] else map line l.
Proof.
  induction l as [|row l IH]; cbn [map concat]; [now destruct quiet_flag|].
  rewrite IH. now destruct quiet_flag.
Qed.

Lemma print_row_direct g row w :
  use_cls g = false ->
  print_row g row w
  = mk_work (result_count w) (rows_returned w) (nrows_processed w) (tabular_x w)
            (cout w ++ (if quiet g then [] else [row_line g row])) (cerr w).
Proof.
  intros Hc. unfold print_row, row_line, put_cout, projected_row_line, full_row_line.
  rewrite Hc, andb_false_r. cbv zeta.
  destruct (quiet g), (projection g); rewrite ?app_nil_r; destruct w; reflexivity.
Qed.

Lemma emit_match_counts g :
  use_cls g = false ->
  forall row a,
    result_count (emit_match g row a) = add32 (result_count a) 1
    /\ cout (emit_match g row a) = cout a ++ (if quiet g then [] else [row_line g row])
    /\ rows_returned (emit_match g row a) = rows_returned a
    /\ nrows_processed (emit_match g row a) = nrows_processed a.
Proof.
  intros Hc row a. unfold emit_match. rewrite (print_row_direct g row a Hc).
  repeat split.
Qed.

Lemma emit_row_counts g :
  use_cls g = false ->
  forall row a,
    result_count (emit_row g row a) = add32 (result_count a) 1
    /\ cout (emit_row g row a) = cout a ++ (if quiet g then [] else [row_line g row])
    /\ rows_returned (emit_row g row a) = rows_returned a
    /\ nrows_processed (emit_row g row a) = nrows_processed a.
Proof.
  intros Hc row a. unfold emit_row. rewrite (print_row_direct g row a Hc).
  repeat split.
Qed.

Lemma records_length rs payload :
  Z.of_nat (length (records rs payload))
  = Z.max 0 (Z.of_nat (length payload) / rs).
Proof.
  unfold records. rewrite length_map, length_seq. lia.
Qed.

(** The fixed-row branch, read directly: the two row counters are advanced
    by [length / 141], then the loop of the query runs. *)
Lemma eval_rows_direct K g s w (body : Row.ptr -> work -> work) :
  use_cls g = false ->
  let n := Z.of_nat (length (bl s)) / 141 in
  let w1 := add_nrows_processed n (add_rows_returned n w) in
  (query g = "a"%string -> body = body_a g) ->
  (query g = "b"%string -> body = body_b g) ->
  (query g = "c"%string -> body = body_c g) ->
  (query g = "d"%string -> body = body_d g) ->
  (query g = "e"%string -> body = body_e g) ->
  (query g = "f"%string -> body = body_f K g) ->
  (query g = "fastpath"%string -> body = emit_row g) ->
  known_query (query g) = true ->
  query g <> "flatbuf"%string ->
  eval_rows K g s w
  = Ok (fold_left (fun acc row => body row acc) (records 141 (bl s)) w1, times s).
Proof.
  intros Hc n w1 Ha Hb Hcq Hd He Hf Hfp Hk Hnf.
  unfold eval_rows. rewrite Hc, andb_false_r. cbn [bind]. cbv zeta.
  fold n. fold w1. unfold known_query in Hk.
  destruct (String.eqb_spec (query g) "a");
    [rewrite <- (Ha e), <- for_rows_records; reflexivity|].
  destruct (String.eqb_spec (query g) "b");
    [rewrite <- (Hb e), <- for_rows_records; reflexivity|].
  destruct (String.eqb_spec (query g) "c");
    [rewrite <- (Hcq e), <- for_rows_records; reflexivity|].
  destruct (String.eqb_spec (query g) "d");
    [rewrite <- (Hd e), <- for_rows_records; reflexivity|].
  destruct (String.eqb_spec (query g) "e");
    [rewrite <- (He e), <- for_rows_records; reflexivity|].
  destruct (String.eqb_spec (query g) "f");
    [rewrite <- (Hf e), <- for_rows_records; reflexivity|].
  destruct (String.eqb_spec (query g) "fastpath");
    [rewrite <- (Hfp e), <- for_rows_records; reflexivity|].
  destruct (String.eqb_spec (query g) "flatbuf"); [contradiction|discriminate].
Qed.

(** The worker on a direct read, for a query whose loop body acts as [f] on
    the rows that pass [p] and leaves the state alone on the others. *)
Lemma worker_eval_direct_loop K g t0 t1 s w
      (body f : Row.ptr -> work -> work) (p : Row.ptr -> bool)
      (line : Row.ptr -> list out_line) :
  use_cls g = false ->
  known_query (query g) = true ->
  query g <> "flatbuf"%string ->
  (query g = "a"%string -> body = body_a g) ->
  (query g = "b"%string -> body = body_b g) ->
  (query g = "c"%string -> body = body_c g) ->
  (query g = "d"%string -> body = body_d g) ->
  (query g = "e"%string -> body = body_e g) ->
  (query g = "f"%string -> body = body_f K g) ->
  (query g = "fastpath"%string -> body = emit_row g) ->
  (forall row a, body row a = if p row then f row a else a) ->
  (forall row a,
      result_count (f row a) = add32 (result_count a) 1
      /\ cout (f row a) = cout a ++ line row
      /\ rows_returned (f row a) = rows_returned a
      /\ nrows_processed (f row a) = nrows_processed a) ->
  0 <= result_count w < 2 ^ 32 ->
  let n := Z.of_nat (length (bl s)) / 141 in
  let passing := filter p (records 141 (bl s)) in
  exists w',
    worker_eval K g t0 t1 s w = Ok (w', set_eval2_ns (u64 (t1 - t0)) (times s))
    /\ result_count w' = u32 (result_count w + Z.of_nat (length passing))
    /\ cout w' = cout w ++ concat (map line passing)
    /\ rows_returned w' = add32 (rows_returned w) n
    /\ nrows_processed w' = add32 (nrows_processed w) n.
Proof.
  intros Hc Hk Hnf Ha Hb Hcq Hd He Hf Hfp Hbody Hcounts Hw n passing.
  rewrite (worker_eval_rows K g t0 t1 s w Hnf).
  rewrite (eval_rows_direct K g s w body Hc Ha Hb Hcq Hd He Hf Hfp Hk Hnf).
  cbn [bind]. fold n.
  rewrite (fold_left_filter p body f Hbody).
  eexists. split; [reflexivity|].
  destruct (fold_counts f line Hcounts passing
                        (add_nrows_processed n (add_rows_returned n w)) Hw)
    as (Hrc & Hco & Hrr & Hnp).
  fold passing. rewrite Hrc, Hco, Hrr, Hnp. repeat split.
Qed.

Ltac pick_body Hq :=
  let H := fresh in
  intros H; rewrite Hq in H; first [discriminate H | reflexivity].

(** X3. Query "a" read directly counts and never prints: the worker
    returns, [result_count] grows by the number of complete records whose
    extended price is greater than the threshold, [rows_returned] and
    [nrows_processed] both grow by [length / 141], and nothing is written. *)
Theorem X3_count_query_direct K g t0 t1 s w :
  query g = "a"%string ->
  use_cls g = false ->
  0 <= result_count w < 2 ^ 32 ->
  let n := Z.of_nat (length (bl s)) / 141 in
  let above := filter (fun row => SFltb (extended_price g) (row_price row))
                      (records 141 (bl s)) in
  exists w' t,
    worker_eval K g t0 t1 s w = Ok (w', t)
    /\ result_count w' = u32 (result_count w + Z.of_nat (length above))
    /\ rows_returned w' = add32 (rows_returned w) n
    /\ nrows_processed w' = add32 (nrows_processed w) n
    /\ cout w' = cout w.
Proof.
  intros Hq Hc Hw n above.
  destruct (worker_eval_direct_loop
              K g t0 t1 s w (body_a g)
              (fun _ a => add_extra_row_cost (extra_row_cost g) (add_result_count 1 a))
              (fun row => SFltb (extended_price g) (row_price row))
              (fun _ => []))
    as (w' & He & Hrc & Hco & Hrr & Hnp);
    try assumption; try (pick_body Hq).
  - unfold known_query. rewrite Hq. reflexivity.
  - intros row a. reflexivity.
  - intros row a. rewrite app_nil_r. repeat split.
  - exists w', (set_eval2_ns (u64 (t1 - t0)) (times s)).
    split; [exact He|]. split; [exact Hrc|]. split; [exact Hrr|].
    split; [exact Hnp|]. rewrite Hco.
    clear. induction (filter _ _) as [|x l IH]; cbn [map concat app];
      rewrite ?app_nil_r in *; [reflexivity|exact IH].
Qed.

Lemma X3_count_query_direct_witness :
  exists w' t,
    worker_eval Sample.K More.count_knobs 5 9 (Sample.fresh More.two_records)
                Sample.idle = Ok (w', t)
    /\ result_count w' = 1 /\ rows_returned w' = 2 /\ cout w' = [].
Proof.
  destruct (X3_count_query_direct Sample.K More.count_knobs 5 9
                                  (Sample.fresh More.two_records) Sample.idle)
    as (w' & t & He & Hrc & Hrr & _ & Hco).
  - reflexivity.
  - reflexivity.
  - cbn. lia.
  - exists w', t. split; [exact He|]. rewrite Hrc, Hrr, Hco.
    repeat split; vm_compute; reflexivity.
Defined.

(** X4. The select queries "b", "c", "d" and "f" read directly: the worker
    returns; the records printed and counted are those, among the
    [length / 141] complete records and in their order, that pass the test
    of the query (extended price greater than the threshold; equal to it;
    order key and line number both equal to the parameters; comment, up to
    its first NUL, matched by the regular expression). [result_count] grows
    by their number, the two row counters by [length / 141]. *)
Theorem X4_select_queries_direct K g t0 t1 s w p :
  select_predicate K g = Some p ->
  use_cls g = false ->
  0 <= result_count w < 2 ^ 32 ->
  let n := Z.of_nat (length (bl s)) / 141 in
  let selected := filter p (records 141 (bl s)) in
  exists w' t,
    worker_eval K g t0 t1 s w = Ok (w', t)
    /\ result_count w' = u32 (result_count w + Z.of_nat (length selected))
    /\ cout w' = cout w ++ (if quiet g then [] else map (row_line g) selected)
    /\ rows_returned w' = add32 (rows_returned w) n
    /\ nrows_processed w' = add32 (nrows_processed w) n.
Proof.
  intros Hp Hc Hw n selected.
  assert (Hloop : exists body,
             known_query (query g) = true /\ query g <> "flatbuf"%string
             /\ (query g = "a"%string -> body = body_a g)
             /\ (query g = "b"%string -> body = body_b g)
             /\ (query g = "c"%string -> body = body_c g)
             /\ (query g = "d"%string -> body = body_d g)
             /\ (query g = "e"%string -> body = body_e g)
             /\ (query g = "f"%string -> body = body_f K g)
             /\ (query g = "fastpath"%string -> body = emit_row g)
             /\ forall row a, body row a = if p row then emit_match g row a else a).
  { unfold select_predicate in Hp.
    destruct (String.eqb_spec (query g) "b") as [Hq|_];
      [exists (body_b g)|
       destruct (String.eqb_spec (query g) "c") as [Hq|_];
       [exists (body_c g)|
        destruct (String.eqb_spec (query g) "d") as [Hq|_];
        [exists (body_d g)|
         destruct (String.eqb_spec (query g) "f") as [Hq|_];
         [exists (body_f K g)|discriminate]]]];
      injection Hp as <-;
      (split; [unfold known_query; rewrite Hq; reflexivity|]);
      (split; [rewrite Hq; discriminate|]);
      repeat (split; [pick_body Hq|]);
      intros row a; try reflexivity.
    unfold body_d, row_order_key, row_line_number, Row.order_key_field_offset,
           Row.line_number_field_offset.
    destruct (_ =? order_key g); reflexivity. }
  destruct Hloop as (body & Hk & Hnf & Ha & Hb & Hcq & Hd & He & Hf & Hfp & Hbody).
  destruct (worker_eval_direct_loop
              K g t0 t1 s w body (emit_match g) p
              (fun row => if quiet g then [] else [row_line g row])
              Hc Hk Hnf Ha Hb Hcq Hd He Hf Hfp Hbody (emit_match_counts g Hc) Hw)
    as (w' & Hev & Hrc & Hco & Hrr & Hnp).
  exists w', (set_eval2_ns (u64 (t1 - t0)) (times s)).
  split; [exact Hev|]. split; [exact Hrc|]. split; [|split; assumption].
  rewrite Hco. f_equal. apply concat_lines.
Qed.

Lemma X4_select_queries_direct_witness :
  exists w' t,
    worker_eval Sample.K More.key_knobs 5 9 (Sample.fresh More.two_records)
                Sample.idle = Ok (w', t)
    /\ result_count w' = 1
    /\ cout w' = [full_row_line More.two_records].
Proof.
  destruct (X4_select_queries_direct
              Sample.K More.key_knobs 5 9 (Sample.fresh More.two_records) Sample.idle
              (fun row => (row_order_key row =? 7) && (row_line_number row =? 1)))
    as (w' & t & He & Hrc & Hco & _).
  - reflexivity.
  - reflexivity.
  - cbn. lia.
  - exists w', t. split; [exact He|]. rewrite Hrc, Hco.
    split; vm_compute; reflexivity.
Defined.

Lemma filter_all {A : Type} (l : list A) : filter (fun _ => true) l = l.
Proof. induction l as [|x l IH]; cbn [filter]; [reflexivity|now rewrite IH]. Qed.

(** X5. Query "fastpath" read directly passes everything on: the worker
    returns having printed every complete record in order, whatever it
    holds, and [result_count], [rows_returned] and [nrows_processed] all grow
    by [length / 141]. *)
Theorem X5_fastpath_direct K g t0 t1 s w :
  query g = "fastpath"%string ->
  use_cls g = false ->
  0 <= result_count w < 2 ^ 32 ->
  let n := Z.of_nat (length (bl s)) / 141 in
  exists w' t,
    worker_eval K g t0 t1 s w = Ok (w', t)
    /\ result_count w' = u32 (result_count w + n)
    /\ rows_returned w' = add32 (rows_returned w) n
    /\ nrows_processed w' = add32 (nrows_processed w) n
    /\ cout w' = cout w ++ (if quiet g then []
                            else map (row_line g) (records 141 (bl s))).
Proof.
  intros Hq Hc Hw n.
  destruct (worker_eval_direct_loop
              K g t0 t1 s w (emit_row g) (emit_row g) (fun _ => true)
              (fun row => if quiet g then [] else [row_line g row]))
    as (w' & He & Hrc & Hco & Hrr & Hnp);
    try assumption; try (pick_body Hq).
  - unfold known_query. rewrite Hq. reflexivity.
  - intros row a. reflexivity.
  - apply (emit_row_counts g Hc).
  - rewrite filter_all in Hrc, Hco.
    exists w', (set_eval2_ns (u64 (t1 - t0)) (times s)).
    split; [exact He|]. split; [|split; [exact Hrr|split; [exact Hnp|]]].
    + rewrite Hrc, records_length. f_equal. f_equal.
      apply Z.max_r. apply Z.div_pos; lia.
    + rewrite Hco. f_equal. apply concat_lines.
Qed.

Lemma X5_fastpath_direct_witness :
  exists w' t,
    worker_eval Sample.K (Sample.knobs "fastpath" false) 5 9
                (Sample.fresh More.two_records) Sample.idle = Ok (w', t)
    /\ result_count w' = 2 /\ rows_returned w' = 2 /\ nrows_processed w' = 2.
Proof.
  destruct (X5_fastpath_direct Sample.K (Sample.knobs "fastpath" false) 5 9
                               (Sample.fresh More.two_records) Sample.idle)
    as (w' & t & He & Hrc & Hrr & Hnp & _).
  - reflexivity.
  - reflexivity.
  - cbn. lia.
  - exists w', t. split; [exact He|]. rewrite Hrc, Hrr, Hnp.
    repeat split; vm_compute; reflexivity.
Defined.





(** ** The fixed-row queries with pushdown *)

(** X6. With [use_cls], the select queries "b" to "f" and "fastpath" never
    look at the rows of a response: once the three statistics decode, the
    worker returns with [result_count] and the output as they were, no row
    counted as returned, [nrows_processed] advanced by the server's count,
    and the first two statistics stored in the timing record; a response
    too short for the statistics fails the assertion on
    [decode_runquery_cls]. *)
Theorem X6_pushdown_rows_not_evaluated K g t0 t1 s w :
  use_cls g = true ->
  known_query (query g) = true ->
  query g <> "a"%string ->
  query g <> "flatbuf"%string ->
  worker_eval K g t0 t1 s w
  = match decode_cls_stats (bl s) with
    | None => Abort (AssertFailed "decode_runquery_cls")
    | Some (rd, ev, nsp, _) =>
      Ok (add_nrows_processed nsp (add_rows_returned 0 w),
          set_eval2_ns (u64 (t1 - t0)) (set_eval_ns ev (set_read_ns rd (times s))))
    end.
Proof.
  intros Hc Hk Ha Hf. rewrite (worker_eval_rows K g t0 t1 s w Hf).
  unfold eval_rows. rewrite Hc, andb_true_r.
  destruct (decode_cls_stats (bl s)) as [[[[rd ev] nsp] it]|]; [|reflexivity].
  cbn [bind]. cbv zeta. unfold known_query in Hk.
  assert (Hnone : forall body : Z -> work -> work,
             for_rows (Z.of_nat (@length byte []) / (if projection g then 8 else 141))
                      body
                      (add_nrows_processed nsp
                         (add_rows_returned
                            (Z.of_nat (@length byte [])
                             / (if projection g then 8 else 141)) w))
             = add_nrows_processed nsp (add_rows_returned 0 w)).
  { intros body. destruct (projection g); reflexivity. }
  destruct (String.eqb_spec (query g) "a"); [contradiction|].
  destruct (String.eqb_spec (query g) "b");
    [destruct (projection g); rewrite Hnone; reflexivity|].
  destruct (String.eqb_spec (query g) "c");
    [destruct (projection g); rewrite Hnone; reflexivity|].
  destruct (String.eqb_spec (query g) "d");
    [destruct (projection g); rewrite Hnone; reflexivity|].
  destruct (String.eqb_spec (query g) "e");
    [destruct (projection g); rewrite Hnone; reflexivity|].
  destruct (String.eqb_spec (query g) "f");
    [destruct (projection g); rewrite Hnone; reflexivity|].
  destruct (String.eqb_spec (query g) "fastpath");
    [rewrite Hnone; reflexivity|].
  destruct (String.eqb_spec (query g) "flatbuf"); [contradiction|discriminate].
Qed.

Lemma X6_pushdown_rows_not_evaluated_witness :
  exists w' t,
    worker_eval Sample.K (Sample.knobs "d" true) 5 9
                (Sample.fresh More.rows_response) Sample.idle = Ok (w', t)
    /\ result_count w' = 0 /\ rows_returned w' = 0 /\ nrows_processed w' = 10
    /\ read_ns t = 5 /\ eval_ns t = 7.
Proof.
  eexists; eexists. split.
  - rewrite (X6_pushdown_rows_not_evaluated
               Sample.K (Sample.knobs "d" true) 5 9
               (Sample.fresh More.rows_response) Sample.idle);
      [reflexivity|reflexivity|reflexivity|discriminate|discriminate].
  - repeat split.
Defined.

(** ** Query "flatbuf" with pushdown *)

Lemma process_fb_pushdown K g fb w :
  use_cls g = true ->
  fst (getSchemaFromSchemaString K (query_schema_str g)) <> EmptySchema K ->
  fst (getSchemaFromSchemaString K (query_schema_str g)) <> BadColInfoFormat K ->
  process_fb K g fb w
  = Ok (print_fb g fb (snd (getSchemaFromSchemaString K (query_schema_str g)))
                 (add_result_count (input_nrows K fb)
                                   (add_rows_returned (input_nrows K fb) w))).
Proof.
  intros Hc H1 H2. unfold process_fb, input_nrows. rewrite Hc.
  destruct (getSchemaFromSchemaString K (query_schema_str g)) as [r_out schema_out].
  cbn [fst snd] in *.
  rewrite (assert_holds _ _ _ H1), (assert_holds _ _ _ H2). reflexivity.
Qed.

Lemma frame_loop_pushdown K g :
  use_cls g = true ->
  fst (getSchemaFromSchemaString K (query_schema_str g)) <> EmptySchema K ->
  fst (getSchemaFromSchemaString K (query_schema_str g)) <> BadColInfoFormat K ->
  forall it fbs,
    Wire.frames it fbs ->
    forall fuel w,
      (length it <= fuel)%nat ->
      0 <= result_count w < 2 ^ 32 ->
      0 <= rows_returned w < 2 ^ 32 ->
      exists w',
        frame_loop K g fuel it w = Ok w'
        /\ result_count w' = u32 (result_count w + sumZ (map (input_nrows K) fbs))
        /\ rows_returned w' = u32 (rows_returned w + sumZ (map (input_nrows K) fbs))
        /\ nrows_processed w' = nrows_processed w
        /\ cout w'
           = cout w
               ++ (if quiet g then []
                   else map (fun fb =>
                               SkyFb fb (snd (getSchemaFromSchemaString
                                                K (query_schema_str g)))) fbs).
Proof.
  intros Hc H1 H2 it fbs Hfr.
  induction Hfr as [|it fb it' fbs Hne Hdec Hfr IH]; intros fuel w Hfuel Hrc Hrr.
  - exists w.
    destruct fuel;
      cbn [frame_loop Wire.get_remaining length Z.of_nat Z.gtb Z.compare];
      (split; [reflexivity|]); cbn [map sumZ fold_right]; rewrite !Z.add_0_r;
      (split; [symmetry; now apply u32_small|]);
      (split; [symmetry; now apply u32_small|]);
      (split; [reflexivity|]); destruct (quiet g); now rewrite app_nil_r.
  - pose proof (decode_bufferlist_consumes _ _ _ Hdec) as Hlen.
    destruct fuel as [|fuel]; [lia|].
    assert (Hrem : (Wire.get_remaining it >? 0) = true).
    { unfold Wire.get_remaining. destruct it; [contradiction|].
      cbn [length]. apply Z.gtb_lt. lia. }
    cbn [frame_loop]. rewrite Hrem, Hdec, (process_fb_pushdown K g fb w Hc H1 H2).
    cbn [bind].
    set (schema := snd (getSchemaFromSchemaString K (query_schema_str g))) in *.
    set (w1 := print_fb g fb schema _).
    assert (Hw1 : result_count w1 = add32 (result_count w) (input_nrows K fb)
                  /\ rows_returned w1 = add32 (rows_returned w) (input_nrows K fb)
                  /\ nrows_processed w1 = nrows_processed w
                  /\ cout w1 = cout w ++ (if quiet g then [] else [SkyFb fb schema])).
    { unfold w1, print_fb. destruct (quiet g); cbn; rewrite ?app_nil_r; repeat split. }
    destruct Hw1 as (Hrc1 & Hrr1 & Hnp1 & Hco1). clearbody w1.
    destruct (IH fuel w1) as (w' & Hl & Hrc' & Hrr' & Hnp' & Hco').
    { lia. }
    { rewrite Hrc1. apply u32_range. }
    { rewrite Hrr1. apply u32_range. }
    exists w'. split; [exact Hl|].
    rewrite Hrc', Hrr', Hnp', Hco', Hrc1, Hrr1, Hnp1, Hco1.
    unfold add32, sumZ. rewrite !u32_add_u32_l. cbn [map fold_right].
    repeat split; try (f_equal; lia).
    destruct (quiet g); rewrite <- app_assoc; reflexivity.
Qed.

(** X7. Query "flatbuf" with [use_cls]: when the response decodes to the
    three statistics and one wrapped stream of frames, and the query schema
    parses, the worker returns having trusted the server. [result_count] and
    [rows_returned] both grow by the row counts of the frames,
    [nrows_processed] by the server's count alone, the frames are printed as
    they came, with the query schema and without a transform, and the first
    two statistics are stored in the timing record. Bytes after the wrapped
    stream are not read. *)
Theorem X7_flatbuf_pushdown_counts K g t0 t1 s w rd ev nsp it wrapped rest fbs :
  query g = "flatbuf"%string ->
  use_cls g = true ->
  fst (getSchemaFromSchemaString K (query_schema_str g)) <> EmptySchema K ->
  fst (getSchemaFromSchemaString K (query_schema_str g)) <> BadColInfoFormat K ->
  decode_cls_stats (bl s) = Some (rd, ev, nsp, it) ->
  Wire.decode_bufferlist it = Some (wrapped, rest) ->
  Wire.frames wrapped fbs ->
  0 <= result_count w < 2 ^ 32 ->
  0 <= rows_returned w < 2 ^ 32 ->
  exists w',
    worker_eval K g t0 t1 s w
    = Ok (w', set_eval2_ns (u64 (t1 - t0)) (set_eval_ns ev (set_read_ns rd (times s))))
    /\ result_count w' = u32 (result_count w + sumZ (map (input_nrows K) fbs))
    /\ rows_returned w' = u32 (rows_returned w + sumZ (map (input_nrows K) fbs))
    /\ nrows_processed w' = add32 (nrows_processed w) nsp
    /\ cout w'
       = cout w
           ++ (if quiet g then []
               else map (fun fb =>
                           SkyFb fb (snd (getSchemaFromSchemaString
                                            K (query_schema_str g)))) fbs).
Proof.
  intros Hq Hc H1 H2 Hstats Hwrapped Hfr Hrc Hrr.
  destruct (frame_loop_pushdown K g Hc H1 H2 wrapped fbs Hfr (length wrapped)
                                (add_nrows_processed nsp w))
    as (w' & Hl & Hrc' & Hrr' & Hnp' & Hco');
    [apply Nat.le_refl|exact Hrc|exact Hrr|].
  unfold worker_eval, eval_flatbuf. rewrite Hq, Hc, Hstats, Hwrapped.
  cbn [String.eqb Ascii.eqb Bool.eqb bind]. rewrite Hl. cbn [bind].
  exists w'. split; [reflexivity|]. repeat split; assumption.
Qed.

Lemma X7_flatbuf_pushdown_counts_witness :
  exists w' t,
    worker_eval Sample.K More.pushdown_flatbuf_knobs 5 9
                (Sample.fresh More.wrapped_response) Sample.idle = Ok (w', t)
    /\ result_count w' = 9 /\ rows_returned w' = 9 /\ nrows_processed w' = 10.
Proof.
  destruct (X7_flatbuf_pushdown_counts
              Sample.K More.pushdown_flatbuf_knobs 5 9
              (Sample.fresh More.wrapped_response) Sample.idle
              5 7 10 (Wire.encode_bufferlist Sample.three_frames)
              Sample.three_frames []
              [Sample.zeros 4; Sample.zeros 2; Sample.zeros 3])
    as (w' & He & Hrc & Hrr & Hnp & _).
  - reflexivity.
  - reflexivity.
  - discriminate.
  - discriminate.
  - reflexivity.
  - reflexivity.
  - repeat (eapply Wire.frames_next; [discriminate|reflexivity|]).
    apply Wire.frames_end.
  - cbn. lia.
  - cbn. lia.
  - eexists; eexists. split; [exact He|]. rewrite Hrc, Hrr, Hnp.
    repeat split.
Defined.

(** ** Responses that do not decode, and empty ones *)

(** X8. A response that does not decode is fatal to the process. With
    [use_cls], for every query, a response whose three statistics do not
    decode fails the assertion on [decode_runquery_cls], and so does, for
    query "flatbuf", one whose wrapped stream does not decode; read
    directly, a non-empty "flatbuf" response whose first frame does not
    decode fails the assertion on [decode_runquery_noncls]. *)
Theorem X8_undecodable_response_is_fatal K g t0 t1 s w :
  (use_cls g = true ->
   decode_cls_stats (bl s) = None ->
   worker_eval K g t0 t1 s w = Abort (AssertFailed "decode_runquery_cls"))
  /\ (query g = "flatbuf"%string ->
      use_cls g = true ->
      forall rd ev nsp it,
        decode_cls_stats (bl s) = Some (rd, ev, nsp, it) ->
        Wire.decode_bufferlist it = None ->
        worker_eval K g t0 t1 s w = Abort (AssertFailed "decode_runquery_cls"))
  /\ (query g = "flatbuf"%string ->
      use_cls g = false ->
      bl s <> [] ->
      Wire.decode_bufferlist (bl s) = None ->
      worker_eval K g t0 t1 s w = Abort (AssertFailed "decode_runquery_noncls")).
Proof.
  split; [|split].
  - intros Hc Hstats. unfold worker_eval, eval_flatbuf, eval_rows.
    rewrite Hc, Hstats. destruct (query g =? "flatbuf")%string; reflexivity.
  - intros Hq Hc rd ev nsp it Hstats Hwrapped.
    unfold worker_eval, eval_flatbuf. rewrite Hq, Hc, Hstats, Hwrapped. reflexivity.
  - intros Hq Hc Hne Hdec. unfold worker_eval, eval_flatbuf. rewrite Hq, Hc.
    cbn [String.eqb Ascii.eqb Bool.eqb bind].
    destruct (bl s) as [|b rest] eqn:Hbl; [contradiction|].
    cbn [length frame_loop]. rewrite Hdec.
    replace (Wire.get_remaining (b :: rest) >? 0) with true; [reflexivity|].
    symmetry. unfold Wire.get_remaining. apply Z.gtb_lt. cbn [length]. lia.
Qed.

Lemma X8_undecodable_response_is_fatal_witness :
  worker_eval Sample.K (Sample.knobs "d" true) 5 9
              (Sample.fresh (Wire.encode_u64 5 ++ Wire.encode_u64 7)) Sample.idle
  = Abort (AssertFailed "decode_runquery_cls")
  /\ worker_eval Sample.K (Sample.knobs "flatbuf" false) 5 9
                 (Sample.fresh (Wire.encode_u32 9 ++ Sample.zeros 3)) Sample.idle
     = Abort (AssertFailed "decode_runquery_noncls").
Proof.
  split.
  - destruct (X8_undecodable_response_is_fatal
                Sample.K (Sample.knobs "d" true) 5 9
                (Sample.fresh (Wire.encode_u64 5 ++ Wire.encode_u64 7)) Sample.idle)
      as (Hstats & _).
    apply Hstats; reflexivity.
  - destruct (X8_undecodable_response_is_fatal
                Sample.K (Sample.knobs "flatbuf" false) 5 9
                (Sample.fresh (Wire.encode_u32 9 ++ Sample.zeros 3)) Sample.idle)
      as (_ & _ & Hframe).
    apply Hframe; [reflexivity|reflexivity|discriminate|reflexivity].
Defined.

Lemma in_range_add_zero w :
  in_range w -> add_nrows_processed 0 (add_rows_returned 0 w) = w.
Proof.
  intros (_ & Hrr & Hnp). destruct w as [rc rr np tx co ce]. cbn in *.
  unfold add_nrows_processed, add_rows_returned, add32. cbn.
  rewrite !Z.add_0_r, !u32_small by assumption. reflexivity.
Qed.

(** X9. An empty object read directly is evaluated without effect: for each
    of the eight queries the worker returns with the counters and the output
    unchanged; for "flatbuf" no schema is parsed and no frame decoded. *)
Theorem X9_empty_direct_response K g t0 t1 s w :
  use_cls g = false ->
  bl s = [] ->
  known_query (query g) = true ->
  in_range w ->
  worker_eval K g t0 t1 s w = Ok (w, set_eval2_ns (u64 (t1 - t0)) (times s)).
Proof.
  intros Hc Hbl Hk Hw. unfold worker_eval, eval_flatbuf, eval_rows.
  rewrite Hc, Hbl, andb_false_r. cbn [bind length Z.of_nat]. cbv zeta.
  change (0 / 141) with 0. rewrite (in_range_add_zero w Hw).
  unfold known_query in Hk.
  destruct (query g =? "flatbuf")%string eqn:Hf; [reflexivity|].
  rewrite orb_false_r in Hk.
  destruct (query g =? "a")%string; [reflexivity|].
  destruct (query g =? "b")%string; [reflexivity|].
  destruct (query g =? "c")%string; [reflexivity|].
  destruct (query g =? "d")%string; [reflexivity|].
  destruct (query g =? "e")%string; [reflexivity|].
  destruct (query g =? "f")%string; [reflexivity|].
  destruct (query g =? "fastpath")%string; [reflexivity|discriminate].
Qed.

Lemma X9_empty_direct_response_witness :
  worker_eval Sample.K Sample.range_knobs 5 9 (Sample.fresh []) Sample.idle
  = Ok (Sample.idle, mk_timing 11 12 0 0 4).
Proof.
  apply (X9_empty_direct_response Sample.K Sample.range_knobs 5 9
                                  (Sample.fresh []) Sample.idle).
  - reflexivity.
  - reflexivity.
  - reflexivity.
  - unfold in_range. cbn. lia.
Defined.

(** ** Output under [quiet], and the timing record *)

Lemma process_fb_quiet K g fb w w' :
  quiet g = true -> process_fb K g fb w = Ok w' -> cout w' = cout w.
Proof.
  intros Hquiet. unfold process_fb, print_fb, assert. rewrite Hquiet.
  split_ifs; cbn [bind]; intros H; try discriminate H; injection H as <-; reflexivity.
Qed.

Lemma frame_loop_quiet K g : forall fuel it w w',
  quiet g = true -> frame_loop K g fuel it w = Ok w' -> cout w' = cout w.
Proof.
  induction fuel as [|fuel IH]; intros it w w' Hquiet; cbn [frame_loop].
  - destruct (Wire.get_remaining it >? 0); [discriminate|].
    intros H. now injection H as <-.
  - destruct (Wire.get_remaining it >? 0); [|intros H; now injection H as <-].
    destruct (Wire.decode_bufferlist it) as [[fb it']|]; [|discriminate].
    destruct (process_fb K g fb w) as [w1| |] eqn:Hp; cbn [bind]; try discriminate.
    intros H. rewrite (IH it' w1 w' Hquiet H).
    exact (process_fb_quiet K g fb w w1 Hquiet Hp).
Qed.

Lemma bodies_quiet K g row a :
  quiet g = true ->
  cout (body_a g row a) = cout a /\ cout (body_b g row a) = cout a
  /\ cout (body_c g row a) = cout a /\ cout (body_d g row a) = cout a
  /\ cout (body_e g row a) = cout a /\ cout (body_f K g row a) = cout a
  /\ cout (emit_row g row a) = cout a.
Proof.
  intros Hquiet.
  unfold body_a, body_b, body_c, body_d, body_e, body_f, emit_match, emit_row,
         print_row.
  rewrite Hquiet. cbv zeta. repeat split; split_ifs; reflexivity.
Qed.

(** X10. Under [quiet] the worker writes nothing: whatever the query, the
    mode and the response, an evaluation that returns leaves the output as
    it was. *)
Theorem X10_quiet_writes_nothing K g t0 t1 s w w' t :
  quiet g = true ->
  worker_eval K g t0 t1 s w = Ok (w', t) ->
  cout w' = cout w.
Proof.
  intros Hquiet. unfold worker_eval.
  destruct (query g =? "flatbuf")%string.
  - unfold eval_flatbuf.
    destruct (use_cls g).
    + destruct (decode_cls_stats (bl s)) as [[[[rd ev] nsp] it]|]; [|discriminate].
      destruct (Wire.decode_bufferlist it) as [[wrapped rest]|]; [|discriminate].
      cbn [bind].
      destruct (frame_loop K g (length wrapped) wrapped (add_nrows_processed nsp w))
        as [w2| |] eqn:Hl; cbn [bind]; try discriminate.
      intros H. injection H as <- _.
      exact (frame_loop_quiet K g _ _ _ _ Hquiet Hl).
    + cbn [bind].
      destruct (frame_loop K g (length (bl s)) (bl s) w) as [w2| |] eqn:Hl;
        cbn [bind]; try discriminate.
      intros H. injection H as <- _.
      exact (frame_loop_quiet K g _ _ _ _ Hquiet Hl).
  - unfold eval_rows.
    assert (Hloop : forall n rows rs (body : Row.ptr -> work -> work) w1,
               (forall row a, cout (body row a) = cout a) ->
               cout (for_rows n (fun rid => body (Row.advance rows (rid * rs))) w1)
               = cout w1).
    { intros n rows rs body w1 Hb.
      apply (for_rows_preserves (fun a => cout a = cout w1)); [|reflexivity].
      intros rid a Ha. now rewrite Hb. }
    destruct (use_cls g);
      [destruct (decode_cls_stats (bl s)) as [[[[rd ev] nsp] it]|]; [|discriminate]|];
      cbn [bind]; cbv zeta;
      change (Wire.decode_u64 []) with (@None (Z * Wire.iterator));
      split_ifs;
      cbn [bind]; intros H; try discriminate H; injection H as <- _;
      try (rewrite Hloop; [reflexivity|intros row a; apply (bodies_quiet K g row a Hquiet)]);
      try reflexivity.
Qed.

Lemma X10_quiet_writes_nothing_witness :
  exists w' t,
    worker_eval Sample.K (Sample.knobs "fastpath" false) 5 9
                (Sample.fresh More.two_records) Sample.idle = Ok (w', t)
    /\ cout w' = [].
Proof.
  eexists; eexists. split; [reflexivity|].
  apply (X10_quiet_writes_nothing
           Sample.K (Sample.knobs "fastpath" false) 5 9
           (Sample.fresh More.two_records) Sample.idle _ _ eq_refl eq_refl).
Defined.

(** X11. The worker never alters [dispatch] and [response] of a timing
    record and sets [eval2_ns] to the difference of its two clock readings
    modulo 2^64. With [use_cls], [read_ns] and [eval_ns] are the first two
    statistics of the response; without, they stay as they were. *)
Theorem X11_timing_record K g t0 t1 s w w' t :
  worker_eval K g t0 t1 s w = Ok (w', t) ->
  dispatch t = dispatch (times s)
  /\ response t = response (times s)
  /\ eval2_ns t = u64 (t1 - t0)
  /\ (use_cls g = false ->
      read_ns t = read_ns (times s) /\ eval_ns t = eval_ns (times s))
  /\ (use_cls g = true ->
      exists nsp it,
        decode_cls_stats (bl s) = Some (read_ns t, eval_ns t, nsp, it)).
Proof.
  unfold worker_eval.
  destruct (query g =? "flatbuf")%string.
  - unfold eval_flatbuf. destruct (use_cls g).
    + destruct (decode_cls_stats (bl s)) as [[[[rd ev] nsp] it]|]; [|discriminate].
      destruct (Wire.decode_bufferlist it) as [[wrapped rest]|]; [|discriminate].
      cbn [bind].
      destruct (frame_loop K g (length wrapped) wrapped (add_nrows_processed nsp w));
        cbn [bind]; try discriminate.
      intros H. injection H as _ <-. repeat split; try discriminate.
      intros _. exists nsp, it. reflexivity.
    + cbn [bind].
      destruct (frame_loop K g (length (bl s)) (bl s) w); cbn [bind];
        try discriminate.
      intros H. injection H as _ <-. repeat split; discriminate.
  - unfold eval_rows.
    destruct (use_cls g);
      [destruct (decode_cls_stats (bl s)) as [[[[rd ev] nsp] it]|]; [|discriminate]|];
      cbn [bind]; cbv zeta;
      change (Wire.decode_u64 []) with (@None (Z * Wire.iterator));
      split_ifs;
      cbn [bind]; intros H; try discriminate H; injection H as _ <-;
      repeat split; try discriminate; intros _; exists nsp, it; reflexivity.
Qed.

Lemma X11_timing_record_witness :
  exists w' t,
    worker_eval Sample.K (Sample.knobs "d" true) 5 9
                (Sample.fresh More.rows_response) Sample.idle = Ok (w', t)
    /\ dispatch t = 11 /\ response t = 12 /\ eval2_ns t = 4.
Proof.
  eexists; eexists. split; [reflexivity|].
  destruct (X11_timing_record
              Sample.K (Sample.knobs "d" true) 5 9
              (Sample.fresh More.rows_response) Sample.idle _ _ eq_refl)
    as (Hd & Hr & He & _).
  rewrite Hd, Hr, He. repeat split.
Defined.

(** ** Completions *)

Lemma in_flight_completions_step K g qdepth l st st' :
  Forall (fun rs => c (snd rs) <> None) (in_flight st) ->
  step K g qdepth l st = Some (Ok st') ->
  Forall (fun rs => c (snd rs) <> None) (in_flight st').
Proof.
  intros Hf H.
  destruct l; cbn [step] in H.
  1-8: invert_step H; cbn; try assumption;
    apply Forall_snoc; try assumption; discriminate.
  - invert_step H. cbn. now apply Forall_remove_nth.
  - unfold worker_step, set_worker in H.
    destruct (nth_error (workers st) i) as [[|s|s|t|]|]; try discriminate.
    + destruct (ready_ios st); [destruct (stop st); [|discriminate]|];
        injection H as <-; exact Hf.
    + injection H as <-. exact Hf.
    + destruct (worker_eval K g t0 t1 s (shared st)) as [[w' t]| |];
        cbn [bind] in H; try discriminate.
      injection H as <-. exact Hf.
    + injection H as <-. exact Hf.
Qed.

(** X12. A request in flight carries the completion handle it was
    submitted with, so its callback runs for every completion: when the
    storage client reports a negative return value the assertion of
    [handle_cb] fails and the process dies; otherwise the record leaves the
    requests in flight and joins the back of the queue, with the response
    time and the payload, and its handle released. *)
Theorem X12_completion_is_queued_or_fatal
        K g qd targets nworkers printed st k req s now ret payload :
  reachable K g qd (start targets nworkers printed) st ->
  nth_error (in_flight st) k = Some (req, s) ->
  (ret < 0 ->
   step K g qd (Complete k now ret payload) st
   = Some (Abort (AssertFailed "s->c->get_return_value() >= 0")))
  /\ (0 <= ret ->
      exists st',
        step K g qd (Complete k now ret payload) st = Some (Ok st')
        /\ ready_ios st'
           = ready_ios st ++ [mk_aio payload None (set_response now (times s))]
        /\ in_flight st' = remove_nth k (in_flight st)
        /\ outstanding_ios st' = outstanding_ios st).
Proof.
  intros Hr.
  assert (Hinv : Forall (fun rs => c (snd rs) <> None) (in_flight st)).
  { induction Hr as [|st l st' Hr IH Hs]; [constructor|].
    eapply in_flight_completions_step; [exact IH|exact Hs]. }
  intros Hk.
  pose proof (Forall_nth_error _ _ _ _ Hinv Hk) as Hc. cbn [snd] in Hc.
  cbn [step]. unfold complete_step, handle_cb. rewrite Hk. cbn [c bl times].
  destruct (c s) as [comp|]; [|contradiction]. cbn [option_map get_return_value].
  unfold assert. split; intros Hret.
  - assert (E : (ret >=? 0) = false) by (rewrite Z.geb_leb; apply Z.leb_gt; lia).
    rewrite E. reflexivity.
  - apply Z.geb_le in Hret. rewrite Hret. cbn [bind].
    eexists. split; [reflexivity|]. repeat split.
Qed.

Lemma X12_completion_is_queued_or_fatal_witness :
  exists st,
    run Sample.K (Sample.knobs "fastpath" false) 1 [Dispatch 1 0; Increment]
        (start ["obj.0"]%string 1 []) = Some (Ok st)
    /\ step Sample.K (Sample.knobs "fastpath" false) 1
            (Complete 0 2 (-5) []) st
       = Some (Abort (AssertFailed "s->c->get_return_value() >= 0")).
Proof.
  eexists. split; [vm_compute; reflexivity|].
  eapply (X12_completion_is_queued_or_fatal
            Sample.K (Sample.knobs "fastpath" false) 1 ["obj.0"]%string 1 []).
  - apply (run_reachable _ _ _ [Dispatch 1 0; Increment]). vm_compute. reflexivity.
  - reflexivity.
  - lia.
Defined.

(** ** No target is dispatched twice *)

Lemma dec_of_nat_inj i j : dec (Z.of_nat i) = dec (Z.of_nat j) -> i = j.
Proof.
  unfold dec. intros H.
  apply (f_equal NilEmpty.uint_of_string) in H. rewrite !NilEmpty.usu in H.
  injection H as H. apply DecimalN.Unsigned.to_uint_inj in H. lia.
Qed.

Lemma NoDup_map_injective {A B : Type} (f : A -> B) (l : list A) :
  (forall x y, f x = f y -> x = y) -> NoDup l -> NoDup (map f l).
Proof.
  intros Hinj Hl. induction Hl as [|x l Hx Hl IH]; cbn [map]; constructor;
    [|exact IH].
  intros Hin. apply in_map_iff in Hin. destruct Hin as (y & Hy & Hin).
  apply Hinj in Hy. now subst y.
Qed.

Lemma generate_targets_NoDup n : NoDup (generate_targets n).
Proof.
  rewrite generate_targets_names.
  apply NoDup_map_injective; [|apply seq_NoDup].
  intros i j H. unfold oid_of in H. cbn [String.append] in H.
  injection H as H. now apply dec_of_nat_inj.
Qed.

Lemma main_prelude_targets K cl o g tr g' targets :
  main_prelude K cl o g = (tr, Ok (g', targets)) ->
  order_targets K (dir o) (generate_targets (num_objs o)) = Ok targets.
Proof.
  intros Hmain.
  destruct (main_prelude_shape K cl o g)
    as [(tr1 & f & E & _)|(targets1 & Ho & E)]; rewrite E in Hmain;
    [discriminate|].
  injection Hmain as _ Hsnd.
  destruct (build_index o) eqn:Hb.
  - now apply after_pool_build_index in Hsnd.
  - destruct (after_pool_query_path K cl o g targets1 Hb) as (_ & Hs).
    rewrite Hs in Hsnd.
    destruct (snd (sanity_check K o g)); cbn [bind] in Hsnd; try discriminate.
    injection Hsnd as _ <-. exact Ho.
Qed.

(** X13. The object names [main] generates are pairwise distinct, and in
    every state of a run that [main] starts no object has been dispatched
    twice and no dispatched object is still a target, whatever the
    direction, as long as the shuffle of direction "rnd" returns distinct
    names for distinct names. *)
Theorem X13_dispatched_at_most_once K cl o g tr g' targets qd nworkers printed st :
  (forall v, NoDup v -> NoDup (random_shuffle K v)) ->
  main_prelude K cl o g = (tr, Ok (g', targets)) ->
  reachable K g' qd (start targets nworkers printed) st ->
  NoDup (generate_targets (num_objs o))
  /\ NoDup (dispatched st)
  /\ forall oid, In oid (dispatched st) -> ~ In oid (target_objects st).
Proof.
  intros Hshuffle Hmain Hr.
  pose proof (generate_targets_NoDup (num_objs o)) as Hnames.
  split; [exact Hnames|].
  assert (Htargets : NoDup targets).
  { apply main_prelude_targets in Hmain. unfold order_targets in Hmain.
    destruct (dir o =? "fwd")%string;
      [injection Hmain as <-; now apply NoDup_rev|].
    destruct (dir o =? "bwd")%string; [injection Hmain as <-; exact Hnames|].
    destruct (dir o =? "rnd")%string; [|discriminate].
    injection Hmain as <-. now apply Hshuffle. }
  pose proof (dispatch_order_reachable K g' qd _ st Hr) as Hord.
  cbn [start dispatched target_objects app] in Hord.
  assert (Hall : NoDup (dispatched st ++ rev (target_objects st))).
  { rewrite Hord. now apply NoDup_rev. }
  split; [exact (NoDup_app_remove_r _ _ Hall)|].
  intros oid Hd Ht. apply in_rev in Ht.
  clear - Hall Hd Ht. induction (dispatched st) as [|x l IH]; [destruct Hd|].
  cbn [app] in Hall. inversion Hall as [|y l' Hnotin Hrest]; subst.
  destruct Hd as [->|Hd]; [|now apply IH].
  apply Hnotin, in_or_app. now right.
Qed.

Lemma X13_dispatched_at_most_once_witness :
  exists st,
    run Sample.K (Sample.knobs "fastpath" false) 1 Sample.schedule
        (start ["obj.1"; "obj.0"]%string 1 []) = Some (Ok st)
    /\ NoDup (dispatched st).
Proof.
  eexists. split; [vm_compute; reflexivity|].
  eapply (X13_dispatched_at_most_once
            Sample.K Sample.cl (Sample.opts false "fwd")
            (Sample.knobs "fastpath" false) _ (Sample.knobs "fastpath" false)
            ["obj.1"; "obj.0"]%string 1 1 []).
  - intros v Hv. exact Hv.
  - reflexivity.
  - apply (run_reachable _ _ _ Sample.schedule). vm_compute. reflexivity.
Defined.

(** ** Every dispatched request ends as one timing record *)

Lemma total_replace_nth (f : worker_pc -> Z) (l : list worker_pc) : forall i x v,
  nth_error l i = Some x ->
  total f (replace_nth i v l) = total f l - f x + f v.
Proof.
  induction l as [|y l IH]; intros [|i] x v H; try discriminate;
    cbn [nth_error] in H; unfold total; cbn [replace_nth fold_right].
  - injection H as ->. lia.
  - fold (total f (replace_nth i v l)). fold (total f l).
    rewrite (IH i x v H). lia.
Qed.

Lemma total_bounds (f : worker_pc -> Z) (l : list worker_pc) :
  (forall pc, 0 <= f pc) ->
  0 <= total f l /\ forall i x, nth_error l i = Some x -> f x <= total f l.
Proof.
  intros Hf. induction l as [|y l (Hpos & Hle)]; unfold total; cbn [fold_right].
  - split; [lia|]. intros [|i] x H; discriminate.
  - fold (total f l). pose proof (Hf y) as Hy. split; [lia|].
    intros [|i] x H; cbn [nth_error] in H.
    + injection H as ->. lia.
    + specialize (Hle i x H). lia.
Qed.

Lemma total_exited (f : worker_pc -> Z) (l : list worker_pc) :
  f WExited = 0 -> all_exited l = true -> total f l = 0.
Proof.
  intros Hf. unfold all_exited.
  induction l as [|y l IH]; unfold total; cbn [forallb fold_right]; [reflexivity|].
  fold (total f l). intros H. apply andb_prop in H. destruct H as (Hy & Hl).
  destruct y; try discriminate. rewrite Hf, (IH Hl). reflexivity.
Qed.

Lemma all_exited_nth l i pc :
  all_exited l = true -> nth_error l i = Some pc -> pc = WExited.
Proof.
  unfold all_exited. intros Hall Hi. apply nth_error_In in Hi.
  rewrite forallb_forall in Hall. specialize (Hall pc Hi).
  destruct pc; try discriminate. reflexivity.
Qed.

Lemma length_remove_nth {A : Type} (l : list A) : forall k x,
  nth_error l k = Some x ->
  Z.of_nat (length (remove_nth k l)) = Z.of_nat (length l) - 1.
Proof.
  induction l as [|y l IH]; intros [|k] x H; try discriminate;
    cbn [nth_error] in H; cbn [remove_nth length].
  - lia.
  - rewrite Nat2Z.inj_succ, (IH k x H). lia.
Qed.

Lemma taken_weight_nonneg pc : 0 <= taken_weight pc.
Proof. destruct pc; cbn; lia. Qed.

Lemma held_weight_nonneg pc : 0 <= held_weight pc.
Proof. destruct pc; cbn; lia. Qed.

Lemma conservation_inv_start targets nworkers printed :
  conservation_inv (start targets nworkers printed).
Proof.
  unfold conservation_inv, start.
  cbn [dispatched in_flight ready_ios workers consumed timings outstanding_ios
       dispatcher target_objects length Z.of_nat pending_increment past_loop
       past_drain].
  assert (Hidle : forall f n, f WIdle = 0 -> total f (repeat WIdle n) = 0).
  { intros f n Hf. induction n as [|n IH]; unfold total; cbn [repeat fold_right];
      [reflexivity|]. fold (total f (repeat WIdle n)). rewrite Hf, IH. reflexivity. }
  rewrite !Hidle by reflexivity. repeat split; try discriminate.
Qed.

Lemma conservation_inv_step K g qdepth l st st' :
  conservation_inv st ->
  step K g qdepth l st = Some (Ok st') ->
  conservation_inv st'.
Proof.
  unfold conservation_inv.
  intros (Hplace & Hheld & Hcount & Hloop & Hdrain & Hdone) H.
  pose proof (total_bounds taken_weight (workers st) taken_weight_nonneg)
    as (Htpos & Htle).
  destruct l; cbn [step] in H.
  1-8: invert_step H; cbn in *;
    repeat match goal with
           | E : dispatcher _ = _ |- _ => rewrite E in *
           | E : (_ =? _) = true |- _ => apply Z.eqb_eq in E
           end;
    cbn in *; rewrite ?length_app in *; cbn [length] in *; unfold total in *;
    repeat split; try discriminate; try (intros _); try assumption; try lia;
    try (apply Hloop; reflexivity); try (apply Hdrain; reflexivity).
  - unfold complete_step, handle_cb in H.
    destruct (nth_error (in_flight st) k) as [[req s]|] eqn:Hk; [|discriminate].
    cbn [c bl times] in H.
    destruct (option_map _ (c s)) as [comp|]; [|discriminate].
    unfold assert in H.
    destruct (get_return_value comp >=? 0); cbn [bind] in H; [|discriminate].
    injection H as <-. cbn in *. rewrite length_app. cbn [length].
    rewrite (length_remove_nth _ _ _ Hk).
    repeat split; try assumption; lia.
  - unfold worker_step, set_worker in H.
    destruct (nth_error (workers st) i) as [pc|] eqn:Hi; [|discriminate].
    assert (Hlive : dispatcher st = DDone -> pc = WExited).
    { intros Hd. exact (all_exited_nth _ _ _ (Hdone Hd) Hi). }
    pose proof (Htle i pc Hi) as Hpc.
    destruct pc as [|s|s|t|]; try discriminate.
    + destruct (ready_ios st) as [|s rest] eqn:Hrd.
      * destruct (stop st); [|discriminate]. injection H as <-. cbn in *.
        rewrite Hrd. rewrite !(total_replace_nth _ _ _ _ _ Hi). cbn.
        repeat split; try assumption; try lia.
        intros Hd. specialize (Hlive Hd). discriminate.
      * injection H as <-. cbn in *.
        rewrite !(total_replace_nth _ _ _ _ _ Hi). cbn.
        repeat split; try assumption; try lia.
        intros Hd. specialize (Hlive Hd). discriminate.
    + injection H as <-. cbn in *.
      rewrite !(total_replace_nth _ _ _ _ _ Hi). cbn.
      repeat split; try assumption; try lia.
      * intros Hp. specialize (Hdrain Hp). lia.
      * intros Hd. specialize (Hlive Hd). discriminate.
    + destruct (worker_eval K g t0 t1 s (shared st)) as [[w' t]| |];
        cbn [bind] in H; try discriminate.
      injection H as <-. cbn in *.
      rewrite !(total_replace_nth _ _ _ _ _ Hi). cbn.
      repeat split; try assumption; try lia.
      intros Hd. specialize (Hlive Hd). discriminate.
    + injection H as <-. cbn in *. rewrite length_app. cbn [length].
      rewrite !(total_replace_nth _ _ _ _ _ Hi). cbn.
      repeat split; try assumption; try lia.
      intros Hd. specialize (Hlive Hd). discriminate.
Qed.

(** X14. When [main] has printed its summary, every target has been
    dispatched and evaluated exactly once: [timings] holds one record for
    each target, so the log file has one line for each after its header;
    nothing is left with the storage client or in the queue, and
    [outstanding_ios] is back at zero. *)
Theorem X14_one_timing_per_target K g qd targets nworkers printed st :
  reachable K g qd (start targets nworkers printed) st ->
  dispatcher st = DDone ->
  length (timings st) = length targets
  /\ length (log_file (timings st)) = S (length targets)
  /\ length (dispatched st) = length targets
  /\ target_objects st = []
  /\ in_flight st = []
  /\ ready_ios st = []
  /\ outstanding_ios st = 0.
Proof.
  intros Hr Hd.
  assert (Hinv : conservation_inv st).
  { clear Hd. induction Hr as [|st l st' Hr IH Hs];
      [apply conservation_inv_start|].
    eapply conservation_inv_step; eassumption. }
  destruct Hinv as (Hplace & Hheld & Hcount & Hloop & Hdrain & Hdone).
  rewrite Hd in Hloop, Hdrain, Hcount. cbn in Hloop, Hdrain, Hcount.
  specialize (Hloop eq_refl). specialize (Hdrain eq_refl). specialize (Hdone Hd).
  rewrite (total_exited taken_weight _ eq_refl Hdone) in Hplace.
  rewrite (total_exited held_weight _ eq_refl Hdone) in Hheld.
  pose proof (dispatch_order_reachable K g qd _ st Hr) as Hord.
  cbn [start dispatched target_objects app] in Hord.
  rewrite Hloop in Hord. cbn [rev] in Hord. rewrite app_nil_r in Hord.
  assert (Hlen : length (dispatched st) = length targets).
  { rewrite Hord. apply length_rev. }
  assert (Hflight : in_flight st = []) by (destruct (in_flight st); [reflexivity|cbn [length] in Hplace; lia]).
  assert (Hready : ready_ios st = []) by (destruct (ready_ios st); [reflexivity|cbn [length] in Hplace; lia]).
  assert (Htimings : length (timings st) = length targets) by lia.
  repeat split; try assumption.
  - unfold log_file. cbn [length]. now rewrite length_map, Htimings.
  - lia.
Qed.

Lemma X14_one_timing_per_target_witness :
  exists st,
    run Sample.K (Sample.knobs "fastpath" false) 1 More.full_schedule
        (start ["obj.1"; "obj.0"]%string 1 []) = Some (Ok st)
    /\ dispatcher st = DDone
    /\ length (timings st) = 2%nat.
Proof.
  eexists. split; [vm_compute; reflexivity|]. split; [reflexivity|].
  eapply (X14_one_timing_per_target
            Sample.K (Sample.knobs "fastpath" false) 1 ["obj.1"; "obj.0"]%string 1 []).
  - apply (run_reachable _ _ _ More.full_schedule). vm_compute. reflexivity.
  - reflexivity.
Defined.

(** ** The start of [main] *)

(** X15. [main] contacts the cluster only with a positive number of
    objects, of worker threads and a positive queue depth: otherwise it
    aborts on an assertion before any call. A failed connect stops it before
    the pool is opened, and a pool that fails to open before anything else
    is done. *)
Theorem X15_startup_failures K cl o g :
  (num_objs o <= 0 \/ wthreads o <= 0 \/ qdepth o <= 0 ->
   exists expr, main_prelude K cl o g = ([], Abort (AssertFailed expr)))
  /\ (0 < num_objs o -> 0 < wthreads o -> 0 < qdepth o ->
      (connect_ret cl <> 0 ->
       main_prelude K cl o g = ([ev_connect], Abort (CheckretFailed (connect_ret cl))))
      /\ (connect_ret cl = 0 -> ioctx_create_ret cl <> 0 ->
          main_prelude K cl o g
          = ([ev_connect; ev_ioctx_create (pool o)],
             Abort (CheckretFailed (ioctx_create_ret cl))))).
Proof.
  rewrite main_prelude_unfold. unfold lift, emit, assert, checkret. split.
  - intros Hbad.
    destruct (num_objs o >? 0) eqn:Hn; [|eexists; reflexivity].
    destruct (wthreads o >? 0) eqn:Hw; [|eexists; reflexivity].
    destruct (qdepth o >? 0) eqn:Hq; [|eexists; reflexivity].
    apply Z.gtb_lt in Hn, Hw, Hq. lia.
  - intros Hn Hw Hq.
    apply Z.gtb_lt in Hn, Hw, Hq. rewrite Hn, Hw, Hq. split.
    + intros Hc. apply Z.eqb_neq in Hc. rewrite Hc. reflexivity.
    + intros Hc Hi. apply Z.eqb_neq in Hi. rewrite Hc, Hi. reflexivity.
Qed.

Lemma X15_startup_failures_witness :
  (exists expr,
      main_prelude Sample.K Sample.cl
                   (mk_options "tpc" 0 1 false EmptyString 1 "fwd" star)
                   (Sample.knobs "fastpath" false)
      = ([], Abort (AssertFailed expr)))
  /\ main_prelude Sample.K (mk_cluster (-2) 0 (fun _ => 0))
                  (Sample.opts false "fwd") (Sample.knobs "fastpath" false)
     = ([ev_connect], Abort (CheckretFailed (-2))).
Proof.
  split.
  - destruct (X15_startup_failures
                Sample.K Sample.cl
                (mk_options "tpc" 0 1 false EmptyString 1 "fwd" star)
                (Sample.knobs "fastpath" false)) as (Hassert & _).
    apply Hassert. left. cbn. lia.
  - destruct (X15_startup_failures
                Sample.K (mk_cluster (-2) 0 (fun _ => 0))
                (Sample.opts false "fwd") (Sample.knobs "fastpath" false))
      as (_ & Hconnect).
    destruct Hconnect as (Hfail & _); [cbn; lia|cbn; lia|cbn; lia|].
    apply Hfail. discriminate.
Defined.

(** ** Building the index *)

Lemma worker_build_index_all cl g popped :
  (forall oid, In oid popped -> exec_ret cl oid = 0) ->
  worker_build_index cl g popped = (flat_map (build_events g) popped, Ok tt).
Proof.
  induction popped as [|oid rest IH]; intros Hret; cbn [worker_build_index flat_map].
  - reflexivity.
  - unfold tbind, emit, lift, checkret.
    rewrite (Hret oid (or_introl eq_refl)). cbn [Z.eqb].
    rewrite IH by (intros x Hx; apply Hret; now right). reflexivity.
Qed.

Lemma worker_build_index_stops cl g before oid after :
  (forall x, In x before -> exec_ret cl x = 0) ->
  exec_ret cl oid <> 0 ->
  worker_build_index cl g (before ++ oid :: after)
  = (flat_map (build_events g) (before ++ [oid]),
     Abort (CheckretFailed (exec_ret cl oid))).
Proof.
  intros Hbefore Hfail.
  induction before as [|x rest IH]; cbn [app worker_build_index flat_map].
  - unfold tbind, emit, lift, checkret. apply Z.eqb_neq in Hfail. rewrite Hfail.
    reflexivity.
  - unfold tbind, emit, lift, checkret.
    rewrite (Hbefore x (or_introl eq_refl)). cbn [Z.eqb].
    rewrite IH by (intros y Hy; apply Hbefore; now right). reflexivity.
Qed.

Lemma create_ioctxs_all cl pool_name n :
  ioctx_create_ret cl = 0 ->
  create_ioctxs cl pool_name n = (repeat (ev_ioctx_create pool_name) n, Ok tt).
Proof.
  intros Hret. induction n as [|n IH]; cbn [create_ioctxs repeat]; [reflexivity|].
  unfold tbind, emit, lift, checkret. rewrite Hret, IH. reflexivity.
Qed.

(** X16. With [build_index] and one worker thread, [main] opens a second
    handle on the pool and then, for each target in the order the vector is
    popped, prints the message and calls [build_index] with the encoded
    batch size: it ends with status 0 when every call returns 0, and stops
    at the first call that does not, with that call the last event. The
    query knobs are not looked at. *)
Theorem X16_build_index_run K cl o g targets :
  build_index o = true ->
  0 < num_objs o -> wthreads o = 1 -> 0 < qdepth o ->
  connect_ret cl = 0 -> ioctx_create_ret cl = 0 ->
  order_targets K (dir o) (generate_targets (num_objs o)) = Ok targets ->
  let opened := [ev_connect; ev_ioctx_create (pool o); ev_ioctx_create (pool o)] in
  ((forall oid, In oid targets -> exec_ret cl oid = 0) ->
   main_prelude K cl o g
   = (opened ++ flat_map (build_events g) (rev targets), Exit 0))
  /\ (forall before oid after,
         rev targets = before ++ oid :: after ->
         (forall x, In x before -> exec_ret cl x = 0) ->
         exec_ret cl oid <> 0 ->
         main_prelude K cl o g
         = (opened ++ flat_map (build_events g) (before ++ [oid]),
            Abort (CheckretFailed (exec_ret cl oid)))).
Proof.
  intros Hb Hn Hw Hq Hc Hi Ho opened. subst opened.
  assert (Hstart : main_prelude K cl o g
                   = (_ <~ emit ev_connect ;;
                      _ <~ emit (ev_ioctx_create (pool o)) ;;
                      _ <~ emit (ev_ioctx_create (pool o)) ;;
                      _ <~ worker_build_index cl g (rev targets) ;;
                      lift (Exit 0))).
  { rewrite main_prelude_unfold. unfold after_pool, lift, emit, assert, checkret.
    apply Z.gtb_lt in Hn, Hq. rewrite Hn, Hq, Hw, Hc, Hi, Ho, Hb.
    change (Z.to_nat 1) with 1%nat. cbn [create_ioctxs].
    unfold lift, emit, checkret. rewrite Hi.
    cbn [tbind tret Z.gtb Z.compare Z.eqb app].
    destruct (worker_build_index cl g (rev targets)) as [tr [[]| |]]; reflexivity. }
  rewrite Hstart. split.
  - intros Hall. rewrite worker_build_index_all.
    + unfold tbind, emit, lift. cbn [app]. now rewrite app_nil_r.
    + intros oid Hin. apply Hall. now apply in_rev.
  - intros before oid after Hsplit Hbefore Hfail.
    rewrite Hsplit, (worker_build_index_stops cl g before oid after Hbefore Hfail).
    reflexivity.
Qed.

Lemma X16_build_index_run_witness :
  main_prelude Sample.K (mk_cluster 0 0 (fun oid => if (oid =? "obj.1")%string then -5 else 0))
               (Sample.opts true "fwd") (Sample.knobs "nonsense" false)
  = ([ev_connect; ev_ioctx_create "tpc"; ev_ioctx_create "tpc"]
       ++ flat_map (build_events (Sample.knobs "nonsense" false)) (["obj.0"%string] ++ ["obj.1"%string]),
     Abort (CheckretFailed (-5))).
Proof.
  assert (Hn : 0 < num_objs (Sample.opts true "fwd")) by (cbn; lia).
  assert (Hq : 0 < qdepth (Sample.opts true "fwd")) by (cbn; lia).
  destruct (X16_build_index_run
              Sample.K
              (mk_cluster 0 0 (fun oid => if (oid =? "obj.1")%string then -5 else 0))
              (Sample.opts true "fwd") (Sample.knobs "nonsense" false)
              ["obj.1"; "obj.0"]%string
              eq_refl Hn eq_refl Hq eq_refl eq_refl eq_refl) as (_ & Hstop).
  apply (Hstop ["obj.0"%string] "obj.1"%string []).
  - reflexivity.
  - intros x [<-|[]]. reflexivity.
  - cbn. discriminate.
Defined.

(** ** The checks of the queries "e", "f" and "flatbuf" *)

(** X17. The check of query "e" passes exactly when [use_index] is off,
    both ship dates differ from -9999, both discount bounds differ from
    -9999.0 and the quantity from 0.0; that of query "f" exactly when
    [use_index] is off and the pattern is not empty. A check that passes
    prints one line and leaves every knob as it was; one that fails aborts
    on an assertion with nothing printed. *)
Theorem X17_range_and_regex_checks K o g :
  let range_ok :=
      negb (use_index g)
      && negb (ship_date_low g =? -9999) && negb (ship_date_high g =? -9999)
      && negb (SFeqb (discount_low g) sentinel)
      && negb (SFeqb (discount_high g) sentinel)
      && negb (SFeqb (quantity g) zero) in
  let regex_ok :=
      negb (use_index g) && negb (comment_regex g =? EmptyString)%string in
  (query g = "e"%string /\ range_ok = true
   \/ query g = "f"%string /\ regex_ok = true ->
   exists line, sanity_check K o g = ([ev_cout line], Ok g))
  /\ (query g = "e"%string /\ range_ok = false
      \/ query g = "f"%string /\ regex_ok = false ->
      exists expr, sanity_check K o g = ([], Abort (AssertFailed expr))).
Proof.
  cbv zeta. unfold sanity_check, lift, emit, assert, tret, tbind.
  split; (intros [(Hq & Hok)|(Hq & Hok)]; rewrite Hq; cbn [String.eqb Ascii.eqb Bool.eqb];
          revert Hok;
          destruct (use_index g); cbn [negb andb];
          repeat match goal with
                 | |- context [negb ?b] =>
                   lazymatch b with
                   | true => fail
                   | false => fail
                   | _ => destruct b; cbn [negb andb]
                   end
                 end;
          intros Hok; try discriminate Hok; eexists; reflexivity).
Qed.

Lemma X17_range_and_regex_checks_witness :
  (exists line,
      sanity_check Sample.K (Sample.opts false "fwd") Sample.range_knobs
      = ([ev_cout line], Ok Sample.range_knobs))
  /\ (exists expr,
         sanity_check Sample.K (Sample.opts false "fwd") (Sample.knobs "f" false)
         = ([], Abort (AssertFailed expr))).
Proof.
  split.
  - apply (proj1 (X17_range_and_regex_checks
                    Sample.K (Sample.opts false "fwd") Sample.range_knobs)).
    left. split; reflexivity.
  - apply (proj2 (X17_range_and_regex_checks
                    Sample.K (Sample.opts false "fwd") (Sample.knobs "f" false))).
    right. split; reflexivity.
Defined.

(** X18. Only the check of query "flatbuf" changes the knobs: every other
    check that passes returns them as they were. For "flatbuf", with the
    trimmed column list equal to the default (a star) the query schema is
    the table schema and [fastpath] is switched on, [projection] left as it
    was; with any other list [projection] is switched on, [fastpath] left as
    it was, and [main] aborts when the projected schema is empty. In both
    cases three lines are printed once the check has passed, [use_index] is
    not looked at, and the query and [use_cls] are kept. *)
Theorem X18_flatbuf_setup K o g :
  let current := snd (getSchemaFromSchemaString K (lineitem_test_schema_string K)) in
  let names := trim K (projected_col_names o) in
  let projected := getSchemaFromProjectCols K current names in
  (query g <> "flatbuf"%string ->
   forall g', snd (sanity_check K o g) = Ok g' -> g' = g)
  /\ (query g = "flatbuf"%string ->
      (names = star ->
       exists g',
         snd (sanity_check K o g) = Ok g'
         /\ length (fst (sanity_check K o g)) = 3%nat
         /\ fastpath g' = true /\ projection g' = projection g
         /\ table_schema_str g' = getSchemaStrFromSchema K current
         /\ query_schema_str g' = table_schema_str g'
         /\ query g' = query g /\ use_cls g' = use_cls g)
      /\ (names <> star -> projected = [] ->
          sanity_check K o g = ([], Abort (AssertFailed "query_schema.size() != 0")))
      /\ (names <> star -> projected <> [] ->
          exists g',
            snd (sanity_check K o g) = Ok g'
            /\ length (fst (sanity_check K o g)) = 3%nat
            /\ fastpath g' = fastpath g /\ projection g' = true
            /\ table_schema_str g' = getSchemaStrFromSchema K current
            /\ query_schema_str g' = getSchemaStrFromSchema K projected
            /\ query g' = query g /\ use_cls g' = use_cls g)).
Proof.
  cbv zeta. split.
  - intros Hq g'. unfold sanity_check, lift, emit, assert, tret, tbind.
    repeat match goal with
           | |- context [(query g =? ?s)%string] =>
             destruct (String.eqb_spec (query g) s)
           end; try contradiction;
      split_ifs; cbn [fst snd]; intros H; try discriminate H;
        injection H as <-; reflexivity.
  - intros Hq. unfold sanity_check. rewrite Hq.
    cbn [String.eqb Ascii.eqb Bool.eqb]. cbv zeta.
    unfold lift, emit, assert, tret, tbind.
    split; [|split].
    + intros Hstar. rewrite Hstar, String.eqb_refl. cbn [negb fst snd app length].
      eexists. repeat split; exact Hq.
    + intros Hstar Hempty. apply String.eqb_neq in Hstar. rewrite Hstar, Hempty.
      reflexivity.
    + intros Hstar Hsome. apply String.eqb_neq in Hstar. rewrite Hstar.
      destruct (getSchemaFromProjectCols K _ _) as [|col rest]; [contradiction|].
      cbn [length Nat.eqb negb fst snd app]. eexists. repeat split; exact Hq.
Qed.

Lemma X18_flatbuf_setup_witness :
  (forall g', snd (sanity_check Sample.K (Sample.opts false "fwd") Sample.range_knobs) = Ok g' ->
              g' = Sample.range_knobs)
  /\ exists g',
      snd (sanity_check Sample.K (Sample.opts false "fwd") (Sample.knobs "flatbuf" false))
      = Ok g'
      /\ fastpath g' = true.
Proof.
  destruct (X18_flatbuf_setup Sample.K (Sample.opts false "fwd") Sample.range_knobs)
    as (Hframe & _).
  destruct (X18_flatbuf_setup Sample.K (Sample.opts false "fwd")
                              (Sample.knobs "flatbuf" false))
    as (_ & Hflat).
  split.
  - apply Hframe. discriminate.
  - destruct (Hflat eq_refl) as (Hstar & _).
    destruct (Hstar eq_refl) as (g' & Hok & _ & Hfast & _).
    exists g'. split; assumption.
Defined.
